(** * MindCalls dashboard: transcript editor, gateway client, chat and
      dashboard coordinator

    A shallow embedding of the React front end (the interview reader with
    its segment editor, the [apiCall] gateway, the chat widget and the
    top-level [App]) together with the properties its specification states
    about them.

    Conventions of the embedding.
    - A JavaScript string is the list of its UTF-16 code units.
    - [null] and [undefined] of an optional value are [None].
    - A component's [useState] cells are the fields of a record; a handler
      is a function from the state before to the state after.
    - The browser environment a handler can touch ([localStorage], the
      console, the network, [window.location.reload]) is the record
      [world], threaded through every call.
    - An [async] handler is run from its call to its completion, the
      answers of the server being arguments of the handler; the dashboard
      batch, which waits on four requests at once, and the chat, where a
      request can leave while another is pending, are modelled event by
      event.
    - A setter called with an updater function is recorded with what the
      updater reads: it runs when React computes the next state, after
      the handler has gone on. *)

From Stdlib Require Import ZArith NArith Ascii String List Bool Lia.
From stdpp Require Import gmap strings list.
From Stdlib Require DecimalPos.

Local Open Scope Z_scope.

(** ** JavaScript strings and the operators the code applies to them *)

Module JS.

Definition jsstring : Type := list N.

(** A literal of the source, for literals written in ASCII. *)
Definition js (s : string) : jsstring :=
  map N_of_ascii (list_ascii_of_string s).

(** Truthiness of a value that is a string, [null] or [undefined]. *)
Definition truthy (v : option jsstring) : bool :=
  match v with
  | Some (_ :: _) => true
  | Some [] => false
  | None => false
  end.

(** [a || b] for an optional string [a] and a string [b]. *)
Definition or_else (a : option jsstring) (b : jsstring) : jsstring :=
  match a with
  | Some s => if truthy a then s else b
  | None => b
  end.

Fixpoint starts_with (pat s : jsstring) : bool :=
  match pat, s with
  | [], _ => true
  | _ :: _, [] => false
  | p :: pat', c :: s' => N.eqb p c && starts_with pat' s'
  end.

(** [s.includes(pat)]. *)
Fixpoint includes (s pat : jsstring) : bool :=
  starts_with pat s ||
  match s with
  | [] => false
  | _ :: s' => includes s' pat
  end.

(** White space and line terminators of ECMAScript, the code units
    [String.prototype.trim] removes. *)
Definition is_white_space (c : N) : bool :=
  let c := Z.of_N c in
  (9 <=? c) && (c <=? 13)
  || (c =? 32) || (c =? 160) || (c =? 5760)
  || (8192 <=? c) && (c <=? 8202)
  || (c =? 8232) || (c =? 8233) || (c =? 8239) || (c =? 8287)
  || (c =? 12288) || (c =? 65279).

Fixpoint trim_start (s : jsstring) : jsstring :=
  match s with
  | [] => []
  | c :: s' => if is_white_space c then trim_start s' else s
  end.

Definition trim_end (s : jsstring) : jsstring :=
  rev (trim_start (rev s)).

(** [s.trim()]. *)
Definition trim (s : jsstring) : jsstring := trim_end (trim_start s).

(** [`${v}`] for a string or [null]. *)
Definition template (v : option jsstring) : jsstring :=
  match v with
  | Some s => s
  | None => js "null"
  end.

End JS.

Import JS.

Arguments js : simpl never.

(** ** Data model: what the remote service returns *)

Record tags : Type := {
  tag_sentiment : option jsstring;
  tag_theme : option jsstring;
  tag_notes : option jsstring
}.

Record segment : Type := {
  seg_id : jsstring;
  seg_speaker : jsstring;
  seg_text : jsstring;
  seg_edited_text : option jsstring;
  seg_editable : bool;
  seg_tags : option tags
}.

Record rating_scores : Type := {
  udvalg_af_varer : Z;
  overskuelighed_indretning : Z;
  stemning_personal : Z;
  prisniveau_kvalitet : Z;
  samlet_karakter : Z
}.

(** The answer of [GET interview/{id}]. *)
Record interview_detail : Type := {
  det_supermarket : jsstring;
  det_timestamp : jsstring;
  det_duration : Z;
  det_status : jsstring;
  det_editable : bool;
  det_segments : list segment;
  det_transcript : option jsstring;
  det_ratings : option rating_scores
}.

(** An entry of [GET interviews]. *)
Record interview : Type := {
  int_id : jsstring;
  int_supermarket : option jsstring;
  int_transcript : option jsstring;
  int_status : option jsstring;
  int_duration : Z
}.

(** The answer of [GET themes/available]; the field may be missing. *)
Record themes_available : Type := {
  available : option (list jsstring)
}.

Record user_record : Type := {
  email : option jsstring;
  accessLevel : option jsstring
}.

(** ** The browser environment *)

Inductive json_body : Type :=
| EditBody (interview_id : option jsstring) (segment_id edited_text : jsstring)
| TagBody (interview_id : option jsstring)
          (segment_id sentiment theme notes : jsstring)
| ChatBody (question : jsstring).

Record options : Type := {
  opt_method : option jsstring;
  opt_body : option json_body;
  opt_headers : gmap string jsstring
}.

(** [options = {}]. *)
Definition no_options : options :=
  {| opt_method := None; opt_body := None; opt_headers := ∅ |}.

Definition post (b : json_body) : options :=
  {| opt_method := Some (js "POST"); opt_body := Some b; opt_headers := ∅ |}.

(** A request handed to [fetch]; the URL is
    [`${API_BASE_URL}/api/${endpoint}`], of which only the end varies. *)
Record request : Type := {
  rq_endpoint : jsstring;
  rq_method : option jsstring;
  rq_body : option json_body;
  rq_headers : gmap string jsstring
}.

Inductive console_entry : Type :=
| console_log (what : jsstring)
| console_error (what : jsstring).

Record world : Type := {
  localStorage : gmap string jsstring;
  reloads : nat;
  console : list console_entry;
  network : list request
}.

Definition set_localStorage (w : world) (s : gmap string jsstring) : world :=
  {| localStorage := s; reloads := reloads w;
     console := console w; network := network w |}.

Definition window_location_reload (w : world) : world :=
  {| localStorage := localStorage w; reloads := S (reloads w);
     console := console w; network := network w |}.

Definition console_write (w : world) (e : console_entry) : world :=
  {| localStorage := localStorage w; reloads := reloads w;
     console := console w ++ [e]; network := network w |}.

Definition fetch_send (w : world) (r : request) : world :=
  {| localStorage := localStorage w; reloads := reloads w;
     console := console w; network := network w ++ [r] |}.

(** What [fetch] and the reading of the body come back with: the promise
    of [fetch] rejects, or there is a response with its status; [parsed]
    is the value of [response.json()], [None] when the body is no JSON. *)
Inductive fetch_result (A : Type) : Type :=
| NetworkFailure
| HttpResponse (status : Z) (statusText body_text : jsstring)
               (parsed : option A).

Arguments NetworkFailure {A}.
Arguments HttpResponse {A} status statusText body_text parsed.

Inductive js_error : Type :=
| FetchError
| ApiError (status : Z) (statusText body_text : jsstring)
| SyntaxError
| TypeError.

(** How an [async] call ends: it returns a value ([None] is
    [undefined]) or it throws. *)
Inductive outcome (A : Type) : Type :=
| Returned (v : option A)
| Threw (e : js_error).

Arguments Returned {A} v.
Arguments Threw {A} e.

(** ** Auth utility functions *)

Definition getStoredToken (w : world) : option jsstring :=
  localStorage w !! "access_token"%string.

Definition getStoredUser (w : world) : user_record :=
  {| email := localStorage w !! "user_email"%string;
     accessLevel := localStorage w !! "access_level"%string |}.

Definition clearStoredAuth (w : world) : world :=
  set_localStorage w
    (delete "access_level"%string
       (delete "user_email"%string
          (delete "access_token"%string (localStorage w)))).

(** ** The gateway client *)

(** [response.ok]. *)
Definition response_ok (status : Z) : bool :=
  (200 <=? status) && (status <=? 299).

(** The headers of the request: the JSON default, the bearer token when
    one is stored, then the caller's own, a later entry replacing an
    earlier one of the same name. *)
Definition request_headers (token : option jsstring) (o : options)
  : gmap string jsstring :=
  opt_headers o
  ∪ (if truthy token
     then {[ "Authorization"%string := js "Bearer " ++ template token ]}
     else ∅)
  ∪ {[ "Content-Type"%string := js "application/json" ]}.

(** [apiCall] up to its first [await]: the token is read and the request
    leaves. *)
Definition apiCall_send (w : world) (endpoint : jsstring) (o : options)
  : world :=
  let token := getStoredToken w in
  let w := console_write w (console_log (js "Making API call to: " ++ endpoint)) in
  fetch_send w {| rq_endpoint := endpoint;
                  rq_method := opt_method o;
                  rq_body := opt_body o;
                  rq_headers := request_headers token o |}.

(** [apiCall] from the answer of [fetch] on. *)
Definition apiCall_receive {A : Type} (w : world) (endpoint : jsstring)
    (r : fetch_result A) : world * outcome A :=
  let failed := console_error (js "API call failed for " ++ endpoint) in
  match r with
  | NetworkFailure => (console_write w failed, Threw FetchError)
  | HttpResponse status statusText body_text parsed =>
      let w := console_write w (console_log (js "API response for " ++ endpoint)) in
      if status =? 401 then
        (window_location_reload (clearStoredAuth w), Returned None)
      else if negb (response_ok status) then
        (console_write w failed, Threw (ApiError status statusText body_text))
      else
        match parsed with
        | Some data =>
            (console_write w (console_log (js "API data for " ++ endpoint)),
             Returned (Some data))
        | None => (console_write w failed, Threw SyntaxError)
        end
  end.

Definition apiCall {A : Type} (w : world) (endpoint : jsstring) (o : options)
    (r : fetch_result A) : world * outcome A :=
  apiCall_receive (apiCall_send w endpoint o) endpoint r.

(** ** The interview reader and its segments
    ([EnhancedInterviewReaderWidget], [SegmentDisplay]) *)

Module Reader.

(** The [useState] cells of one mounted [SegmentDisplay]. *)
Record local : Type := {
  showTagging : bool;
  selectedSentiment : jsstring;
  selectedTheme : jsstring;
  notes : jsstring
}.

Definition tag_field (s : segment) (f : tags -> option jsstring)
  : option jsstring :=
  match seg_tags s with
  | Some t => f t
  | None => None
  end.

(** The initial values of the cells, read from the segment at mount. *)
Definition initial_local (s : segment) : local :=
  {| showTagging := false;
     selectedSentiment := or_else (tag_field s tag_sentiment) [];
     selectedTheme := or_else (tag_field s tag_theme) [];
     notes := or_else (tag_field s tag_notes) [] |}.

(** The cells of the widget, and those of the segments mounted under it,
    a segment being known to React by its key [segment.id]. *)
Record state : Type := {
  selectedInterview : option jsstring;
  fullTranscript : option interview_detail;
  loadingTranscript : bool;
  filter_text : jsstring;
  editingSegment : option jsstring;
  editText : jsstring;
  availableThemes : list jsstring;
  locals : gmap jsstring local
}.

Definition initial : state :=
  {| selectedInterview := None; fullTranscript := None;
     loadingTranscript := false; filter_text := [];
     editingSegment := None; editText := [];
     availableThemes := []; locals := ∅ |}.

Definition local_of (st : state) (s : segment) : local :=
  default (initial_local s) (locals st !! seg_id s).

(** The calls of the state setters. *)
Inductive action : Type :=
| setSelectedInterview (v : option jsstring)
| setFullTranscript (v : option interview_detail)
| setLoadingTranscript (b : bool)
| setFilter (v : jsstring)
| setEditingSegment (v : option jsstring)
| setEditText (v : jsstring)
| setAvailableThemes (v : list jsstring)
| setShowTagging (s : segment) (b : bool)
| setSelectedSentiment (s : segment) (v : jsstring)
| setSelectedTheme (s : segment) (v : jsstring)
| setNotes (s : segment) (v : jsstring).

Definition with_local (st : state) (s : segment) (l : local) : state :=
  {| selectedInterview := selectedInterview st;
     fullTranscript := fullTranscript st;
     loadingTranscript := loadingTranscript st;
     filter_text := filter_text st;
     editingSegment := editingSegment st;
     editText := editText st;
     availableThemes := availableThemes st;
     locals := <[seg_id s := l]> (locals st) |}.

(** One setter call. While [loadingTranscript] is true the transcript
    panel is replaced by the spinner, so every [SegmentDisplay] is
    unmounted and its cells are lost. *)
Definition apply_action (st : state) (a : action) : state :=
  match a with
  | setSelectedInterview v =>
      {| selectedInterview := v;
         fullTranscript := fullTranscript st;
         loadingTranscript := loadingTranscript st;
         filter_text := filter_text st;
         editingSegment := editingSegment st;
         editText := editText st;
         availableThemes := availableThemes st;
         locals := locals st |}
  | setFullTranscript v =>
      {| selectedInterview := selectedInterview st;
         fullTranscript := v;
         loadingTranscript := loadingTranscript st;
         filter_text := filter_text st;
         editingSegment := editingSegment st;
         editText := editText st;
         availableThemes := availableThemes st;
         locals := locals st |}
  | setLoadingTranscript b =>
      {| selectedInterview := selectedInterview st;
         fullTranscript := fullTranscript st;
         loadingTranscript := b;
         filter_text := filter_text st;
         editingSegment := editingSegment st;
         editText := editText st;
         availableThemes := availableThemes st;
         locals := if b then ∅ else locals st |}
  | setFilter v =>
      {| selectedInterview := selectedInterview st;
         fullTranscript := fullTranscript st;
         loadingTranscript := loadingTranscript st;
         filter_text := v;
         editingSegment := editingSegment st;
         editText := editText st;
         availableThemes := availableThemes st;
         locals := locals st |}
  | setEditingSegment v =>
      {| selectedInterview := selectedInterview st;
         fullTranscript := fullTranscript st;
         loadingTranscript := loadingTranscript st;
         filter_text := filter_text st;
         editingSegment := v;
         editText := editText st;
         availableThemes := availableThemes st;
         locals := locals st |}
  | setEditText v =>
      {| selectedInterview := selectedInterview st;
         fullTranscript := fullTranscript st;
         loadingTranscript := loadingTranscript st;
         filter_text := filter_text st;
         editingSegment := editingSegment st;
         editText := v;
         availableThemes := availableThemes st;
         locals := locals st |}
  | setAvailableThemes v =>
      {| selectedInterview := selectedInterview st;
         fullTranscript := fullTranscript st;
         loadingTranscript := loadingTranscript st;
         filter_text := filter_text st;
         editingSegment := editingSegment st;
         editText := editText st;
         availableThemes := v;
         locals := locals st |}
  | setShowTagging s b =>
      let l := local_of st s in
      with_local st s
        {| showTagging := b; selectedSentiment := selectedSentiment l;
           selectedTheme := selectedTheme l; notes := notes l |}
  | setSelectedSentiment s v =>
      let l := local_of st s in
      with_local st s
        {| showTagging := showTagging l; selectedSentiment := v;
           selectedTheme := selectedTheme l; notes := notes l |}
  | setSelectedTheme s v =>
      let l := local_of st s in
      with_local st s
        {| showTagging := showTagging l;
           selectedSentiment := selectedSentiment l;
           selectedTheme := v; notes := notes l |}
  | setNotes s v =>
      let l := local_of st s in
      with_local st s
        {| showTagging := showTagging l;
           selectedSentiment := selectedSentiment l;
           selectedTheme := selectedTheme l; notes := v |}
  end.

(** The setter calls of a handler, in the order it makes them. *)
Definition dispatch (st : state) (acts : list action) : state :=
  fold_left apply_action acts st.

(** *** The widget *)

Definition level_includes (u : option user_record) (pat : jsstring) : bool :=
  match u with
  | Some u =>
      match accessLevel u with
      | Some level => includes level pat
      | None => false
      end
  | None => false
  end.

Definition isEditable (u : option user_record) : bool :=
  level_includes u (js "Premium") || level_includes u (js "Admin").

Definition fetchThemes (w : world) (r : fetch_result themes_available)
  : world * list action :=
  let '(w, res) := apiCall w (js "themes/available") no_options r in
  match res with
  | Returned (Some data) =>
      (w, [setAvailableThemes (default [] (available data))])
  | Returned None =>
      (console_write w (console_error (js "Error fetching themes:")), [])
  | Threw _ =>
      (console_write w (console_error (js "Error fetching themes:")), [])
  end.

Definition fetchFullTranscript (w : world) (interviewId : option jsstring)
    (r : fetch_result interview_detail) : world * list action :=
  let '(w, res) :=
    apiCall w (js "interview/" ++ template interviewId) no_options r in
  match res with
  | Returned data =>
      (w, [setLoadingTranscript true;
           setFullTranscript data;
           setSelectedInterview interviewId;
           setLoadingTranscript false])
  | Threw _ =>
      (console_write w (console_error (js "Error fetching full transcript:")),
       [setLoadingTranscript true; setLoadingTranscript false])
  end.

Definition handleEditSegment (u : option user_record) (w : world) (st : state)
    (segmentId newText : jsstring)
    (r_edit : fetch_result unit) (r_detail : fetch_result interview_detail)
  : world * list action :=
  if negb (isEditable u) then (w, [])
  else
    let '(w, res) :=
      apiCall w (js "interview/edit")
        (post (EditBody (selectedInterview st) segmentId newText)) r_edit in
    match res with
    | Returned _ =>
        let '(w, acts) :=
          fetchFullTranscript w (selectedInterview st) r_detail in
        (w, acts ++ [setEditingSegment None])
    | Threw _ =>
        (console_write w (console_error (js "Error editing segment:")), [])
    end.

Definition handleTagSegment (u : option user_record) (w : world) (st : state)
    (segmentId sentiment theme notes : jsstring)
    (r_tag : fetch_result unit) (r_detail : fetch_result interview_detail)
  : world * list action :=
  if negb (isEditable u) then (w, [])
  else
    let '(w, res) :=
      apiCall w (js "interview/tag")
        (post (TagBody (selectedInterview st) segmentId sentiment theme notes))
        r_tag in
    match res with
    | Returned _ => fetchFullTranscript w (selectedInterview st) r_detail
    | Threw _ =>
        (console_write w (console_error (js "Error tagging segment:")), [])
    end.

(** *** One segment *)

Definition startEdit (s : segment) : list action :=
  [setEditingSegment (Some (seg_id s));
   setEditText (or_else (seg_edited_text s) (seg_text s))].

Definition saveEdit (u : option user_record) (w : world) (st : state) (s : segment)
    (r_edit : fetch_result unit) (r_detail : fetch_result interview_detail)
  : world * list action :=
  handleEditSegment u w st (seg_id s) (editText st) r_edit r_detail.

Definition cancelEdit : list action :=
  [setEditingSegment None; setEditText []].

(** [onTag] runs up to its first [await] (no setter is called before
    it), then the panel is closed, then [onTag] goes on. *)
Definition saveTags (u : option user_record) (w : world) (st : state) (s : segment)
    (r_tag : fetch_result unit) (r_detail : fetch_result interview_detail)
  : world * list action :=
  let l := local_of st s in
  let '(w, acts) :=
    handleTagSegment u w st (seg_id s)
      (selectedSentiment l) (selectedTheme l) (notes l) r_tag r_detail in
  (w, setShowTagging s false :: acts).

(** What [SegmentDisplay] returns, as far as it depends on the state. *)
Inductive buttons : Type :=
| SaveAndCancel
| EditAndTag.

Inductive text_view : Type :=
| Textarea (value : jsstring)
| Paragraph (content : jsstring).

Record segment_view : Type := {
  view_buttons : option buttons;
  view_text : text_view;
  view_chips : option tags;
  view_tagging_panel : option local
}.

(** [editingSegment === segment.id]. *)
Definition is_editing (st : state) (s : segment) : bool :=
  bool_decide (editingSegment st = Some (seg_id s)).

(** The prop [isEditable] is [isEditable && segment.editable] of the
    widget. *)
Definition SegmentDisplay (u : option user_record) (st : state) (s : segment)
  : segment_view :=
  let isEditable := isEditable u && seg_editable s in
  {| view_buttons :=
       if isEditable && seg_editable s
       then Some (if is_editing st s then SaveAndCancel else EditAndTag)
       else None;
     view_text :=
       if is_editing st s
       then Textarea (editText st)
       else Paragraph (or_else (seg_edited_text s) (seg_text s));
     view_chips := seg_tags s;
     view_tagging_panel :=
       if showTagging (local_of st s) && isEditable
       then Some (local_of st s)
       else None |}.

(** The segments on screen: none while the transcript loads or when no
    transcript is held. *)
Definition shown_segments (st : state) : list segment :=
  if loadingTranscript st then []
  else match fullTranscript st with
       | Some d => det_segments d
       | None => []
       end.

Definition transcript_view (u : option user_record) (st : state)
  : list segment_view :=
  map (SegmentDisplay u st) (shown_segments st).

(** *** What the user can do
    A segment is addressed by its place in the transcript on screen; an
    event is possible only when its control is rendered. The server's
    answers to the requests of an event travel with the event. *)
Inductive event : Type :=
| Mounted (r_themes : fetch_result themes_available)
| ClickInterview (interviewId : jsstring)
                 (r_detail : fetch_result interview_detail)
| ChangeFilter (v : jsstring)
| ClickEdit (i : nat)
| ChangeEditText (i : nat) (v : jsstring)
| ClickSaveEdit (i : nat) (r_edit : fetch_result unit)
                (r_detail : fetch_result interview_detail)
| ClickCancelEdit (i : nat)
| ClickTag (i : nat)
| ChangeSentiment (i : nat) (v : jsstring)
| ChangeTheme (i : nat) (v : jsstring)
| ChangeNotes (i : nat) (v : jsstring)
| ClickCancelTags (i : nat)
| ClickSaveTags (i : nat) (r_tag : fetch_result unit)
                (r_detail : fetch_result interview_detail).

Definition has_buttons (u : option user_record) (st : state) (s : segment)
    (b : buttons) : bool :=
  match view_buttons (SegmentDisplay u st s), b with
  | Some SaveAndCancel, SaveAndCancel => true
  | Some EditAndTag, EditAndTag => true
  | _, _ => false
  end.

Definition has_textarea (u : option user_record) (st : state) (s : segment) : bool :=
  match view_text (SegmentDisplay u st s) with
  | Textarea _ => true
  | Paragraph _ => false
  end.

Definition has_panel (u : option user_record) (st : state) (s : segment) : bool :=
  match view_tagging_panel (SegmentDisplay u st s) with
  | Some _ => true
  | None => false
  end.

(** The handler an event runs on a segment on screen, when its control
    is there. *)
Definition on_segment (st : state) (i : nat) (available : segment -> bool)
    (handler : segment -> world * list action)
  : option (world * list action) :=
  match shown_segments st !! i with
  | Some s => if available s then Some (handler s) else None
  | None => None
  end.

Definition handle (u : option user_record) (w : world) (st : state) (e : event)
  : option (world * list action) :=
  match e with
  | Mounted r => Some (fetchThemes w r)
  | ClickInterview interviewId r =>
      Some (fetchFullTranscript w (Some interviewId) r)
  | ChangeFilter v => Some (w, [setFilter v])
  | ClickEdit i =>
      on_segment st i (fun s => has_buttons u st s EditAndTag)
        (fun s => (w, startEdit s))
  | ChangeEditText i v =>
      on_segment st i (has_textarea u st) (fun _ => (w, [setEditText v]))
  | ClickSaveEdit i r_edit r_detail =>
      on_segment st i (fun s => has_buttons u st s SaveAndCancel)
        (fun s => saveEdit u w st s r_edit r_detail)
  | ClickCancelEdit i =>
      on_segment st i (fun s => has_buttons u st s SaveAndCancel)
        (fun _ => (w, cancelEdit))
  | ClickTag i =>
      on_segment st i (fun s => has_buttons u st s EditAndTag)
        (fun s => (w, [setShowTagging s (negb (showTagging (local_of st s)))]))
  | ChangeSentiment i v =>
      on_segment st i (has_panel u st)
        (fun s => (w, [setSelectedSentiment s v]))
  | ChangeTheme i v =>
      on_segment st i (has_panel u st) (fun s => (w, [setSelectedTheme s v]))
  | ChangeNotes i v =>
      on_segment st i (has_panel u st) (fun s => (w, [setNotes s v]))
  | ClickCancelTags i =>
      on_segment st i (has_panel u st)
        (fun s => (w, [setShowTagging s false]))
  | ClickSaveTags i r_tag r_detail =>
      on_segment st i (has_panel u st)
        (fun s => saveTags u w st s r_tag r_detail)
  end.

Definition step (u : option user_record) (c : world * state) (e : event)
  : option (world * state) :=
  match handle u (fst c) (snd c) e with
  | Some (w, acts) => Some (w, dispatch (snd c) acts)
  | None => None
  end.

Fixpoint run (u : option user_record) (c : world * state) (es : list event)
  : option (world * state) :=
  match es with
  | [] => Some c
  | e :: es' =>
      match step u c e with
      | Some c' => run u c' es'
      | None => None
      end
  end.

(** The configurations a session of the widget can be in, for a user
    and a browser environment at mount. *)
Definition reachable (u : option user_record) (w0 : world) (c : world * state)
  : Prop :=
  exists es, run u (w0, initial) es = Some c.

End Reader.

(** ** The chat widget ([ChatWidget]) *)

Module Chat.

Inductive sender : Type :=
| bot
| user.

Record message : Type := {
  type : sender;
  content : jsstring
}.

(** The answer of [POST chat]. *)
Record chat_response : Type := {
  answer : jsstring
}.

Record state : Type := {
  messages : list message;
  input : jsstring;
  isLoading : bool
}.

Definition greeting : jsstring :=
  js "Hej! Sp" ++ [248%N]
  ++ js "rg mig om interview data, temaer, karakterer eller sentiment.".

Definition apology : jsstring :=
  js "Beklager, jeg kunne ikke behandle dit sp" ++ [248%N]
  ++ js "rgsm" ++ [229%N] ++ js "l.".

Definition initial : state :=
  {| messages := [ {| type := bot; content := greeting |} ];
     input := []; isLoading := false |}.

(** The setter calls. [setMessages] is always given an updater that
    appends one message to the list of the moment. The updater of the
    answer, [prev => [...prev, { type: 'bot', content: response.answer }]],
    reads [response.answer] when React runs it to compute the next
    state, not when the handler passes it to [setMessages]. *)
Inductive action : Type :=
| setMessages_append (m : message)
| setMessages_append_answer (response : option chat_response)
| setInput (v : jsstring)
| setIsLoading (b : bool).

(** The next state of the widget. [None]: the updater throws, reading
    [answer] of [undefined], while the state is computed; the render
    fails and the error boundary of the dashboard takes the tree down,
    the widget with it. *)
Definition apply_action (st : state) (a : action) : option state :=
  match a with
  | setMessages_append m =>
      Some {| messages := messages st ++ [m];
              input := input st; isLoading := isLoading st |}
  | setMessages_append_answer (Some response) =>
      Some {| messages :=
                messages st ++ [ {| type := bot;
                                    content := answer response |} ];
              input := input st; isLoading := isLoading st |}
  | setMessages_append_answer None => None
  | setInput v =>
      Some {| messages := messages st; input := v;
              isLoading := isLoading st |}
  | setIsLoading b =>
      Some {| messages := messages st; input := input st;
              isLoading := b |}
  end.

Definition dispatch (st : state) (acts : list action) : option state :=
  fold_left
    (fun o a => match o with
                | Some st => apply_action st a
                | None => None
                end)
    acts (Some st).

(** [!input.trim()]. *)
Definition blank (s : jsstring) : bool := negb (truthy (Some (trim s))).

(** [handleSendMessage] for an input that is not blank, up to its
    [await]: the request leaves. *)
Definition handleSendMessage_start (w : world) (st : state)
  : world * list action :=
  let userMessage := {| type := user; content := input st |} in
  (apiCall_send w (js "chat") (post (ChatBody (input st))),
   [setMessages_append userMessage; setIsLoading true]).

(** [handleSendMessage] from the answer on. The [catch] block runs when
    [apiCall] throws; the updater that reads [response.answer] runs
    later, outside the [try]. *)
Definition handleSendMessage_resume (w : world)
    (r : fetch_result chat_response) : world * list action :=
  let '(w, res) := apiCall_receive w (js "chat") r in
  (w,
   match res with
   | Returned response => [setMessages_append_answer response]
   | Threw _ =>
       [setMessages_append {| type := bot; content := apology |}]
   end ++ [setInput []; setIsLoading false]).

(** One call of [handleSendMessage] from the click to its end, when
    nothing else happens to the widget in between. *)
Definition handleSendMessage (w : world) (st : state)
    (r : fetch_result chat_response) : world * list action :=
  if blank (input st) then (w, [])
  else
    let '(w, before) := handleSendMessage_start w st in
    let '(w, after) := handleSendMessage_resume w r in
    (w, before ++ after).

End Chat.

(** ** The top-level coordinator ([App]) *)

Module App.

Record overview_data : Type := {
  total_interviews : Z;
  active_interviews : Z;
  avg_duration : Z;
  trend_percentage : Z;
  assistant_name : jsstring;
  user_access_level : option jsstring
}.

Record theme : Type := {
  theme_name : jsstring;
  total_mentions : Z;
  positive : Z;
  neutral : Z;
  negative : Z;
  is_new : bool
}.

Record rating_category : Type := {
  label : jsstring;
  average : Z;
  color : jsstring
}.

(** The answers of [GET themes], [GET ratings] and [GET interviews];
    the one field of each may be missing. *)
Record themes_response : Type := {
  resp_themes : option (list theme)
}.

Record ratings_response : Type := {
  resp_ratings : option (gmap jsstring rating_category)
}.

Record interviews_response : Type := {
  resp_interviews : option (list interview)
}.

Record state : Type := {
  isAuthenticated : bool;
  user : option user_record;
  overview : option overview_data;
  themes : list theme;
  ratings : gmap jsstring rating_category;
  interviews : list interview;
  selectedAssistant : jsstring;
  isLoading : bool;
  error : option jsstring;
  lastUpdated : option jsstring
}.

Definition initial : state :=
  {| isAuthenticated := false; user := None; overview := None;
     themes := []; ratings := ∅; interviews := [];
     selectedAssistant := js "Supermarket int. dansk";
     isLoading := true; error := None; lastUpdated := None |}.

Inductive action : Type :=
| setIsAuthenticated (b : bool)
| setUser (v : option user_record)
| setOverview (v : option overview_data)
| setThemes (v : list theme)
| setRatings (v : gmap jsstring rating_category)
| setInterviews (v : list interview)
| setSelectedAssistant (v : jsstring)
| setIsLoading (b : bool)
| setError (v : option jsstring)
| setLastUpdated (v : option jsstring).

Definition apply_action (st : state) (a : action) : state :=
  match a with
  | setIsAuthenticated b =>
      {| isAuthenticated := b; user := user st; overview := overview st;
         themes := themes st; ratings := ratings st;
         interviews := interviews st;
         selectedAssistant := selectedAssistant st;
         isLoading := isLoading st; error := error st;
         lastUpdated := lastUpdated st |}
  | setUser v =>
      {| isAuthenticated := isAuthenticated st; user := v;
         overview := overview st;
         themes := themes st; ratings := ratings st;
         interviews := interviews st;
         selectedAssistant := selectedAssistant st;
         isLoading := isLoading st; error := error st;
         lastUpdated := lastUpdated st |}
  | setOverview v =>
      {| isAuthenticated := isAuthenticated st; user := user st;
         overview := v;
         themes := themes st; ratings := ratings st;
         interviews := interviews st;
         selectedAssistant := selectedAssistant st;
         isLoading := isLoading st; error := error st;
         lastUpdated := lastUpdated st |}
  | setThemes v =>
      {| isAuthenticated := isAuthenticated st; user := user st;
         overview := overview st;
         themes := v; ratings := ratings st;
         interviews := interviews st;
         selectedAssistant := selectedAssistant st;
         isLoading := isLoading st; error := error st;
         lastUpdated := lastUpdated st |}
  | setRatings v =>
      {| isAuthenticated := isAuthenticated st; user := user st;
         overview := overview st;
         themes := themes st; ratings := v;
         interviews := interviews st;
         selectedAssistant := selectedAssistant st;
         isLoading := isLoading st; error := error st;
         lastUpdated := lastUpdated st |}
  | setInterviews v =>
      {| isAuthenticated := isAuthenticated st; user := user st;
         overview := overview st;
         themes := themes st; ratings := ratings st;
         interviews := v;
         selectedAssistant := selectedAssistant st;
         isLoading := isLoading st; error := error st;
         lastUpdated := lastUpdated st |}
  | setSelectedAssistant v =>
      {| isAuthenticated := isAuthenticated st; user := user st;
         overview := overview st;
         themes := themes st; ratings := ratings st;
         interviews := interviews st;
         selectedAssistant := v;
         isLoading := isLoading st; error := error st;
         lastUpdated := lastUpdated st |}
  | setIsLoading b =>
      {| isAuthenticated := isAuthenticated st; user := user st;
         overview := overview st;
         themes := themes st; ratings := ratings st;
         interviews := interviews st;
         selectedAssistant := selectedAssistant st;
         isLoading := b; error := error st;
         lastUpdated := lastUpdated st |}
  | setError v =>
      {| isAuthenticated := isAuthenticated st; user := user st;
         overview := overview st;
         themes := themes st; ratings := ratings st;
         interviews := interviews st;
         selectedAssistant := selectedAssistant st;
         isLoading := isLoading st; error := v;
         lastUpdated := lastUpdated st |}
  | setLastUpdated v =>
      {| isAuthenticated := isAuthenticated st; user := user st;
         overview := overview st;
         themes := themes st; ratings := ratings st;
         interviews := interviews st;
         selectedAssistant := selectedAssistant st;
         isLoading := isLoading st; error := error st;
         lastUpdated := v |}
  end.

Definition dispatch (st : state) (acts : list action) : state :=
  fold_left apply_action acts st.

(** The effect run once at mount: a stored token and email make the
    session. *)
Definition check_authentication (w : world) : list action :=
  let token := getStoredToken w in
  let storedUser := getStoredUser w in
  if truthy token && truthy (email storedUser)
  then [setIsAuthenticated true; setUser (Some storedUser);
        setIsLoading false]
  else [setIsLoading false].

Definition handleLogout (w : world) : world * list action :=
  (clearStoredAuth w,
   [setIsAuthenticated false; setUser None; setOverview None;
    setThemes []; setRatings ∅; setInterviews []]).

(** What [App] returns: the spinner, the login view, the error page
    with its retry button, or the dashboard with, when [error] is set,
    the banner and its retry button. *)
Inductive page : Type :=
| LoadingPage
| LandingPage
| ErrorPage (message : jsstring)
| DashboardPage (banner : option jsstring).

Definition render (st : state) : page :=
  if isLoading st && negb (isAuthenticated st) then LoadingPage
  else if negb (isAuthenticated st) then LandingPage
  else
    match error st, overview st with
    | Some message, None =>
        if truthy (error st) then ErrorPage message
        else DashboardPage None
    | _, _ =>
        DashboardPage (if truthy (error st) then error st else None)
    end.

(** The page after [window.location.reload()]: the application starts
    again from its initial state over what is left in [localStorage]. *)
Definition page_after_reload (w : world) : page :=
  render (dispatch initial (check_authentication w)).

(** *** The batch of four requests ([fetchAllData]) *)

Inductive promise (A : Type) : Type :=
| Pending
| Settled (o : outcome A).

Arguments Pending {A}.
Arguments Settled {A} o.

(** A batch in flight: the four promises handed to [Promise.all], and
    whether the promise of [Promise.all] has settled, after which the
    rest of [fetchAllData] has run. *)
Record batch : Type := {
  showLoading : bool;
  overviewData : promise overview_data;
  themesData : promise themes_response;
  ratingsData : promise ratings_response;
  interviewsData : promise interviews_response;
  finished : bool
}.

Definition load_error : jsstring :=
  js "Kunne ikke indl" ++ [230%N]
  ++ js "se dashboard data. Tjek din internetforbindelse.".

(** [fetchAllData] up to its [await]: the four calls are made one after
    the other, each up to its own first [await]. *)
Definition fetchAllData_start (w : world) (show : bool)
  : world * list action * batch :=
  let w := console_write w (console_log (js "Fetching dashboard data...")) in
  let w := apiCall_send w (js "overview") no_options in
  let w := apiCall_send w (js "themes") no_options in
  let w := apiCall_send w (js "ratings") no_options in
  let w := apiCall_send w (js "interviews") no_options in
  (w,
   (if show then [setIsLoading true] else []) ++ [setError None],
   {| showLoading := show;
      overviewData := Pending; themesData := Pending;
      ratingsData := Pending; interviewsData := Pending;
      finished := false |}).

(** The [finally] block. *)
Definition finally (b : batch) : list action :=
  if showLoading b then [setIsLoading false] else [].

(** The [catch] block, after the setter calls [done] of the [try]. *)
Definition catch (w : world) (b : batch) (done : list action)
  : world * list action :=
  (console_write w (console_error (js "Error fetching dashboard data:")),
   done ++ [setError (Some load_error)] ++ finally b).

(** The rest of the [try] block once [Promise.all] is fulfilled with
    the four values; reading a field of [undefined] throws. *)
Definition fetchAllData_resume (w : world) (b : batch) (clock : jsstring)
    (overviewData : option overview_data)
    (themesData : option themes_response)
    (ratingsData : option ratings_response)
    (interviewsData : option interviews_response)
  : world * list action :=
  let w := console_write w (console_log (js "API responses:")) in
  let a1 := [setOverview overviewData] in
  match themesData with
  | None => catch w b a1
  | Some t =>
      let a2 := a1 ++ [setThemes (default [] (resp_themes t))] in
      match ratingsData with
      | None => catch w b a2
      | Some r =>
          let a3 := a2 ++ [setRatings (default ∅ (resp_ratings r))] in
          match interviewsData with
          | None => catch w b a3
          | Some i =>
              (console_write w
                 (console_log (js "Dashboard data loaded successfully")),
               a3 ++ [setInterviews (default [] (resp_interviews i));
                      setLastUpdated (Some clock)]
               ++ finally b)
          end
      end
  end.

(** [Promise.all] after one of its promises has settled: it rejects
    with the first rejection, whatever is still pending, and is
    fulfilled when the four are. Once it has settled, nothing follows
    from the promises that settle later. *)
Definition promise_all (w : world) (b : batch) (clock : jsstring)
    (rejected : bool) : world * list action * batch :=
  let settled :=
    {| showLoading := showLoading b;
       overviewData := overviewData b; themesData := themesData b;
       ratingsData := ratingsData b; interviewsData := interviewsData b;
       finished := true |} in
  if finished b then (w, [], b)
  else if rejected then
    let '(w, acts) := catch w b [] in (w, acts, settled)
  else
    match overviewData b, themesData b, ratingsData b, interviewsData b with
    | Settled (Returned o), Settled (Returned t),
      Settled (Returned r), Settled (Returned i) =>
        let '(w, acts) := fetchAllData_resume w b clock o t r i in
        (w, acts, settled)
    | _, _, _, _ => (w, [], b)
    end.

Definition is_rejection {A : Type} (o : outcome A) : bool :=
  match o with
  | Threw _ => true
  | Returned _ => false
  end.

(** The answer to one of the four requests comes in. *)
Inductive arrival : Type :=
| overview_arrives (r : fetch_result overview_data)
| themes_arrives (r : fetch_result themes_response)
| ratings_arrives (r : fetch_result ratings_response)
| interviews_arrives (r : fetch_result interviews_response).

Definition is_pending {A : Type} (p : promise A) : bool :=
  match p with
  | Pending => true
  | Settled _ => false
  end.

(** The rest of the [apiCall] the answer belongs to, then
    [Promise.all]; [None] when that request has been answered
    already. *)
Definition fetchAllData_arrive (w : world) (b : batch) (clock : jsstring)
    (a : arrival) : option (world * list action * batch) :=
  match a with
  | overview_arrives r =>
      if is_pending (overviewData b) then
        let '(w, o) := apiCall_receive w (js "overview") r in
        Some (promise_all w
                {| showLoading := showLoading b;
                   overviewData := Settled o; themesData := themesData b;
                   ratingsData := ratingsData b;
                   interviewsData := interviewsData b;
                   finished := finished b |}
                clock (is_rejection o))
      else None
  | themes_arrives r =>
      if is_pending (themesData b) then
        let '(w, o) := apiCall_receive w (js "themes") r in
        Some (promise_all w
                {| showLoading := showLoading b;
                   overviewData := overviewData b; themesData := Settled o;
                   ratingsData := ratingsData b;
                   interviewsData := interviewsData b;
                   finished := finished b |}
                clock (is_rejection o))
      else None
  | ratings_arrives r =>
      if is_pending (ratingsData b) then
        let '(w, o) := apiCall_receive w (js "ratings") r in
        Some (promise_all w
                {| showLoading := showLoading b;
                   overviewData := overviewData b;
                   themesData := themesData b;
                   ratingsData := Settled o;
                   interviewsData := interviewsData b;
                   finished := finished b |}
                clock (is_rejection o))
      else None
  | interviews_arrives r =>
      if is_pending (interviewsData b) then
        let '(w, o) := apiCall_receive w (js "interviews") r in
        Some (promise_all w
                {| showLoading := showLoading b;
                   overviewData := overviewData b;
                   themesData := themesData b;
                   ratingsData := ratingsData b;
                   interviewsData := Settled o;
                   finished := finished b |}
                clock (is_rejection o))
      else None
  end.

(** The dashboard with a batch in flight. *)
Record config : Type := {
  env : world;
  app : state;
  flight : batch
}.

(** [fetchAllData(showLoading)] is called. *)
Definition fetchAllData (w : world) (st : state) (show : bool) : config :=
  let '(w, acts, b) := fetchAllData_start w show in
  {| env := w; app := dispatch st acts; flight := b |}.

(** The retry button. *)
Definition handleRetry (w : world) (st : state) : config :=
  fetchAllData w st true.

Definition arrive (c : config) (clock : jsstring) (a : arrival)
  : option config :=
  match fetchAllData_arrive (env c) (flight c) clock a with
  | Some (w, acts, b) =>
      Some {| env := w; app := dispatch (app c) acts; flight := b |}
  | None => None
  end.

Fixpoint arrivals (c : config) (clock : jsstring) (l : list arrival)
  : option config :=
  match l with
  | [] => Some c
  | a :: l' =>
      match arrive c clock a with
      | Some c' => arrivals c' clock l'
      | None => None
      end
  end.

(** How many of the four requests are still without an answer. *)
Definition pending_count (b : batch) : nat :=
  (if is_pending (overviewData b) then 1 else 0)
  + (if is_pending (themesData b) then 1 else 0)
  + (if is_pending (ratingsData b) then 1 else 0)
  + (if is_pending (interviewsData b) then 1 else 0).

End App.

(** ** Reading the server's answers and the traffic of a call *)

(** The data [apiCall] returns for an answer: the parsed body of a 2xx
    response. *)
Definition payload {A : Type} (r : fetch_result A) : option A :=
  match r with
  | NetworkFailure => None
  | HttpResponse status _ _ parsed =>
      if response_ok status then parsed else None
  end.

(** A network failure or a response whose status is not 2xx. *)
Definition is_failure {A : Type} (r : fetch_result A) : bool :=
  match r with
  | NetworkFailure => true
  | HttpResponse status _ _ _ => negb (response_ok status)
  end.

Definition is_unauthorized {A : Type} (r : fetch_result A) : bool :=
  match r with
  | NetworkFailure => false
  | HttpResponse status _ _ _ => status =? 401
  end.

(** How [apiCall] ends for an answer. *)
Definition outcome_of {A : Type} (r : fetch_result A) : outcome A :=
  snd (apiCall_receive
         {| localStorage := ∅; reloads := 0%nat; console := [];
            network := [] |} [] r).

(** The answer makes its [apiCall] throw: the fetch has failed. *)
Definition arrival_rejects (a : App.arrival) : bool :=
  match a with
  | App.overview_arrives r => App.is_rejection (outcome_of r)
  | App.themes_arrives r => App.is_rejection (outcome_of r)
  | App.ratings_arrives r => App.is_rejection (outcome_of r)
  | App.interviews_arrives r => App.is_rejection (outcome_of r)
  end.

(** The setter calls that touch neither the edit slot, nor the edit
    buffer, nor a segment's own cells. *)
Definition leaves_editor_alone (a : Reader.action) : bool :=
  match a with
  | Reader.setSelectedInterview _ => true
  | Reader.setFullTranscript _ => true
  | Reader.setLoadingTranscript _ => true
  | Reader.setFilter _ => true
  | Reader.setAvailableThemes _ => true
  | _ => false
  end.

(** No segment is being edited and no segment holds cells of its own. *)
Definition editor_idle (st : Reader.state) : Prop :=
  Reader.editingSegment st = None /\ Reader.locals st = ∅.

(** The requests sent between two moments. *)
Definition sent_since (before after : world) : list request :=
  drop (length (network before)) (network after).

(** Method, endpoint and body of a request. *)
Definition request_line (r : request)
  : option jsstring * jsstring * option json_body :=
  (rq_method r, rq_endpoint r, rq_body r).

Definition GET (endpoint : jsstring)
  : option jsstring * jsstring * option json_body :=
  (None, endpoint, None).

Definition POST (endpoint : jsstring) (b : json_body)
  : option jsstring * jsstring * option json_body :=
  (Some (js "POST"), endpoint, Some b).

(** The request [apiCall] sends for an endpoint and options. *)
Definition request_of (w : world) (endpoint : jsstring) (o : options)
  : request :=
  {| rq_endpoint := endpoint; rq_method := opt_method o;
     rq_body := opt_body o;
     rq_headers := request_headers (getStoredToken w) o |}.

(** The text a segment would show if [edited_text], whenever present,
    replaced [text]. *)
Definition override_or_original (s : segment) : jsstring :=
  match seg_edited_text s with
  | Some e => e
  | None => seg_text s
  end.

(** ** Sample data: a session, an interview and its segments *)

Module Sample.

Definition session : gmap string jsstring :=
  <["access_token"%string := js "tok"]>
    (<["user_email"%string := js "a@b.dk"]>
       (<["access_level"%string := js "Premium"]> ∅)).

Definition browser : world :=
  {| localStorage := session; reloads := 0%nat;
     console := []; network := [] |}.

Definition premium : option user_record :=
  Some {| email := Some (js "a@b.dk"); accessLevel := Some (js "Premium") |}.

Definition standard : option user_record :=
  Some {| email := Some (js "c@d.dk"); accessLevel := Some (js "Standard") |}.

Definition trial : option user_record :=
  Some {| email := Some (js "e@f.dk");
          accessLevel := Some (js "Premium-trial") |}.

Definition seg_1 : segment :=
  {| seg_id := js "seg-1"; seg_speaker := js "AI";
     seg_text := js "Hvordan var dit indtryk af butikken?";
     seg_edited_text := None; seg_editable := false; seg_tags := None |}.

Definition seg_2 : segment :=
  {| seg_id := js "seg-2"; seg_speaker := js "customer";
     seg_text := js "Det var fint";
     seg_edited_text := Some []; seg_editable := true; seg_tags := None |}.

Definition seg_3 : segment :=
  {| seg_id := js "seg-3"; seg_speaker := js "customer";
     seg_text := js "Som forventet";
     seg_edited_text := Some (js "Bedre end forventet");
     seg_editable := true;
     seg_tags := Some {| tag_sentiment := Some (js "positive");
                         tag_theme := Some (js "Service");
                         tag_notes := None |} |}.

Definition int_7 : interview_detail :=
  {| det_supermarket := js "Netto"; det_timestamp := js "2025-01-01T10:00:00";
     det_duration := 185; det_status := js "completed";
     det_editable := true;
     det_segments := [seg_1; seg_2; seg_3];
     det_transcript := None; det_ratings := None |}.

(** The same interview after the server has stored an edit of
    [seg-2]. *)
Definition int_7_edited : interview_detail :=
  {| det_supermarket := js "Netto"; det_timestamp := js "2025-01-01T10:00:00";
     det_duration := 185; det_status := js "completed";
     det_editable := true;
     det_segments :=
       [seg_1;
        {| seg_id := js "seg-2"; seg_speaker := js "customer";
           seg_text := js "Det var fint";
           seg_edited_text := Some (js "Det var rigtig fint");
           seg_editable := true; seg_tags := None |};
        seg_3];
     det_transcript := None; det_ratings := None |}.

Definition ok {A : Type} (d : A) : fetch_result A :=
  HttpResponse 200 (js "OK") [] (Some d).

Definition unauthorized {A : Type} : fetch_result A :=
  HttpResponse 401 (js "Unauthorized") [] None.

Definition server_error {A : Type} : fetch_result A :=
  HttpResponse 500 (js "Internal Server Error") (js "boom") None.

(** The reader with [int-7] open. *)
Definition reading : Reader.state :=
  {| Reader.selectedInterview := Some (js "int-7");
     Reader.fullTranscript := Some int_7;
     Reader.loadingTranscript := false;
     Reader.filter_text := [];
     Reader.editingSegment := None;
     Reader.editText := [];
     Reader.availableThemes := [js "Service"; js "Priser"];
     Reader.locals := ∅ |}.

(** The same, while [seg-2] is edited. *)
Definition editing : Reader.state :=
  Reader.dispatch reading (Reader.startEdit seg_2).

(** The application once mounted over the stored session. *)
Definition signed_in : App.state :=
  App.dispatch App.initial (App.check_authentication browser).

End Sample.

(** ** Numbers and text on screen
    ([formatDuration], the duration of the response log, the preview of
    a transcript, the search box) *)

Module Display.

Fixpoint uint_units (d : Decimal.uint) : jsstring :=
  match d with
  | Decimal.Nil => []
  | Decimal.D0 d => 48%N :: uint_units d
  | Decimal.D1 d => 49%N :: uint_units d
  | Decimal.D2 d => 50%N :: uint_units d
  | Decimal.D3 d => 51%N :: uint_units d
  | Decimal.D4 d => 52%N :: uint_units d
  | Decimal.D5 d => 53%N :: uint_units d
  | Decimal.D6 d => 54%N :: uint_units d
  | Decimal.D7 d => 55%N :: uint_units d
  | Decimal.D8 d => 56%N :: uint_units d
  | Decimal.D9 d => 57%N :: uint_units d
  end.

(** [n.toString()] and [`${n}`] for an integer [n]. *)
Definition toString (n : Z) : jsstring :=
  match n with
  | Z0 => [48%N]
  | Zpos p => uint_units (Pos.to_uint p)
  | Zneg p => 45%N :: uint_units (Pos.to_uint p)
  end.

(** [s.padStart(n, c)] for a one-unit filler [c]. *)
Definition padStart (n : nat) (c : N) (s : jsstring) : jsstring :=
  repeat c (n - length s) ++ s.

(** [Math.floor(seconds / 60)] and [seconds % 60]: the quotient is
    rounded down, the remainder has the sign of [seconds]. *)
Definition minutes_of (seconds : Z) : Z := seconds / 60.

Definition remainingSeconds_of (seconds : Z) : Z := Z.rem seconds 60.

(** [formatDuration] of the interview reader; [None] is a missing
    duration. *)
Definition formatDuration (seconds : option Z) : jsstring :=
  match seconds with
  | None => js "0:00"
  | Some 0 => js "0:00"
  | Some seconds =>
      toString (minutes_of seconds) ++ js ":"
      ++ padStart 2 48%N (toString (remainingSeconds_of seconds))
  end.

(** The duration as the response log writes it, each half with its own
    test of [interview?.duration]. *)
Definition log_duration (duration : option Z) : jsstring :=
  let present :=
    match duration with
    | None => false
    | Some 0 => false
    | Some _ => true
    end in
  (if present then toString (minutes_of (default 0 duration)) else js "0")
  ++ js ":"
  ++ (if present
      then padStart 2 48%N (toString (remainingSeconds_of (default 0 duration)))
      else js "00").

(** [transcript ? transcript.substring(0, n) + '...' : fallback]. *)
Definition preview (n : nat) (fallback : jsstring)
    (transcript : option jsstring) : jsstring :=
  if truthy transcript
  then firstn n (default [] transcript) ++ js "..."
  else fallback.

Definition reader_preview : option jsstring -> jsstring :=
  preview 100 (js "Ingen transskription").

Definition log_preview : option jsstring -> jsstring :=
  preview 150 (js "Ingen transskription tilg" ++ [230%N] ++ js "ngelig").

(** The search box of the interview list. [toLowerCase] is the
    built-in of the language, taken as it is. *)
Section Search.

Variable toLowerCase : jsstring -> jsstring.

Definition matches (query : jsstring) (i : interview) : bool :=
  includes (toLowerCase (or_else (int_supermarket i) []))
    (toLowerCase query)
  || includes (toLowerCase (or_else (int_transcript i) []))
       (toLowerCase query).

Definition filteredInterviews (query : jsstring) (l : list interview)
  : list interview :=
  List.filter (matches query) l.

End Search.

End Display.

(** ** The login view ([LandingPage]) *)

(** The object [{ email, accessLevel }]. *)
Definition user_of (mail level : option jsstring) : user_record :=
  {| email := mail; accessLevel := level |}.

Module Landing.

(** A field of the JSON object the login answers with. *)
Inductive field : Type :=
| undefined
| null
| text (s : jsstring).

(** [String(v)], what [localStorage.setItem] stores for [v]. *)
Definition String_of (v : field) : jsstring :=
  match v with
  | undefined => js "undefined"
  | null => js "null"
  | text s => s
  end.

(** The field as a value that is a string or nothing. *)
Definition value_of (v : field) : option jsstring :=
  match v with
  | undefined => None
  | null => None
  | text s => Some s
  end.

Record login_data : Type := {
  access_token : field;
  data_email : field;
  access_level : field;
  detail : field
}.

(** The body of [POST auth/login]. *)
Record credentials : Type := {
  cred_email : jsstring;
  cred_access_code : jsstring
}.

Record state : Type := {
  email : jsstring;
  accessCode : jsstring;
  isLoading : bool;
  error : jsstring
}.

Definition initial : state :=
  {| email := []; accessCode := []; isLoading := false; error := [] |}.

Inductive action : Type :=
| setEmail (v : jsstring)
| setAccessCode (v : jsstring)
| setIsLoading (b : bool)
| setError (v : jsstring).

Definition apply_action (st : state) (a : action) : state :=
  match a with
  | setEmail v =>
      {| email := v; accessCode := accessCode st;
         isLoading := isLoading st; error := error st |}
  | setAccessCode v =>
      {| email := email st; accessCode := v;
         isLoading := isLoading st; error := error st |}
  | setIsLoading b =>
      {| email := email st; accessCode := accessCode st;
         isLoading := b; error := error st |}
  | setError v =>
      {| email := email st; accessCode := accessCode st;
         isLoading := isLoading st; error := v |}
  end.

Definition dispatch (st : state) (acts : list action) : state :=
  fold_left apply_action acts st.

Definition login_failed : jsstring :=
  js "Login fejlede. Tjek din email og adgangskode.".

Definition network_error : jsstring :=
  js "Netv" ++ [230%N] ++ js "rksfejl. Pr" ++ [248%N] ++ js "v igen.".

(** [isLoading || !email || !accessCode], the [disabled] of the submit
    button. *)
Definition submit_disabled (st : state) : bool :=
  isLoading st
  || negb (truthy (Some (email st)))
  || negb (truthy (Some (accessCode st))).

Definition setItem (w : world) (key : string) (v : field) : world :=
  set_localStorage w (<[key := String_of v]> (localStorage w)).

(** [handleLogin] of [App], the [onLogin] of the view. *)
Definition handleLogin (loginData : login_data) : list App.action :=
  [App.setIsAuthenticated true;
   App.setUser (Some (user_of (value_of (data_email loginData))
                              (value_of (access_level loginData))))].

(** What a submit of the form comes to. *)
Record submitted : Type := {
  sent : credentials;
  env : world;
  view_actions : list action;
  app_actions : list App.action
}.

(** [handleSubmit]. The form calls [fetch] itself, not the gateway: the
    body it posts is the field [sent] of the result. The body of the
    answer is read as JSON before the status is looked at. *)
Definition handleSubmit (w : world) (st : state) (r : fetch_result login_data)
  : submitted :=
  let body :=
    {| cred_email := trim (email st);
       cred_access_code := trim (accessCode st) |} in
  let failed :=
    {| sent := body;
       env := console_write w (console_error (js "Login error:"));
       view_actions :=
         [setIsLoading true; setError []; setError network_error;
          setIsLoading false];
       app_actions := [] |} in
  match r with
  | NetworkFailure => failed
  | HttpResponse status _ _ None => failed
  | HttpResponse status _ _ (Some data) =>
      if response_ok status then
        {| sent := body;
           env :=
             setItem
               (setItem (setItem w "access_token" (access_token data))
                  "user_email" (data_email data))
               "access_level" (access_level data);
           view_actions := [setIsLoading true; setError []; setIsLoading false];
           app_actions := handleLogin data |}
      else
        {| sent := body;
           env := w;
           view_actions :=
             [setIsLoading true; setError [];
              setError (or_else (value_of (detail data)) login_failed);
              setIsLoading false];
           app_actions := [] |}
  end.

End Landing.

(** ** A conversation with the chat widget *)

Module ChatSession.

(** What happens to one mounted instance of the widget: the user types,
    clicks [Send], presses Enter in the input, or the answer to a
    pending request comes in. The button is disabled while [isLoading] holds; the Enter
    key is not, and the input is cleared only when an answer has come
    in, so a request can leave while another is pending. *)
Inductive event : Type :=
| ChangeInput (v : jsstring)
| ClickSend
| PressEnter
| Answer (r : fetch_result Chat.chat_response).

(** [widget] is [None] once the error boundary has taken the widget
    down; [pending] counts the requests that have no answer yet. *)
Record session : Type := {
  env : world;
  widget : option Chat.state;
  pending : nat
}.

Definition start (w : world) : session :=
  {| env := w; widget := Some Chat.initial; pending := 0 |}.

(** A call of [handleSendMessage] up to its [await]. *)
Definition send (s : session) (st : Chat.state) : session :=
  if Chat.blank (Chat.input st) then s
  else
    let '(w, acts) := Chat.handleSendMessage_start (env s) st in
    {| env := w; widget := Chat.dispatch st acts;
       pending := S (pending s) |}.

(** One event; [None] when the event cannot happen: the widget is not
    on screen, the button is disabled, or no request is pending. The
    widget is taken down by an answer of status 401 only, which also
    reloads the page: the session ends there. *)
Definition step (s : session) (e : event) : option session :=
  match widget s with
  | None => None
  | Some st =>
      match e with
      | ChangeInput v =>
          Some {| env := env s;
                  widget := Chat.dispatch st [Chat.setInput v];
                  pending := pending s |}
      | ClickSend => if Chat.isLoading st then None else Some (send s st)
      | PressEnter => Some (send s st)
      | Answer r =>
          match pending s with
          | O => None
          | S n =>
              let '(w, acts) := Chat.handleSendMessage_resume (env s) r in
              Some {| env := w; widget := Chat.dispatch st acts;
                      pending := n |}
          end
      end
  end.

Definition run (s : session) (es : list event) : option session :=
  fold_left
    (fun o e => match o with
                | Some s => step s e
                | None => None
                end)
    es (Some s).

(** The questions of a conversation: the contents of the user's
    messages, in order. *)
Fixpoint questions (l : list Chat.message) : list jsstring :=
  match l with
  | [] => []
  | m :: l' =>
      match Chat.type m with
      | Chat.user => Chat.content m :: questions l'
      | Chat.bot => questions l'
      end
  end.

(** The number of bot messages of a conversation. *)
Fixpoint replies (l : list Chat.message) : nat :=
  match l with
  | [] => 0
  | m :: l' =>
      match Chat.type m with
      | Chat.bot => S (replies l')
      | Chat.user => replies l'
      end
  end.

(** An answer of status 401 is among the events. *)
Definition unauthorized_answer (e : event) : bool :=
  match e with
  | Answer r => is_unauthorized r
  | _ => false
  end.

(** Enter pressed twice on one input before any answer, then the two
    answers. *)
Definition overlapping : list event :=
  [ChangeInput (js "Hej"); PressEnter; PressEnter;
   Answer (Sample.ok {| Chat.answer := js "Goddag" |});
   Answer Sample.server_error].

(** The conversation on screen agrees with the requests sent since the
    browser was as in [w]. *)
Definition consistent (w : world) (s : session) : Prop :=
  exists reqs,
    network (env s) = network w ++ reqs
    /\ forall st, widget s = Some st ->
         (exists rest,
             Chat.messages st
             = {| Chat.type := Chat.bot; Chat.content := Chat.greeting |}
               :: rest)
         /\ map request_line reqs
            = map (fun q => POST (js "chat") (ChatBody q))
                (questions (Chat.messages st))
         /\ (replies (Chat.messages st) + pending s
             = S (length (questions (Chat.messages st))))%nat
         /\ (pending s = 0%nat -> Chat.isLoading st = false).

End ChatSession.

(** ** The four answers of a batch, in any order *)

(** Which of the four requests an answer belongs to. *)
Definition arrival_slot (a : App.arrival) : nat :=
  match a with
  | App.overview_arrives _ => 0
  | App.themes_arrives _ => 1
  | App.ratings_arrives _ => 2
  | App.interviews_arrives _ => 3
  end%nat.

(** The answer is a 2xx response with a JSON body. *)
Definition arrival_has_data (a : App.arrival) : bool :=
  match a with
  | App.overview_arrives r => bool_decide (is_Some (payload r))
  | App.themes_arrives r => bool_decide (is_Some (payload r))
  | App.ratings_arrives r => bool_decide (is_Some (payload r))
  | App.interviews_arrives r => bool_decide (is_Some (payload r))
  end.

(** The setter calls of a batch whose four answers carry the given
    data. *)
Definition batch_result (show : bool) (clock : jsstring)
    (o : App.overview_data) (t : App.themes_response)
    (r : App.ratings_response) (i : App.interviews_response)
  : list App.action :=
  [App.setOverview (Some o);
   App.setThemes (default [] (App.resp_themes t));
   App.setRatings (default ∅ (App.resp_ratings r));
   App.setInterviews (default [] (App.resp_interviews i));
   App.setLastUpdated (Some clock)]
  ++ (if show then [App.setIsLoading false] else []).

(** ** Reading what is on screen *)

(** A decimal digit, as a code unit. *)
Definition is_digit (c : N) : bool := ((48 <=? c) && (c <=? 57))%N.

(** The number a run of decimal digits writes. *)
Definition decimal_value (l : jsstring) : N :=
  fold_left (fun acc c => (10 * acc + (c - 48))%N) l 0%N.

(** Lower case for the letters of ASCII, an instance of the built-in
    on text that has no other letters. *)
Definition ascii_lower (s : jsstring) : jsstring :=
  map (fun c => if ((65 <=? c) && (c <=? 90))%N then (c + 32)%N else c) s.

(** The setter calls that leave the loading flag alone. *)
Definition keeps_loading (a : App.action) : bool :=
  match a with
  | App.setIsLoading _ => false
  | _ => true
  end.

(** The state after [Rediger] on a segment and typing [v]. *)
Definition typing (st : Reader.state) (s : segment) (v : jsstring)
  : Reader.state :=
  Reader.dispatch (Reader.dispatch st (Reader.startEdit s))
    [Reader.setEditText v].


(** The answer has status 401. *)
Definition arrival_unauthorized (a : App.arrival) : bool :=
  match a with
  | App.overview_arrives r => is_unauthorized r
  | App.themes_arrives r => is_unauthorized r
  | App.ratings_arrives r => is_unauthorized r
  | App.interviews_arrives r => is_unauthorized r
  end.

(** * Properties *)

(** ** Strings *)

Lemma or_else_cases (a : option jsstring) (b : jsstring) :
  or_else a b = b \/ a = Some (or_else a b).
Proof.
  destruct a as [[|c s]|]; simpl; auto.
Qed.

Lemma or_else_empty (b : jsstring) : or_else (Some []) b = b.
Proof. reflexivity. Qed.

Lemma or_else_nonempty (e b : jsstring) : e <> [] -> or_else (Some e) b = e.
Proof. destruct e; [congruence | reflexivity]. Qed.

Lemma trim_start_blank (s : jsstring) :
  trim_start s = [] <-> forallb is_white_space s = true.
Proof.
  induction s as [|c s IH]; simpl.
  - tauto.
  - destruct (is_white_space c); simpl.
    + exact IH.
    + split; intro H; discriminate H.
Qed.

Lemma trim_start_suffix (s : jsstring) :
  exists p, s = p ++ trim_start s /\ forallb is_white_space p = true.
Proof.
  induction s as [|c s (p & Hs & Hp)]; simpl.
  - exists []. auto.
  - destruct (is_white_space c) eqn:Hc.
    + exists (c :: p). simpl. rewrite Hc, Hp. split; [congruence | reflexivity].
    + exists []. auto.
Qed.

Lemma trim_blank (s : jsstring) :
  trim s = [] <-> forallb is_white_space s = true.
Proof.
  unfold trim, trim_end. split.
  - intros H.
    apply (f_equal (@rev N)) in H. rewrite rev_involutive in H. simpl in H.
    apply trim_start_blank in H.
    rewrite forallb_forall in H.
    destruct (trim_start_suffix s) as (p & Hs & Hp).
    rewrite Hs, forallb_app, Hp. simpl.
    apply forallb_forall. intros c Hc. apply H, in_rev.
    rewrite rev_involutive. exact Hc.
  - intros H. apply trim_start_blank in H. rewrite H. reflexivity.
Qed.

Lemma blank_spec (s : jsstring) :
  Chat.blank s = forallb is_white_space s.
Proof.
  unfold Chat.blank.
  destruct (forallb is_white_space s) eqn:H.
  - apply trim_blank in H. rewrite H. reflexivity.
  - destruct (trim s) eqn:Ht; [|reflexivity].
    apply trim_blank in Ht. congruence.
Qed.

(** ** The gateway *)

Lemma apiCall_send_storage (w : world) (ep : jsstring) (o : options) :
  localStorage (apiCall_send w ep o) = localStorage w
  /\ reloads (apiCall_send w ep o) = reloads w.
Proof. split; reflexivity. Qed.

Lemma apiCall_receive_network {A : Type} (w : world) (ep : jsstring)
    (r : fetch_result A) :
  network (fst (apiCall_receive w ep r)) = network w.
Proof.
  destruct r as [|status st bt [d|]]; simpl; try reflexivity;
    destruct (status =? 401); try reflexivity;
    destruct (response_ok status); reflexivity.
Qed.

Lemma apiCall_network {A : Type} (w : world) (ep : jsstring) (o : options)
    (r : fetch_result A) :
  network (fst (apiCall w ep o r)) = network w ++ [request_of w ep o].
Proof.
  unfold apiCall. rewrite apiCall_receive_network. reflexivity.
Qed.

Lemma sent_since_app (w w' : world) (l : list request) :
  network w' = network w ++ l -> sent_since w w' = l.
Proof.
  intros H. unfold sent_since. rewrite H. apply drop_app_length.
Qed.

Lemma unauthorized_not_ok (status : Z) :
  (status =? 401) = true -> response_ok status = false.
Proof.
  intros H. apply Z.eqb_eq in H. subst. reflexivity.
Qed.

(** The three ways [apiCall] ends, by the answer it gets. *)
Lemma apiCall_returns {A : Type} (w : world) (ep : jsstring) (o : options)
    (r : fetch_result A) (d : A) :
  payload r = Some d ->
  snd (apiCall w ep o r) = Returned (Some d)
  /\ localStorage (fst (apiCall w ep o r)) = localStorage w
  /\ reloads (fst (apiCall w ep o r)) = reloads w.
Proof.
  destruct r as [|status st bt p]; simpl; [discriminate|].
  unfold apiCall. simpl.
  destruct (status =? 401) eqn:H401.
  - rewrite (unauthorized_not_ok _ H401). discriminate.
  - destruct (response_ok status); [|discriminate].
    intros ->. simpl. auto.
Qed.

Lemma apiCall_unauthorized {A : Type} (w : world) (ep : jsstring)
    (o : options) (r : fetch_result A) :
  is_unauthorized r = true ->
  snd (apiCall w ep o r) = Returned None
  /\ localStorage (fst (apiCall w ep o r))
     = localStorage (clearStoredAuth w)
  /\ reloads (fst (apiCall w ep o r)) = S (reloads w).
Proof.
  destruct r as [|status st bt p]; simpl; [discriminate|].
  intros H. unfold apiCall. simpl. rewrite H. simpl. auto.
Qed.

Lemma apiCall_throws {A : Type} (w : world) (ep : jsstring) (o : options)
    (r : fetch_result A) :
  payload r = None -> is_unauthorized r = false ->
  (exists e, snd (apiCall w ep o r) = Threw e)
  /\ localStorage (fst (apiCall w ep o r)) = localStorage w
  /\ reloads (fst (apiCall w ep o r)) = reloads w.
Proof.
  destruct r as [|status st bt p]; simpl.
  - intros _ _. unfold apiCall. simpl. eauto.
  - intros Hp H401. unfold apiCall. simpl. rewrite H401.
    destruct (response_ok status); simpl.
    + subst p. simpl. eauto.
    + eauto.
Qed.

Lemma failure_no_payload {A : Type} (r : fetch_result A) :
  is_failure r = true -> payload r = None.
Proof.
  destruct r as [|status st bt p]; simpl; [reflexivity|].
  destruct (response_ok status); [discriminate | reflexivity].
Qed.

(** ** The text of a segment *)

(** C1, as stated, fails: the text shown for a segment that is not
    being edited is not always [edited_text] when that field is present.
    A segment whose [edited_text] is the empty string shows [text]. *)
Lemma C1_empty_override_shows_original :
  ~ (forall (u : option user_record) (st : Reader.state) (s : segment),
        Reader.is_editing st s = false ->
        Reader.view_text (Reader.SegmentDisplay u st s)
        = Reader.Paragraph (override_or_original s)).
Proof.
  intros H.
  specialize (H Sample.premium Sample.reading Sample.seg_2 eq_refl).
  vm_compute in H. discriminate H.
Qed.

(** C1 (amended): for a segment that is not being edited, the text shown
    is [edited_text] when that field is present and not the empty string,
    and [text] otherwise (field absent, or empty); it is always exactly
    one of the two, never a concatenation or a mix. *)
Theorem C1_displayed_text (u : option user_record) (st : Reader.state)
    (s : segment) :
  Reader.is_editing st s = false ->
  (forall e, seg_edited_text s = Some e -> e <> [] ->
     Reader.view_text (Reader.SegmentDisplay u st s) = Reader.Paragraph e)
  /\ (seg_edited_text s = None \/ seg_edited_text s = Some [] ->
      Reader.view_text (Reader.SegmentDisplay u st s)
      = Reader.Paragraph (seg_text s))
  /\ (Reader.view_text (Reader.SegmentDisplay u st s)
      = Reader.Paragraph (seg_text s)
      \/ exists e, seg_edited_text s = Some e
           /\ Reader.view_text (Reader.SegmentDisplay u st s)
              = Reader.Paragraph e).
Proof.
  intros Hview. unfold Reader.SegmentDisplay. simpl. rewrite Hview.
  split; [|split].
  - intros e He Hne. rewrite He, (or_else_nonempty _ _ Hne). reflexivity.
  - intros [He|He]; rewrite He; reflexivity.
  - destruct (or_else_cases (seg_edited_text s) (seg_text s)) as [H|H].
    + left. rewrite H. reflexivity.
    + right. eexists. split; [exact H | reflexivity].
Qed.

Lemma C1_displayed_text_witness :
  Reader.view_text
    (Reader.SegmentDisplay Sample.premium Sample.reading Sample.seg_3)
  = Reader.Paragraph (js "Bedre end forventet")
  /\ Reader.view_text
       (Reader.SegmentDisplay Sample.premium Sample.reading Sample.seg_1)
     = Reader.Paragraph (js "Hvordan var dit indtryk af butikken?").
Proof.
  split.
  - apply (C1_displayed_text Sample.premium Sample.reading Sample.seg_3).
    + reflexivity.
    + reflexivity.
    + discriminate.
  - apply (C1_displayed_text Sample.premium Sample.reading Sample.seg_1).
    + reflexivity.
    + left. reflexivity.
Defined.

(** C8: a segment whose [edited_text] is present but is the empty string
    shows its original [text], and starting an edit on it fills the edit
    buffer with the original [text], not with the empty override. *)
Theorem C8_empty_override (u : option user_record) (st : Reader.state)
    (s : segment) :
  seg_edited_text s = Some [] ->
  (Reader.is_editing st s = false ->
   Reader.view_text (Reader.SegmentDisplay u st s)
   = Reader.Paragraph (seg_text s))
  /\ Reader.startEdit s
     = [Reader.setEditingSegment (Some (seg_id s));
        Reader.setEditText (seg_text s)]
  /\ Reader.editText (Reader.dispatch st (Reader.startEdit s)) = seg_text s
  /\ Reader.view_text
       (Reader.SegmentDisplay u (Reader.dispatch st (Reader.startEdit s)) s)
     = Reader.Textarea (seg_text s).
Proof.
  intros He. unfold Reader.startEdit. rewrite He, or_else_empty.
  repeat split.
  - intros Hview. unfold Reader.SegmentDisplay. simpl.
    rewrite Hview, He. reflexivity.
  - unfold Reader.SegmentDisplay, Reader.is_editing. simpl.
    rewrite bool_decide_eq_true_2 by reflexivity. reflexivity.
Qed.

Lemma C8_empty_override_witness :
  Reader.view_text
    (Reader.SegmentDisplay Sample.premium Sample.reading Sample.seg_2)
  = Reader.Paragraph (js "Det var fint")
  /\ Reader.editText Sample.editing = js "Det var fint".
Proof.
  destruct (C8_empty_override Sample.premium Sample.reading Sample.seg_2
              eq_refl) as (Hshown & _ & Hbuffer & _).
  split.
  - apply Hshown. reflexivity.
  - exact Hbuffer.
Defined.

(** ** Session teardown on 401 *)

Lemma clearStoredAuth_keys (w : world) :
  localStorage (clearStoredAuth w) !! "access_token"%string = None
  /\ localStorage (clearStoredAuth w) !! "user_email"%string = None
  /\ localStorage (clearStoredAuth w) !! "access_level"%string = None.
Proof.
  unfold clearStoredAuth. simpl.
  repeat split.
  - rewrite !lookup_delete_ne by discriminate. apply lookup_delete_eq.
  - rewrite lookup_delete_ne by discriminate. apply lookup_delete_eq.
  - apply lookup_delete_eq.
Qed.

Lemma clearStoredAuth_other (w : world) (k : string) :
  k <> "access_token"%string -> k <> "user_email"%string ->
  k <> "access_level"%string ->
  localStorage (clearStoredAuth w) !! k = localStorage w !! k.
Proof.
  intros H1 H2 H3. unfold clearStoredAuth. simpl.
  rewrite !lookup_delete_ne by congruence. reflexivity.
Qed.

Lemma no_token_landing (w : world) :
  getStoredToken w = None -> App.page_after_reload w = App.LandingPage.
Proof.
  intros H. unfold App.page_after_reload, App.check_authentication.
  rewrite H. reflexivity.
Qed.

(** C4: whatever the endpoint and the options of the call, when the
    answer has status 401 [apiCall] itself, before it returns, removes
    the three session keys (access token, user email, access level) from
    the durable storage, leaves the other keys alone, and reloads the
    page once; the application restarted over that storage shows the
    logged-out view. The call sends its one request and returns
    [undefined] to its caller, which has no part in the teardown. *)
Theorem C4_unauthorized_clears_session {A : Type} (w : world)
    (endpoint : jsstring) (o : options)
    (statusText body_text : jsstring) (parsed : option A) :
  let r := HttpResponse 401 statusText body_text parsed in
  let w' := fst (apiCall w endpoint o r) in
  localStorage w' !! "access_token"%string = None
  /\ localStorage w' !! "user_email"%string = None
  /\ localStorage w' !! "access_level"%string = None
  /\ (forall k, k <> "access_token"%string -> k <> "user_email"%string ->
        k <> "access_level"%string ->
        localStorage w' !! k = localStorage w !! k)
  /\ reloads w' = S (reloads w)
  /\ App.page_after_reload w' = App.LandingPage
  /\ snd (apiCall w endpoint o r) = Returned None
  /\ length (sent_since w w') = 1%nat.
Proof.
  intros r w'.
  destruct (apiCall_unauthorized w endpoint o r eq_refl) as (Hret & Hst & Hrl).
  fold w' in Hst, Hrl.
  destruct (clearStoredAuth_keys w) as (K1 & K2 & K3).
  rewrite Hst.
  repeat split; try assumption.
  - intros k H1 H2 H3. apply clearStoredAuth_other; assumption.
  - apply no_token_landing. unfold getStoredToken. rewrite Hst. exact K1.
  - unfold w'. rewrite (sent_since_app w _ _ (apiCall_network w endpoint o r)).
    reflexivity.
Qed.

(** ** The chat *)

(** What an answer does to the widget, whatever its state when the
    answer comes in. *)
Lemma chat_answer (w : world) (st : Chat.state)
    (r : fetch_result Chat.chat_response) :
  network (fst (Chat.handleSendMessage_resume w r)) = network w
  /\ (is_unauthorized r = false ->
      Chat.dispatch st (snd (Chat.handleSendMessage_resume w r))
      = Some {| Chat.messages :=
                  Chat.messages st
                  ++ [ {| Chat.type := Chat.bot;
                          Chat.content :=
                            match payload r with
                            | Some response => Chat.answer response
                            | None => Chat.apology
                            end |} ];
                Chat.input := []; Chat.isLoading := false |}
      /\ localStorage (fst (Chat.handleSendMessage_resume w r))
         = localStorage w
      /\ reloads (fst (Chat.handleSendMessage_resume w r)) = reloads w)
  /\ (is_unauthorized r = true ->
      Chat.dispatch st (snd (Chat.handleSendMessage_resume w r)) = None
      /\ localStorage (fst (Chat.handleSendMessage_resume w r))
         = localStorage (clearStoredAuth w)
      /\ reloads (fst (Chat.handleSendMessage_resume w r))
         = S (reloads w)).
Proof.
  unfold Chat.handleSendMessage_resume.
  destruct r as [|status stx bt p];
    cbn [apiCall_receive is_unauthorized payload].
  - cbn. repeat split; try reflexivity; discriminate.
  - destruct (status =? 401) eqn:H401.
    + cbn. repeat split; try reflexivity; discriminate.
    + destruct (response_ok status); cbn [negb].
      * destruct p as [d|]; cbn; repeat split; try reflexivity; discriminate.
      * cbn. repeat split; try reflexivity; discriminate.
Qed.

(** C10, as stated, fails: a send with an input that is not blank does
    not always append a bot message and clear the input. When the answer
    has status 401 the gateway returns [undefined], nothing is thrown in
    the handler, and the updater that reads [response.answer] throws
    when React runs it: no bot message is appended and the widget is
    taken down. *)
Lemma C10_unauthorized_answer_appends_no_reply :
  ~ (forall (w : world) (st : Chat.state)
            (r : fetch_result Chat.chat_response),
        forallb is_white_space (Chat.input st) = false ->
        exists st',
          Chat.dispatch st (snd (Chat.handleSendMessage w st r)) = Some st'
          /\ Chat.messages st'
             = Chat.messages st
               ++ [ {| Chat.type := Chat.user;
                       Chat.content := Chat.input st |};
                    {| Chat.type := Chat.bot;
                       Chat.content :=
                         match payload r with
                         | Some response => Chat.answer response
                         | None => Chat.apology
                         end |} ]
          /\ Chat.input st' = []).
Proof.
  intros H.
  destruct (H Sample.browser
              {| Chat.messages := Chat.messages Chat.initial;
                 Chat.input := js "Hej"; Chat.isLoading := false |}
              Sample.unauthorized eq_refl) as (st' & Hst & _).
  vm_compute in Hst. discriminate Hst.
Qed.

(** C10 (amended): sending while the input is empty or only white space
    changes nothing: no setter is called, so messages, input and loading
    flag stay as they are, and nothing is sent, logged or stored. For
    any other input one [POST chat] carrying the input is sent and the
    user's message is appended, with the loading flag set. When the
    answer comes in, whatever the widget shows by then, and unless its
    status is 401, exactly one bot message is appended, which is the
    server's answer when the call returns data and the fixed apology
    otherwise, the input is cleared and the loading flag set to false;
    so a send with nothing in between appends exactly the user's message
    followed by that bot message. When the status of the answer is 401
    no bot message is appended and the input is not cleared: the widget
    is taken down by the error boundary, the stored session is cleared
    and the page reloaded. *)
Theorem C10_chat_send (w : world) (st : Chat.state)
    (r : fetch_result Chat.chat_response) (w2 : world) (st2 : Chat.state) :
  let w' := fst (Chat.handleSendMessage w st r) in
  let st' := Chat.dispatch st (snd (Chat.handleSendMessage w st r)) in
  let reply :=
    {| Chat.type := Chat.bot;
       Chat.content :=
         match payload r with
         | Some response => Chat.answer response
         | None => Chat.apology
         end |} in
  (forallb is_white_space (Chat.input st) = true ->
     snd (Chat.handleSendMessage w st r) = [] /\ w' = w /\ st' = Some st)
  /\ (forallb is_white_space (Chat.input st) = false ->
      map request_line (sent_since w w')
      = [POST (js "chat") (ChatBody (Chat.input st))]
      /\ map request_line
           (sent_since w (fst (Chat.handleSendMessage_start w st)))
         = [POST (js "chat") (ChatBody (Chat.input st))]
      /\ Chat.dispatch st (snd (Chat.handleSendMessage_start w st))
         = Some {| Chat.messages :=
                     Chat.messages st
                     ++ [ {| Chat.type := Chat.user;
                             Chat.content := Chat.input st |} ];
                   Chat.input := Chat.input st;
                   Chat.isLoading := true |}
      /\ (is_unauthorized r = false ->
          st' = Some {| Chat.messages :=
                          Chat.messages st
                          ++ [ {| Chat.type := Chat.user;
                                  Chat.content := Chat.input st |};
                               reply ];
                        Chat.input := []; Chat.isLoading := false |})
      /\ (is_unauthorized r = true ->
          st' = None
          /\ getStoredToken w' = None
          /\ reloads w' = S (reloads w)))
  /\ sent_since w2 (fst (Chat.handleSendMessage_resume w2 r)) = []
  /\ (is_unauthorized r = false ->
      Chat.dispatch st2 (snd (Chat.handleSendMessage_resume w2 r))
      = Some {| Chat.messages := Chat.messages st2 ++ [reply];
                Chat.input := []; Chat.isLoading := false |})
  /\ (is_unauthorized r = true ->
      Chat.dispatch st2 (snd (Chat.handleSendMessage_resume w2 r)) = None
      /\ getStoredToken (fst (Chat.handleSendMessage_resume w2 r)) = None
      /\ reloads (fst (Chat.handleSendMessage_resume w2 r))
         = S (reloads w2)).
Proof.
  intros w' st' reply. subst w' st' reply.
  assert (Htoken : forall w0 : world,
             localStorage (fst (Chat.handleSendMessage_resume w0 r))
             = localStorage (clearStoredAuth w0) ->
             getStoredToken (fst (Chat.handleSendMessage_resume w0 r))
             = None).
  { intros w0 Hls. unfold getStoredToken. rewrite Hls.
    destruct (clearStoredAuth_keys w0) as (K & _). exact K. }
  split; [|split; [|split; [|split]]].
  - intros Hin. unfold Chat.handleSendMessage.
    rewrite blank_spec, Hin. cbn. auto.
  - intros Hin. unfold Chat.handleSendMessage.
    rewrite blank_spec, Hin.
    unfold Chat.handleSendMessage_start. cbn [fst snd].
    set (w1 := apiCall_send w (js "chat") (post (ChatBody (Chat.input st)))).
    destruct (chat_answer w1
                {| Chat.messages :=
                     Chat.messages st
                     ++ [ {| Chat.type := Chat.user;
                             Chat.content := Chat.input st |} ];
                   Chat.input := Chat.input st; Chat.isLoading := true |} r)
      as (Hnet & Hok & H401).
    destruct (Chat.handleSendMessage_resume w1 r) as [w3 after] eqn:Hres.
    cbn [fst snd] in *.
    split; [|split; [|split; [|split]]].
    + rewrite (sent_since_app w w3 [request_of w (js "chat")
                                      (post (ChatBody (Chat.input st)))]).
      * reflexivity.
      * rewrite Hnet. reflexivity.
    + rewrite (sent_since_app w w1 [request_of w (js "chat")
                                      (post (ChatBody (Chat.input st)))]).
      * reflexivity.
      * reflexivity.
    + reflexivity.
    + intros Hu. destruct (Hok Hu) as (Hd & _).
      unfold Chat.dispatch in *. rewrite fold_left_app.
      cbn [fold_left Chat.apply_action].
      cbn [Chat.messages Chat.input Chat.isLoading] in Hd |- *.
      rewrite Hd. cbn [Chat.messages]. rewrite <- app_assoc. reflexivity.
    + intros Hu. destruct (H401 Hu) as (Hd & Hls & Hrl).
      split; [|split].
      * unfold Chat.dispatch in *. rewrite fold_left_app.
        cbn [fold_left Chat.apply_action].
        cbn [Chat.messages Chat.input Chat.isLoading] in Hd |- *.
        exact Hd.
      * pose proof (Htoken w1) as Ht. rewrite Hres in Ht. cbn [fst] in Ht.
        apply Ht. exact Hls.
      * rewrite Hrl. reflexivity.
  - destruct (chat_answer w2 st2 r) as (Hnet & _).
    apply sent_since_app. rewrite Hnet, app_nil_r. reflexivity.
  - intros Hu. destruct (chat_answer w2 st2 r) as (_ & Hok & _).
    destruct (Hok Hu) as (Hd & _). exact Hd.
  - intros Hu. destruct (chat_answer w2 st2 r) as (_ & _ & H401).
    destruct (H401 Hu) as (Hd & Hls & Hrl).
    split; [exact Hd|]. split; [apply Htoken; exact Hls | exact Hrl].
Qed.

Lemma C10_chat_send_witness :
  Chat.dispatch
    {| Chat.messages := []; Chat.input := js "  "; Chat.isLoading := false |}
    (snd (Chat.handleSendMessage Sample.browser
            {| Chat.messages := []; Chat.input := js "  ";
               Chat.isLoading := false |}
            Sample.server_error))
  = Some {| Chat.messages := []; Chat.input := js "  ";
            Chat.isLoading := false |}
  /\ Chat.dispatch
       {| Chat.messages := []; Chat.input := js "Hej";
          Chat.isLoading := false |}
       (snd (Chat.handleSendMessage Sample.browser
               {| Chat.messages := []; Chat.input := js "Hej";
                  Chat.isLoading := false |}
               Sample.server_error))
     = Some {| Chat.messages :=
                 [ {| Chat.type := Chat.user; Chat.content := js "Hej" |};
                   {| Chat.type := Chat.bot;
                      Chat.content := Chat.apology |} ];
               Chat.input := []; Chat.isLoading := false |}
  /\ Chat.dispatch
       {| Chat.messages := []; Chat.input := js "Hej";
          Chat.isLoading := false |}
       (snd (Chat.handleSendMessage Sample.browser
               {| Chat.messages := []; Chat.input := js "Hej";
                  Chat.isLoading := false |}
               Sample.unauthorized))
     = None.
Proof.
  split; [|split].
  - destruct (C10_chat_send Sample.browser
                {| Chat.messages := []; Chat.input := js "  ";
                   Chat.isLoading := false |} Sample.server_error
                Sample.browser Chat.initial) as (Hblank & _).
    destruct (Hblank eq_refl) as (_ & _ & Hst). exact Hst.
  - destruct (C10_chat_send Sample.browser
                {| Chat.messages := []; Chat.input := js "Hej";
                   Chat.isLoading := false |} Sample.server_error
                Sample.browser Chat.initial) as (_ & Hsend & _).
    destruct (Hsend eq_refl) as (_ & _ & _ & Hok & _).
    exact (Hok eq_refl).
  - destruct (C10_chat_send Sample.browser
                {| Chat.messages := []; Chat.input := js "Hej";
                   Chat.isLoading := false |} Sample.unauthorized
                Sample.browser Chat.initial) as (_ & Hsend & _).
    destruct (Hsend eq_refl) as (_ & _ & _ & _ & H401).
    destruct (H401 eq_refl) as (Hst & _). exact Hst.
Defined.

(** ** Opening an interview *)

Lemma fetchFullTranscript_network (w : world) (interviewId : option jsstring)
    (r : fetch_result interview_detail) :
  network (fst (Reader.fetchFullTranscript w interviewId r))
  = network w
    ++ [request_of w (js "interview/" ++ template interviewId) no_options].
Proof.
  unfold Reader.fetchFullTranscript.
  pose proof (apiCall_network w (js "interview/" ++ template interviewId)
                no_options r) as Hnet.
  destruct (apiCall w (js "interview/" ++ template interviewId) no_options r)
    as [w1 [v|e]]; exact Hnet.
Qed.

Lemma fetchFullTranscript_returns (w : world) (interviewId : option jsstring)
    (r : fetch_result interview_detail) (d : interview_detail) :
  payload r = Some d ->
  snd (Reader.fetchFullTranscript w interviewId r)
  = [Reader.setLoadingTranscript true;
     Reader.setFullTranscript (Some d);
     Reader.setSelectedInterview interviewId;
     Reader.setLoadingTranscript false].
Proof.
  intros Hp. unfold Reader.fetchFullTranscript.
  destruct (apiCall_returns w (js "interview/" ++ template interviewId)
              no_options r d Hp) as (Hr & _).
  destruct (apiCall w (js "interview/" ++ template interviewId) no_options r)
    as [w1 res]; simpl in *. rewrite Hr. reflexivity.
Qed.

Lemma fetchFullTranscript_unauthorized (w : world)
    (interviewId : option jsstring) (r : fetch_result interview_detail) :
  is_unauthorized r = true ->
  snd (Reader.fetchFullTranscript w interviewId r)
  = [Reader.setLoadingTranscript true;
     Reader.setFullTranscript None;
     Reader.setSelectedInterview interviewId;
     Reader.setLoadingTranscript false].
Proof.
  intros Hu. unfold Reader.fetchFullTranscript.
  destruct (apiCall_unauthorized w (js "interview/" ++ template interviewId)
              no_options r Hu) as (Hr & _).
  destruct (apiCall w (js "interview/" ++ template interviewId) no_options r)
    as [w1 res]; simpl in *. rewrite Hr. reflexivity.
Qed.

Lemma fetchFullTranscript_throws (w : world) (interviewId : option jsstring)
    (r : fetch_result interview_detail) :
  payload r = None -> is_unauthorized r = false ->
  snd (Reader.fetchFullTranscript w interviewId r)
  = [Reader.setLoadingTranscript true; Reader.setLoadingTranscript false].
Proof.
  intros Hp Hu. unfold Reader.fetchFullTranscript.
  destruct (apiCall_throws w (js "interview/" ++ template interviewId)
              no_options r Hp Hu) as ((e & Hr) & _).
  destruct (apiCall w (js "interview/" ++ template interviewId) no_options r)
    as [w1 res]; simpl in *. rewrite Hr. reflexivity.
Qed.

(** C9, as stated, fails: a request answered with status 401 has not
    succeeded, and yet the transcript on screen is replaced (by nothing)
    and the selection switches to the interview clicked. *)
Lemma C9_unauthorized_switches_selection :
  ~ (forall (w : world) (st : Reader.state) (interviewId : jsstring)
            (r : fetch_result interview_detail),
        payload r = None ->
        let st' :=
          Reader.dispatch st
            (snd (Reader.fetchFullTranscript w (Some interviewId) r)) in
        Reader.fullTranscript st' = Reader.fullTranscript st
        /\ Reader.selectedInterview st' = Reader.selectedInterview st).
Proof.
  intros H.
  specialize (H Sample.browser Sample.reading (js "int-8")
                Sample.unauthorized eq_refl).
  destruct H as [H _]. vm_compute in H. discriminate H.
Qed.

(** C9 (amended): when [GET interview/{id}] fails with a network error,
    with a status outside 2xx other than 401, or with a body that is no
    JSON, the only setter calls are those of the loading flag, so the
    transcript on screen and the selected interview stay as they were.
    When it returns data the transcript is set to that data and then the
    selection to the interview asked for, in that order, between the two
    calls of the loading flag. When the status is 401 the gateway
    returns [undefined]: the transcript is set to it and the selection
    switches, while the page reloads. *)
Theorem C9_select_interview (w : world) (st : Reader.state)
    (interviewId : option jsstring) (r : fetch_result interview_detail) :
  let acts := snd (Reader.fetchFullTranscript w interviewId r) in
  let st' := Reader.dispatch st acts in
  (payload r = None -> is_unauthorized r = false ->
     acts = [Reader.setLoadingTranscript true;
             Reader.setLoadingTranscript false]
     /\ Reader.fullTranscript st' = Reader.fullTranscript st
     /\ Reader.selectedInterview st' = Reader.selectedInterview st)
  /\ (forall d, payload r = Some d ->
        acts = [Reader.setLoadingTranscript true;
                Reader.setFullTranscript (Some d);
                Reader.setSelectedInterview interviewId;
                Reader.setLoadingTranscript false]
        /\ Reader.fullTranscript st' = Some d
        /\ Reader.selectedInterview st' = interviewId)
  /\ (is_unauthorized r = true ->
        acts = [Reader.setLoadingTranscript true;
                Reader.setFullTranscript None;
                Reader.setSelectedInterview interviewId;
                Reader.setLoadingTranscript false])
  /\ Reader.loadingTranscript st' = false.
Proof.
  intros acts st'. subst acts st'.
  split; [|split; [|split]].
  - intros Hp Hu. rewrite (fetchFullTranscript_throws _ _ _ Hp Hu). auto.
  - intros d Hp. rewrite (fetchFullTranscript_returns _ _ _ _ Hp). auto.
  - intros Hu. rewrite (fetchFullTranscript_unauthorized _ _ _ Hu). auto.
  - destruct (is_unauthorized r) eqn:Hu.
    + rewrite (fetchFullTranscript_unauthorized _ _ _ Hu). reflexivity.
    + destruct (payload r) as [d|] eqn:Hp.
      * rewrite (fetchFullTranscript_returns _ _ _ _ Hp). reflexivity.
      * rewrite (fetchFullTranscript_throws _ _ _ Hp Hu). reflexivity.
Qed.

Lemma C9_select_interview_witness :
  Reader.fullTranscript
    (Reader.dispatch Sample.reading
       (snd (Reader.fetchFullTranscript Sample.browser (Some (js "int-8"))
               Sample.server_error)))
  = Some Sample.int_7
  /\ Reader.selectedInterview
       (Reader.dispatch Sample.reading
          (snd (Reader.fetchFullTranscript Sample.browser
                  (Some (js "int-8")) Sample.server_error)))
     = Some (js "int-7").
Proof.
  destruct (C9_select_interview Sample.browser Sample.reading
              (Some (js "int-8")) Sample.server_error) as (Hfail & _).
  destruct (Hfail eq_refl eq_refl) as (_ & Htranscript & Hselected).
  split; [exact Htranscript | exact Hselected].
Defined.

(** ** Saving an edit or a tag *)

Lemma handleEditSegment_saved (u : option user_record) (w : world)
    (st : Reader.state) (segmentId newText : jsstring)
    (r_edit : fetch_result unit) (r_detail : fetch_result interview_detail)
    (ack : unit) :
  Reader.isEditable u = true -> payload r_edit = Some ack ->
  Reader.handleEditSegment u w st segmentId newText r_edit r_detail
  = (let w1 :=
       fst (apiCall w (js "interview/edit")
              (post (EditBody (Reader.selectedInterview st) segmentId newText))
              r_edit) in
     (fst (Reader.fetchFullTranscript w1 (Reader.selectedInterview st)
             r_detail),
      snd (Reader.fetchFullTranscript w1 (Reader.selectedInterview st)
             r_detail)
      ++ [Reader.setEditingSegment None])).
Proof.
  intros Hu Hp. unfold Reader.handleEditSegment. rewrite Hu. cbn [negb].
  destruct (apiCall_returns w (js "interview/edit")
              (post (EditBody (Reader.selectedInterview st) segmentId newText))
              r_edit ack Hp) as (Hr & _).
  destruct (apiCall w (js "interview/edit") _ r_edit) as [w1 res].
  cbn [fst snd] in *. rewrite Hr.
  destruct (Reader.fetchFullTranscript w1 (Reader.selectedInterview st)
              r_detail). reflexivity.
Qed.

Lemma handleTagSegment_saved (u : option user_record) (w : world)
    (st : Reader.state) (segmentId sentiment theme notes : jsstring)
    (r_tag : fetch_result unit) (r_detail : fetch_result interview_detail)
    (ack : unit) :
  Reader.isEditable u = true -> payload r_tag = Some ack ->
  Reader.handleTagSegment u w st segmentId sentiment theme notes
    r_tag r_detail
  = (let w1 :=
       fst (apiCall w (js "interview/tag")
              (post (TagBody (Reader.selectedInterview st) segmentId
                       sentiment theme notes))
              r_tag) in
     Reader.fetchFullTranscript w1 (Reader.selectedInterview st) r_detail).
Proof.
  intros Hu Hp. unfold Reader.handleTagSegment. rewrite Hu. cbn [negb].
  destruct (apiCall_returns w (js "interview/tag")
              (post (TagBody (Reader.selectedInterview st) segmentId
                       sentiment theme notes))
              r_tag ack Hp) as (Hr & _).
  destruct (apiCall w (js "interview/tag") _ r_tag) as [w1 res].
  cbn [fst snd] in *. rewrite Hr. reflexivity.
Qed.

Lemma two_requests (w w1 w2 : world) (a b : request) :
  network w1 = network w ++ [a] -> network w2 = network w1 ++ [b] ->
  sent_since w w2 = [a; b].
Proof.
  intros H1 H2. apply sent_since_app. rewrite H2, H1, <- app_assoc.
  reflexivity.
Qed.

(** C5: when the user may edit and the save ([POST interview/edit] or
    [POST interview/tag]) returns, the handler sends, after the save,
    exactly one further request, [GET interview/{id}] for the selected
    interview, whatever the answer to it. When that request returns a
    detail, the transcript held afterwards is that detail as the server
    sent it, set by a single setter call, and the segments on screen are
    its segments; when it fails (the 401 teardown apart) the transcript
    stays the one held before. No setter call carries a value computed
    on the client from the edit. *)
Theorem C5_save_refetches (u : option user_record) (w : world)
    (st : Reader.state) (segmentId newText sentiment theme notes : jsstring)
    (r_save : fetch_result unit) (r_detail : fetch_result interview_detail)
    (ack : unit) :
  Reader.isEditable u = true -> payload r_save = Some ack ->
  let selected := Reader.selectedInterview st in
  let edit :=
    Reader.handleEditSegment u w st segmentId newText r_save r_detail in
  let tag :=
    Reader.handleTagSegment u w st segmentId sentiment theme notes
      r_save r_detail in
  map request_line (sent_since w (fst edit))
  = [POST (js "interview/edit") (EditBody selected segmentId newText);
     GET (js "interview/" ++ template selected)]
  /\ map request_line (sent_since w (fst tag))
     = [POST (js "interview/tag")
          (TagBody selected segmentId sentiment theme notes);
        GET (js "interview/" ++ template selected)]
  /\ (forall d, payload r_detail = Some d ->
        snd edit = [Reader.setLoadingTranscript true;
                    Reader.setFullTranscript (Some d);
                    Reader.setSelectedInterview selected;
                    Reader.setLoadingTranscript false;
                    Reader.setEditingSegment None]
        /\ snd tag = [Reader.setLoadingTranscript true;
                      Reader.setFullTranscript (Some d);
                      Reader.setSelectedInterview selected;
                      Reader.setLoadingTranscript false]
        /\ Reader.fullTranscript (Reader.dispatch st (snd edit)) = Some d
        /\ Reader.fullTranscript (Reader.dispatch st (snd tag)) = Some d
        /\ Reader.shown_segments (Reader.dispatch st (snd edit))
           = det_segments d
        /\ Reader.shown_segments (Reader.dispatch st (snd tag))
           = det_segments d)
  /\ (payload r_detail = None -> is_unauthorized r_detail = false ->
        Reader.fullTranscript (Reader.dispatch st (snd edit))
        = Reader.fullTranscript st
        /\ Reader.fullTranscript (Reader.dispatch st (snd tag))
           = Reader.fullTranscript st).
Proof.
  intros Hu Hp selected edit tag. subst edit tag.
  rewrite (handleEditSegment_saved u w st segmentId newText r_save r_detail
             ack Hu Hp).
  rewrite (handleTagSegment_saved u w st segmentId sentiment theme notes
             r_save r_detail ack Hu Hp).
  cbn zeta. fold selected.
  split; [|split; [|split]].
  - cbn [fst].
    rewrite (two_requests w _ _ _ _
               (apiCall_network w _ _ r_save)
               (fetchFullTranscript_network _ selected r_detail)).
    reflexivity.
  - rewrite (two_requests w _ _ _ _
               (apiCall_network w _ _ r_save)
               (fetchFullTranscript_network _ selected r_detail)).
    reflexivity.
  - intros d Hd. cbn [snd].
    rewrite !(fetchFullTranscript_returns _ _ _ _ Hd).
    repeat split; reflexivity.
  - intros Hd H401. cbn [snd].
    rewrite !(fetchFullTranscript_throws _ _ _ Hd H401).
    split; reflexivity.
Qed.

Lemma C5_save_refetches_witness :
  Reader.fullTranscript
    (Reader.dispatch Sample.editing
       (snd (Reader.handleEditSegment Sample.premium Sample.browser
               Sample.editing (js "seg-2") (js "Det var rigtig fint")
               (Sample.ok tt) (Sample.ok Sample.int_7_edited))))
  = Some Sample.int_7_edited
  /\ map request_line
       (sent_since Sample.browser
          (fst (Reader.handleEditSegment Sample.premium Sample.browser
                  Sample.editing (js "seg-2") (js "Det var rigtig fint")
                  (Sample.ok tt) (Sample.ok Sample.int_7_edited))))
     = [POST (js "interview/edit")
          (EditBody (Some (js "int-7")) (js "seg-2")
             (js "Det var rigtig fint"));
        GET (js "interview/int-7")].
Proof.
  destruct (C5_save_refetches Sample.premium Sample.browser Sample.editing
              (js "seg-2") (js "Det var rigtig fint") [] [] []
              (Sample.ok tt) (Sample.ok Sample.int_7_edited) tt
              eq_refl eq_refl) as (Hsent & _ & Hdetail & _).
  destruct (Hdetail Sample.int_7_edited eq_refl) as (_ & _ & Hshown & _).
  split; [exact Hshown | exact Hsent].
Defined.

Lemma handleEditSegment_failed (u : option user_record) (w : world)
    (st : Reader.state) (segmentId newText : jsstring)
    (r_edit : fetch_result unit) (r_detail : fetch_result interview_detail) :
  Reader.isEditable u = true ->
  payload r_edit = None -> is_unauthorized r_edit = false ->
  Reader.handleEditSegment u w st segmentId newText r_edit r_detail
  = (console_write
       (fst (apiCall w (js "interview/edit")
               (post (EditBody (Reader.selectedInterview st) segmentId
                        newText)) r_edit))
       (console_error (js "Error editing segment:")), []).
Proof.
  intros Hu Hp H401. unfold Reader.handleEditSegment. rewrite Hu. cbn [negb].
  destruct (apiCall_throws w (js "interview/edit")
              (post (EditBody (Reader.selectedInterview st) segmentId newText))
              r_edit Hp H401) as ((e & Hr) & _).
  destruct (apiCall w (js "interview/edit") _ r_edit) as [w1 res].
  cbn [fst snd] in *. rewrite Hr. reflexivity.
Qed.

Lemma handleTagSegment_failed (u : option user_record) (w : world)
    (st : Reader.state) (segmentId sentiment theme notes : jsstring)
    (r_tag : fetch_result unit) (r_detail : fetch_result interview_detail) :
  Reader.isEditable u = true ->
  payload r_tag = None -> is_unauthorized r_tag = false ->
  Reader.handleTagSegment u w st segmentId sentiment theme notes
    r_tag r_detail
  = (console_write
       (fst (apiCall w (js "interview/tag")
               (post (TagBody (Reader.selectedInterview st) segmentId
                        sentiment theme notes)) r_tag))
       (console_error (js "Error tagging segment:")), []).
Proof.
  intros Hu Hp H401. unfold Reader.handleTagSegment. rewrite Hu. cbn [negb].
  destruct (apiCall_throws w (js "interview/tag")
              (post (TagBody (Reader.selectedInterview st) segmentId
                       sentiment theme notes))
              r_tag Hp H401) as ((e & Hr) & _).
  destruct (apiCall w (js "interview/tag") _ r_tag) as [w1 res].
  cbn [fst snd] in *. rewrite Hr. reflexivity.
Qed.

Lemma handlers_not_editable (u : option user_record) (w : world)
    (st : Reader.state) (segmentId newText sentiment theme notes : jsstring)
    (r_save : fetch_result unit) (r_detail : fetch_result interview_detail) :
  Reader.isEditable u = false ->
  Reader.handleEditSegment u w st segmentId newText r_save r_detail = (w, [])
  /\ Reader.handleTagSegment u w st segmentId sentiment theme notes
       r_save r_detail = (w, []).
Proof.
  intros Hu. unfold Reader.handleEditSegment, Reader.handleTagSegment.
  rewrite Hu. split; reflexivity.
Qed.

(** C7, as stated, fails: a save answered with status 401, which is not
    a 2xx status, removes the session from the durable storage, reloads
    the page and goes on to a second request. *)
Lemma C7_unauthorized_save_ends_session :
  ~ (forall (u : option user_record) (w : world) (st : Reader.state)
            (segmentId newText : jsstring) (r_edit : fetch_result unit)
            (r_detail : fetch_result interview_detail),
        is_failure r_edit = true ->
        let w' :=
          fst (Reader.handleEditSegment u w st segmentId newText
                 r_edit r_detail) in
        getStoredToken w' = getStoredToken w
        /\ reloads w' = reloads w
        /\ (length (sent_since w w') <= 1)%nat).
Proof.
  intros H.
  specialize (H Sample.premium Sample.browser Sample.editing (js "seg-2")
                (js "Det var rigtig fint") Sample.unauthorized
                Sample.server_error eq_refl).
  destruct H as (_ & H & _). vm_compute in H. discriminate H.
Qed.

(** C7 (amended): when the save ([POST interview/edit] or
    [POST interview/tag]) fails with a network error or with a status
    outside 2xx other than 401, the handler calls no state setter, so
    the widget stays as it is (still editing, buffer kept) and shows no
    error; the durable storage is untouched and the page is not
    reloaded; the save is the only request sent (no retry, no re-fetch);
    and the last thing written is the error on the console. Saving tags
    has closed the tagging panel at the click, before any answer, as it
    does when the save succeeds; nothing else is set. *)
Theorem C7_failed_save_is_silent (u : option user_record) (w : world)
    (st : Reader.state) (s : segment)
    (segmentId newText sentiment theme notes : jsstring)
    (r_save : fetch_result unit) (r_detail : fetch_result interview_detail) :
  is_failure r_save = true -> is_unauthorized r_save = false ->
  let selected := Reader.selectedInterview st in
  let edit :=
    Reader.handleEditSegment u w st segmentId newText r_save r_detail in
  let tag :=
    Reader.handleTagSegment u w st segmentId sentiment theme notes
      r_save r_detail in
  (snd edit = [] /\ snd tag = []
   /\ Reader.dispatch st (snd edit) = st /\ Reader.dispatch st (snd tag) = st)
  /\ (localStorage (fst edit) = localStorage w
      /\ localStorage (fst tag) = localStorage w
      /\ reloads (fst edit) = reloads w /\ reloads (fst tag) = reloads w)
  /\ (Reader.isEditable u = true ->
        map request_line (sent_since w (fst edit))
        = [POST (js "interview/edit") (EditBody selected segmentId newText)]
        /\ map request_line (sent_since w (fst tag))
           = [POST (js "interview/tag")
                (TagBody selected segmentId sentiment theme notes)]
        /\ last (console (fst edit))
           = Some (console_error (js "Error editing segment:"))
        /\ last (console (fst tag))
           = Some (console_error (js "Error tagging segment:")))
  /\ (Reader.isEditable u = false -> fst edit = w /\ fst tag = w)
  /\ snd (Reader.saveTags u w st s r_save r_detail)
     = [Reader.setShowTagging s false].
Proof.
  intros Hf H401 selected edit tag.
  pose proof (failure_no_payload r_save Hf) as Hp.
  assert (Hsave :
    snd (Reader.saveTags u w st s r_save r_detail)
    = Reader.setShowTagging s false
      :: snd (Reader.handleTagSegment u w st (seg_id s)
                (Reader.selectedSentiment (Reader.local_of st s))
                (Reader.selectedTheme (Reader.local_of st s))
                (Reader.notes (Reader.local_of st s)) r_save r_detail)).
  { unfold Reader.saveTags.
    destruct (Reader.handleTagSegment u w st (seg_id s) _ _ _ r_save r_detail).
    reflexivity. }
  rewrite Hsave. clear Hsave.
  destruct (Reader.isEditable u) eqn:Hu.
  - subst edit tag.
    rewrite (handleEditSegment_failed u w st segmentId newText r_save r_detail
               Hu Hp H401).
    rewrite !(handleTagSegment_failed u w st _ _ _ _ r_save r_detail
               Hu Hp H401).
    cbn [fst snd].
    destruct (apiCall_throws w (js "interview/edit")
                (post (EditBody selected segmentId newText)) r_save Hp H401)
      as (_ & Hs1 & Hr1).
    destruct (apiCall_throws w (js "interview/tag")
                (post (TagBody selected segmentId sentiment theme notes))
                r_save Hp H401) as (_ & Hs2 & Hr2).
    split; [|split; [|split; [|split]]].
    + auto.
    + cbn. auto.
    + intros _.
      rewrite (sent_since_app w (console_write _ _) _
                 (apiCall_network w (js "interview/edit") _ r_save)).
      rewrite (sent_since_app w (console_write _ _) _
                 (apiCall_network w (js "interview/tag") _ r_save)).
      cbn [console console_write]. rewrite !last_snoc. auto.
    + discriminate.
    + reflexivity.
  - subst edit tag.
    destruct (handlers_not_editable u w st segmentId newText sentiment theme
                notes r_save r_detail Hu) as (He & Ht).
    destruct (handlers_not_editable u w st (seg_id s) newText
                (Reader.selectedSentiment (Reader.local_of st s))
                (Reader.selectedTheme (Reader.local_of st s))
                (Reader.notes (Reader.local_of st s)) r_save r_detail Hu)
      as (_ & Ht').
    rewrite He, Ht, Ht'. cbn [fst snd].
    split; [|split; [|split; [|split]]]; auto. discriminate.
Qed.

Lemma C7_failed_save_is_silent_witness :
  Reader.dispatch Sample.editing
    (snd (Reader.handleEditSegment Sample.premium Sample.browser
            Sample.editing (js "seg-2") (js "Det var rigtig fint")
            Sample.server_error (Sample.ok Sample.int_7_edited)))
  = Sample.editing.
Proof.
  destruct (C7_failed_save_is_silent Sample.premium Sample.browser
              Sample.editing Sample.seg_2 (js "seg-2")
              (js "Det var rigtig fint") [] [] []
              Sample.server_error (Sample.ok Sample.int_7_edited)
              eq_refl eq_refl) as ((_ & _ & Hsame & _) & _).
  exact Hsame.
Defined.

(** ** The edit slot and the tagging panels *)

Lemma is_editing_true (st : Reader.state) (s : segment) :
  Reader.is_editing st s = true <-> Reader.editingSegment st = Some (seg_id s).
Proof. unfold Reader.is_editing. apply bool_decide_eq_true. Qed.

Lemma is_editing_false (st : Reader.state) (s : segment) :
  Reader.is_editing st s = false
  <-> Reader.editingSegment st <> Some (seg_id s).
Proof. unfold Reader.is_editing. apply bool_decide_eq_false. Qed.

Lemma editing_same_id (st : Reader.state) (a b : segment) :
  Reader.is_editing st a = true -> Reader.is_editing st b = true ->
  seg_id a = seg_id b.
Proof.
  rewrite !is_editing_true. intros Ha Hb. congruence.
Qed.

Lemma no_other_editing (st : Reader.state) (a : segment) (l : list segment) :
  Reader.is_editing st a = true -> ~ In (seg_id a) (map seg_id l) ->
  List.filter (Reader.is_editing st) l = [].
Proof.
  intros Ha. induction l as [|b l IH]; intros Hnot; simpl in *.
  - reflexivity.
  - destruct (Reader.is_editing st b) eqn:Hb.
    + exfalso. apply Hnot. left. symmetry.
      exact (editing_same_id st a b Ha Hb).
    + apply IH. tauto.
Qed.

Lemma at_most_one_editing (st : Reader.state) (l : list segment) :
  List.NoDup (map seg_id l) ->
  (length (List.filter (Reader.is_editing st) l) <= 1)%nat.
Proof.
  induction l as [|a l IH]; intros Hnd; simpl in *.
  - lia.
  - apply List.NoDup_cons_iff in Hnd. destruct Hnd as [Hnot Hnd].
    destruct (Reader.is_editing st a) eqn:Ha.
    + rewrite (no_other_editing st a l Ha Hnot). simpl. lia.
    + apply IH, Hnd.
Qed.

Lemma local_of_insert_other (st : Reader.state) (a b : segment) (l : Reader.local) :
  seg_id a <> seg_id b ->
  Reader.local_of (Reader.with_local st a l) b = Reader.local_of st b.
Proof.
  intros Hab. unfold Reader.local_of, Reader.with_local. simpl.
  rewrite lookup_insert_ne by exact Hab. reflexivity.
Qed.

Lemma local_of_insert_same (st : Reader.state) (a : segment) (l : Reader.local) :
  Reader.local_of (Reader.with_local st a l) a = l.
Proof.
  unfold Reader.local_of, Reader.with_local. simpl.
  rewrite lookup_insert_eq. reflexivity.
Qed.

Lemma shown_segments_with_local (st : Reader.state) (a : segment)
    (l : Reader.local) :
  Reader.shown_segments (Reader.with_local st a l) = Reader.shown_segments st.
Proof. reflexivity. Qed.

Lemma has_buttons_edit_and_tag (u : option user_record) (st : Reader.state)
    (s : segment) :
  Reader.has_buttons u st s Reader.EditAndTag
  = Reader.isEditable u && seg_editable s && negb (Reader.is_editing st s).
Proof.
  unfold Reader.has_buttons, Reader.SegmentDisplay. simpl.
  destruct (Reader.isEditable u), (seg_editable s), (Reader.is_editing st s);
    reflexivity.
Qed.

Lemma has_panel_spec (u : option user_record) (st : Reader.state)
    (s : segment) :
  Reader.has_panel u st s
  = Reader.showTagging (Reader.local_of st s)
    && (Reader.isEditable u && seg_editable s).
Proof.
  unfold Reader.has_panel, Reader.SegmentDisplay. simpl.
  destruct (Reader.showTagging (Reader.local_of st s)
            && (Reader.isEditable u && seg_editable s)); reflexivity.
Qed.

(** C2: the segment being edited is the one whose id is held in the
    widget's single cell [editingSegment], so in every state two
    segments shown as being edited have the same id, and among segments
    of distinct ids at most one is being edited. Starting an edit on a
    segment [b] while another segment [a] is being edited puts [b]'s id
    in the cell: [b] is being edited and [a] no longer is. The tagging
    panel is a cell of each segment: opening [b]'s leaves [a]'s as it
    is, and from a state where two segments on screen offer the tag
    button the two clicks leave both panels open at once. *)
Theorem C2_single_edit_slot (u : option user_record) (w : world)
    (st : Reader.state) (i j : nat) (a b : segment) :
  seg_id a <> seg_id b ->
  (Reader.is_editing st a = true -> Reader.is_editing st b = false)
  /\ (List.NoDup (map seg_id (Reader.shown_segments st)) ->
      (length (List.filter (Reader.is_editing st) (Reader.shown_segments st))
       <= 1)%nat)
  /\ (let st' := Reader.dispatch st (Reader.startEdit b) in
      Reader.editingSegment st' = Some (seg_id b)
      /\ Reader.is_editing st' b = true
      /\ Reader.is_editing st' a = false)
  /\ (forall v,
        Reader.local_of (Reader.dispatch st [Reader.setShowTagging b v]) a
        = Reader.local_of st a)
  /\ (Reader.shown_segments st !! i = Some a ->
      Reader.shown_segments st !! j = Some b ->
      Reader.has_buttons u st a Reader.EditAndTag = true ->
      Reader.has_buttons u st b Reader.EditAndTag = true ->
      Reader.showTagging (Reader.local_of st a) = false ->
      Reader.showTagging (Reader.local_of st b) = false ->
      exists c,
        Reader.run u (w, st) [Reader.ClickTag i; Reader.ClickTag j] = Some c
        /\ Reader.has_panel u (snd c) a = true
        /\ Reader.has_panel u (snd c) b = true).
Proof.
  intros Hab. split; [|split; [|split; [|split]]].
  - intros Ha. apply is_editing_false. apply is_editing_true in Ha.
    rewrite Ha. congruence.
  - apply at_most_one_editing.
  - cbn. split; [reflexivity|]. split.
    + apply is_editing_true. reflexivity.
    + apply is_editing_false. cbn. congruence.
  - intros v. cbn. apply local_of_insert_other. congruence.
  - intros Hi Hj Hba Hbb Hpa Hpb.
    unfold Reader.run, Reader.step. cbn [fst snd Reader.handle].
    unfold Reader.on_segment at 1. rewrite Hi, Hba.
    cbn [Reader.dispatch fold_left Reader.apply_action fst snd].
    unfold Reader.on_segment.
    rewrite shown_segments_with_local, Hj.
    rewrite has_buttons_edit_and_tag in Hba, Hbb |- *.
    replace (Reader.is_editing (Reader.with_local st a _) b)
      with (Reader.is_editing st b) by reflexivity.
    rewrite Hbb.
    eexists. split; [reflexivity|].
    cbn [Reader.dispatch fold_left Reader.apply_action fst snd].
    apply andb_prop in Hba. destruct Hba as [Hba _].
    apply andb_prop in Hbb. destruct Hbb as [Hbb _].
    rewrite !has_panel_spec, Hba, Hbb.
    rewrite local_of_insert_same.
    rewrite local_of_insert_other by congruence.
    rewrite local_of_insert_same.
    cbn [Reader.showTagging].
    rewrite local_of_insert_other by congruence.
    rewrite Hpa, Hpb. split; reflexivity.
Qed.

Lemma C2_single_edit_slot_witness :
  Reader.is_editing Sample.editing Sample.seg_3 = false
  /\ Reader.is_editing
       (Reader.dispatch Sample.editing (Reader.startEdit Sample.seg_3))
       Sample.seg_2 = false
  /\ exists c,
       Reader.run Sample.premium (Sample.browser, Sample.reading)
         [Reader.ClickTag 1; Reader.ClickTag 2] = Some c
       /\ Reader.has_panel Sample.premium (snd c) Sample.seg_2 = true
       /\ Reader.has_panel Sample.premium (snd c) Sample.seg_3 = true.
Proof.
  assert (Hids : seg_id Sample.seg_2 <> seg_id Sample.seg_3).
  { intros H. vm_compute in H. discriminate H. }
  destruct (C2_single_edit_slot Sample.premium Sample.browser Sample.editing
              1 2 Sample.seg_2 Sample.seg_3 Hids)
    as (Hone & _ & (_ & _ & Hexit) & _).
  destruct (C2_single_edit_slot Sample.premium Sample.browser Sample.reading
              1 2 Sample.seg_2 Sample.seg_3 Hids)
    as (_ & _ & _ & _ & Hpanels).
  split; [|split].
  - apply Hone. vm_compute. reflexivity.
  - exact Hexit.
  - apply Hpanels; vm_compute; reflexivity.
Defined.

(** ** Users who may not edit *)

Lemma editor_idle_dispatch (acts : list Reader.action) (st : Reader.state) :
  forallb leaves_editor_alone acts = true ->
  editor_idle st -> editor_idle (Reader.dispatch st acts).
Proof.
  revert st. induction acts as [|a acts IH]; intros st Hall Hst.
  - exact Hst.
  - simpl in Hall. apply andb_prop in Hall. destruct Hall as [Ha Hall].
    apply (IH _ Hall). destruct Hst as [He Hl].
    destruct a; try discriminate Ha; split; simpl; try assumption.
    destruct b; [reflexivity | assumption].
Qed.

Lemma fetchFullTranscript_quiet (w : world) (interviewId : option jsstring)
    (r : fetch_result interview_detail) :
  forallb leaves_editor_alone
    (snd (Reader.fetchFullTranscript w interviewId r)) = true.
Proof.
  unfold Reader.fetchFullTranscript.
  destruct (apiCall w _ no_options r) as [w1 [v|e]]; reflexivity.
Qed.

Lemma fetchThemes_quiet (w : world) (r : fetch_result themes_available) :
  forallb leaves_editor_alone (snd (Reader.fetchThemes w r)) = true.
Proof.
  unfold Reader.fetchThemes.
  destruct (apiCall w _ no_options r) as [w1 [[l|]|e]]; reflexivity.
Qed.

Lemma on_segment_unavailable (st : Reader.state) (i : nat)
    (available : segment -> bool)
    (handler : segment -> world * list Reader.action) :
  (forall s, available s = false) ->
  Reader.on_segment st i available handler = None.
Proof.
  intros H. unfold Reader.on_segment.
  destruct (Reader.shown_segments st !! i) as [s|]; [|reflexivity].
  rewrite H. reflexivity.
Qed.

Lemma not_editable_no_buttons (u : option user_record) (st : Reader.state)
    (s : segment) (b : Reader.buttons) :
  Reader.isEditable u = false -> Reader.has_buttons u st s b = false.
Proof.
  intros Hu. unfold Reader.has_buttons, Reader.SegmentDisplay. simpl.
  rewrite Hu. reflexivity.
Qed.

Lemma not_editable_no_panel (u : option user_record) (st : Reader.state)
    (s : segment) :
  Reader.isEditable u = false -> Reader.has_panel u st s = false.
Proof.
  intros Hu. rewrite has_panel_spec, Hu. apply andb_false_r.
Qed.

Lemma idle_no_textarea (u : option user_record) (st : Reader.state)
    (s : segment) :
  editor_idle st -> Reader.has_textarea u st s = false.
Proof.
  intros [He _]. unfold Reader.has_textarea, Reader.SegmentDisplay. simpl.
  replace (Reader.is_editing st s) with false; [reflexivity|].
  symmetry. apply is_editing_false. rewrite He. discriminate.
Qed.

(** What a user who may not edit can do: open interviews and filter. *)
Lemma not_editable_handle (u : option user_record) (w : world)
    (st : Reader.state) (e : Reader.event) (w' : world)
    (acts : list Reader.action) :
  Reader.isEditable u = false -> editor_idle st ->
  Reader.handle u w st e = Some (w', acts) ->
  forallb leaves_editor_alone acts = true
  /\ exists l, network w' = network w ++ l
       /\ forallb (fun rq => bool_decide (rq_body rq = None)) l = true.
Proof.
  intros Hu Hst.
  destruct e; cbn [Reader.handle];
    try (rewrite on_segment_unavailable;
         [ discriminate
         | intros s;
           first [ apply not_editable_no_buttons; exact Hu
                 | apply not_editable_no_panel; exact Hu
                 | apply idle_no_textarea; exact Hst ] ]).
  - intros H. injection H as H.
    pose proof (fetchThemes_quiet w r_themes) as Hq. rewrite H in Hq.
    split; [exact Hq|].
    assert (Hn : network (fst (Reader.fetchThemes w r_themes))
                 = network w
                   ++ [request_of w (js "themes/available") no_options]).
    { unfold Reader.fetchThemes.
      pose proof (apiCall_network w (js "themes/available") no_options
                    r_themes) as Hnet.
      destruct (apiCall w _ no_options r_themes) as [w1 [[l|]|e]];
        exact Hnet. }
    rewrite H in Hn. eexists. split; [exact Hn | reflexivity].
  - intros H. injection H as H.
    pose proof (fetchFullTranscript_quiet w (Some interviewId) r_detail) as Hq.
    pose proof (fetchFullTranscript_network w (Some interviewId) r_detail)
      as Hn.
    rewrite H in Hq, Hn.
    split; [exact Hq|]. eexists. split; [exact Hn | reflexivity].
  - intros H. injection H as <- <-. split; [reflexivity|].
    exists []. rewrite app_nil_r. split; reflexivity.
Qed.

Lemma not_editable_run (u : option user_record) (es : list Reader.event)
    (c c' : world * Reader.state) :
  Reader.isEditable u = false -> editor_idle (snd c) ->
  Reader.run u c es = Some c' ->
  editor_idle (snd c')
  /\ exists l, network (fst c') = network (fst c) ++ l
       /\ forallb (fun rq => bool_decide (rq_body rq = None)) l = true.
Proof.
  intros Hu. revert c. induction es as [|e es IH]; intros c Hst Hrun.
  - injection Hrun as <-. split; [exact Hst|].
    exists []. rewrite app_nil_r. split; reflexivity.
  - cbn [Reader.run] in Hrun. unfold Reader.step in Hrun.
    destruct (Reader.handle u (fst c) (snd c) e) as [[w1 acts]|] eqn:Hh;
      [|discriminate].
    destruct (not_editable_handle u _ _ _ _ _ Hu Hst Hh)
      as (Hq & l1 & Hn1 & Hb1).
    destruct (IH (w1, Reader.dispatch (snd c) acts)
                (editor_idle_dispatch acts (snd c) Hq Hst) Hrun)
      as (Hidle & l2 & Hn2 & Hb2).
    split; [exact Hidle|].
    exists (l1 ++ l2). cbn [fst] in Hn2.
    rewrite Hn2, Hn1, <- app_assoc, forallb_app, Hb1, Hb2.
    split; reflexivity.
Qed.

(** C3, as stated, fails: a user whose access level is neither
    ["Premium"] nor ["Admin"], here ["Premium-trial"], opens an interview
    and starts editing a segment of it. *)
Lemma C3_trial_level_edits :
  ~ (forall (mail : option jsstring) (level : jsstring) (w0 : world)
            (es : list Reader.event) (c : world * Reader.state),
        level <> js "Premium" -> level <> js "Admin" ->
        Reader.run (Some {| email := mail; accessLevel := Some level |})
          (w0, Reader.initial) es = Some c ->
        Reader.editingSegment (snd c) = None).
Proof.
  intros H.
  assert (Hrun : exists c,
            Reader.run Sample.trial (Sample.browser, Reader.initial)
              [Reader.ClickInterview (js "int-7") (Sample.ok Sample.int_7);
               Reader.ClickEdit 1] = Some c
            /\ Reader.editingSegment (snd c) = Some (js "seg-2")).
  { vm_compute. eexists. split; reflexivity. }
  destruct Hrun as (c & Hrun & Hediting).
  assert (H1 : js "Premium-trial" <> js "Premium").
  { intros E. vm_compute in E. discriminate E. }
  assert (H2 : js "Premium-trial" <> js "Admin").
  { intros E. vm_compute in E. discriminate E. }
  specialize (H (Some (js "e@f.dk")) (js "Premium-trial") Sample.browser
                _ c H1 H2 Hrun).
  congruence.
Qed.

(** C3 (amended): for a user whose access-level string contains neither
    ["Premium"] nor ["Admin"] (or who has no access level), in every
    configuration the widget can reach and for every segment, whatever
    its [editable] flag: the segment is not being edited, its tagging
    panel is not open, and it is drawn with no edit or tag control, as
    plain text; the edit and tag submit operations return at once,
    sending nothing and setting nothing; and no request of the session
    carries a body. *)
Theorem C3_no_edit_without_privilege (u : option user_record) (w0 : world)
    (c : world * Reader.state) :
  Reader.level_includes u (js "Premium") = false ->
  Reader.level_includes u (js "Admin") = false ->
  Reader.reachable u w0 c ->
  (forall s : segment,
      Reader.is_editing (snd c) s = false
      /\ Reader.showTagging (Reader.local_of (snd c) s) = false
      /\ Reader.SegmentDisplay u (snd c) s
         = {| Reader.view_buttons := None;
              Reader.view_text :=
                Reader.Paragraph (or_else (seg_edited_text s) (seg_text s));
              Reader.view_chips := seg_tags s;
              Reader.view_tagging_panel := None |})
  /\ (forall (w : world) (st : Reader.state)
             (segmentId newText sentiment theme notes : jsstring)
             (r_save : fetch_result unit)
             (r_detail : fetch_result interview_detail),
         Reader.handleEditSegment u w st segmentId newText r_save r_detail
         = (w, [])
         /\ Reader.handleTagSegment u w st segmentId sentiment theme notes
              r_save r_detail = (w, []))
  /\ forallb (fun rq => bool_decide (rq_body rq = None))
       (sent_since w0 (fst c)) = true.
Proof.
  intros Hp Ha (es & Hrun).
  assert (Hu : Reader.isEditable u = false).
  { unfold Reader.isEditable. rewrite Hp, Ha. reflexivity. }
  destruct (not_editable_run u es (w0, Reader.initial) c Hu
              (conj eq_refl eq_refl) Hrun) as ((He & Hl) & l & Hn & Hb).
  split; [|split].
  - intros s.
    assert (Hed : Reader.is_editing (snd c) s = false).
    { apply is_editing_false. rewrite He. discriminate. }
    assert (Hsh : Reader.showTagging (Reader.local_of (snd c) s) = false).
    { unfold Reader.local_of. rewrite Hl, lookup_empty. reflexivity. }
    split; [exact Hed|]. split; [exact Hsh|].
    unfold Reader.SegmentDisplay. rewrite Hu, Hed, Hsh. reflexivity.
  - intros w st segmentId newText sentiment theme notes r_save r_detail.
    apply handlers_not_editable. exact Hu.
  - cbn [fst] in Hn. rewrite (sent_since_app w0 (fst c) l Hn). exact Hb.
Qed.

Lemma C3_no_edit_without_privilege_witness :
  exists c,
    Reader.run Sample.standard (Sample.browser, Reader.initial)
      [Reader.ClickInterview (js "int-7") (Sample.ok Sample.int_7)] = Some c
    /\ Reader.shown_segments (snd c)
       = [Sample.seg_1; Sample.seg_2; Sample.seg_3]
    /\ Reader.view_buttons
         (Reader.SegmentDisplay Sample.standard (snd c) Sample.seg_2) = None.
Proof.
  eexists. split; [vm_compute; reflexivity|].
  split; [vm_compute; reflexivity|].
  match goal with
  | |- context [Reader.SegmentDisplay _ (snd ?c) _] =>
      destruct (C3_no_edit_without_privilege Sample.standard Sample.browser
                  c)
        as (Hview & _)
  end.
  - vm_compute. reflexivity.
  - vm_compute. reflexivity.
  - exists [Reader.ClickInterview (js "int-7") (Sample.ok Sample.int_7)].
    vm_compute. reflexivity.
  - destruct (Hview Sample.seg_2) as (_ & _ & Hdrawn).
    rewrite Hdrawn. reflexivity.
Defined.

(** ** The dashboard batch *)

Lemma apiCall_receive_outcome {A : Type} (w : world) (ep : jsstring)
    (r : fetch_result A) :
  snd (apiCall_receive w ep r) = outcome_of r.
Proof.
  unfold outcome_of.
  destruct r as [|status st bt [d|]]; simpl; try reflexivity;
    destruct (status =? 401); try reflexivity;
    destruct (response_ok status); reflexivity.
Qed.

Lemma outcome_of_payload {A : Type} (r : fetch_result A) (d : A) :
  outcome_of r = Returned (Some d) <-> payload r = Some d.
Proof.
  unfold outcome_of.
  destruct r as [|status st bt p]; simpl.
  - split; discriminate.
  - destruct (status =? 401) eqn:H401.
    + rewrite (unauthorized_not_ok _ H401). simpl. split; discriminate.
    + destruct (response_ok status); simpl.
      * destruct p; simpl; split; congruence.
      * split; discriminate.
Qed.

Lemma fetchAllData_network (w : world) (st : App.state) (show : bool) :
  map request_line (sent_since w (App.env (App.fetchAllData w st show)))
  = [GET (js "overview"); GET (js "themes");
     GET (js "ratings"); GET (js "interviews")].
Proof.
  unfold sent_since, App.fetchAllData, App.fetchAllData_start, apiCall_send.
  cbn. rewrite <- !app_assoc. rewrite drop_app_length. reflexivity.
Qed.

Lemma error_banner (st : App.state) :
  App.isAuthenticated st = true -> App.error st = Some App.load_error ->
  App.render st = App.ErrorPage App.load_error
  \/ App.render st = App.DashboardPage (Some App.load_error).
Proof.
  intros Hau Her. unfold App.render. rewrite Hau, Her, andb_false_r.
  cbn [negb].
  destruct (App.overview st); [right | left]; reflexivity.
Qed.

Ltac settle_arrival Hfin H :=
  cbn [App.fetchAllData_arrive] in H;
  match type of H with
  | (if ?p then _ else _) = _ => destruct p; [|discriminate H]
  end;
  match type of H with
  | context [apiCall_receive ?w ?ep ?r] =>
      let Ho := fresh "Ho" in
      pose proof (apiCall_receive_outcome w ep r) as Ho;
      destruct (apiCall_receive w ep r) as [? ?];
      cbn [snd] in Ho; subst
  end;
  unfold App.promise_all in H;
  cbn [App.finished App.showLoading App.overviewData App.themesData
       App.ratingsData App.interviewsData] in H;
  rewrite Hfin in H.

Lemma arrive_spec (w : world) (b : App.batch) (clock : jsstring)
    (a : App.arrival) (w' : world) (acts : list App.action)
    (b' : App.batch) :
  App.finished b = false ->
  App.fetchAllData_arrive w b clock a = Some (w', acts, b') ->
  (arrival_rejects a = true ->
     acts = App.setError (Some App.load_error) :: App.finally b
     /\ App.finished b' = true /\ App.showLoading b' = App.showLoading b)
  /\ (arrival_rejects a = false -> (0 < App.pending_count b')%nat ->
      acts = [] /\ App.finished b' = false)
  /\ (forall o t r i,
        App.overviewData b' = App.Settled (Returned (Some o)) ->
        App.themesData b' = App.Settled (Returned (Some t)) ->
        App.ratingsData b' = App.Settled (Returned (Some r)) ->
        App.interviewsData b' = App.Settled (Returned (Some i)) ->
        acts = [App.setOverview (Some o);
                App.setThemes (default [] (App.resp_themes t));
                App.setRatings (default ∅ (App.resp_ratings r));
                App.setInterviews (default [] (App.resp_interviews i));
                App.setLastUpdated (Some clock)] ++ App.finally b
        /\ App.finished b' = true).
Proof.
  intros Hfin H.
  destruct a as [ra|ra|ra|ra]; settle_arrival Hfin H;
    cbn [arrival_rejects];
    destruct (outcome_of ra) as [v|e]; cbn [App.is_rejection] in *.
  all: try (injection H as <- <- <-;
            cbn [App.finished App.showLoading App.overviewData
                 App.themesData App.ratingsData App.interviewsData];
            split; [intros _; auto | split; [discriminate|]];
            intros o t r i Ho Ht Hr Hi; discriminate).
  all: split; [discriminate|].
  all: destruct (App.overviewData b) as [|[vo|eo]];
       destruct (App.themesData b) as [|[vt|et]];
       destruct (App.ratingsData b) as [|[vr|er]];
       destruct (App.interviewsData b) as [|[vi|ei]].
  all: try (injection H as <- <- <-;
            cbn [App.finished App.showLoading App.overviewData
                 App.themesData App.ratingsData App.interviewsData
                 App.pending_count App.is_pending];
            split; [intros _ _; auto |];
            intros o t r i Ho Ht Hr Hi; discriminate).
  all: match type of H with
       | context [App.fetchAllData_resume ?w ?b ?c ?o ?t ?r ?i] =>
           destruct (App.fetchAllData_resume w b c o t r i) as [w2 acts2]
             eqn:Hres
       end;
       injection H as <- <- <-;
       cbn [App.finished App.showLoading App.overviewData
            App.themesData App.ratingsData App.interviewsData
            App.pending_count App.is_pending];
       (split; [intros _ Hpos; cbn in Hpos; lia |]);
       intros o t r i Ho Ht Hr Hi;
       injection Ho as ->; injection Ht as ->;
       injection Hr as ->; injection Hi as ->;
       cbn in Hres; injection Hres as <- <-;
       split; reflexivity.
Qed.

(** [Promise.all] fulfilled: the rest of the [try] block runs on the
    four values, which are [undefined] for the answers of status 401. *)
Lemma arrive_fulfilled (w : world) (b : App.batch) (clock : jsstring)
    (a : App.arrival) (w' : world) (acts : list App.action)
    (b' : App.batch) (o : option App.overview_data)
    (t : option App.themes_response) (r : option App.ratings_response)
    (i : option App.interviews_response) :
  App.finished b = false ->
  App.fetchAllData_arrive w b clock a = Some (w', acts, b') ->
  App.overviewData b' = App.Settled (Returned o) ->
  App.themesData b' = App.Settled (Returned t) ->
  App.ratingsData b' = App.Settled (Returned r) ->
  App.interviewsData b' = App.Settled (Returned i) ->
  App.finished b' = true
  /\ exists w1, acts = snd (App.fetchAllData_resume w1 b clock o t r i).
Proof.
  intros Hfin H.
  destruct a as [ra|ra|ra|ra]; settle_arrival Hfin H;
    destruct (outcome_of ra) as [v|e]; cbn [App.is_rejection] in *.
  all: try (injection H as <- <- <-;
            cbn [App.finished App.overviewData App.themesData
                 App.ratingsData App.interviewsData];
            intros Ho Ht Hr Hi; discriminate).
  all: destruct (App.overviewData b) as [|[vo|eo]];
       destruct (App.themesData b) as [|[vt|et]];
       destruct (App.ratingsData b) as [|[vr|er]];
       destruct (App.interviewsData b) as [|[vi|ei]].
  all: try (injection H as <- <- <-;
            cbn [App.finished App.overviewData App.themesData
                 App.ratingsData App.interviewsData];
            intros Ho Ht Hr Hi; discriminate).
  all: match type of H with
       | context [App.fetchAllData_resume ?w1 ?b1 ?c1 ?o1 ?t1 ?r1 ?i1] =>
           destruct (App.fetchAllData_resume w1 b1 c1 o1 t1 r1 i1)
             as [w2 acts2] eqn:Hres;
           injection H as <- <- <-;
           cbn [App.finished App.overviewData App.themesData
                App.ratingsData App.interviewsData];
           intros Ho Ht Hr Hi;
           injection Ho as <-; injection Ht as <-;
           injection Hr as <-; injection Hi as <-;
           split; [reflexivity|]; exists w1;
           match type of Hres with
           | ?lhs = _ => change acts2 with (snd (w2, acts2)); rewrite <- Hres
           end; reflexivity
       end.
Qed.

(** C6, as stated, fails: the batch does not wait for the four requests
    to settle before it fails. When the first answer to come in is a
    failure the error banner is set and the loading state cleared at
    once, while three requests are still pending. *)
Lemma C6_batch_fails_before_all_settle :
  ~ (forall (c c' : App.config) (clock : jsstring) (a : App.arrival),
        App.finished (App.flight c) = false ->
        App.arrive c clock a = Some c' ->
        App.finished (App.flight c') = true ->
        App.pending_count (App.flight c') = 0%nat).
Proof.
  intros H.
  assert (Hc : exists c',
            App.arrive (App.fetchAllData Sample.browser Sample.signed_in true)
              (js "10.00.00") (App.themes_arrives Sample.server_error)
            = Some c'
            /\ App.finished (App.flight c') = true
            /\ App.pending_count (App.flight c') = 3%nat
            /\ App.error (App.app c') = Some App.load_error
            /\ App.isLoading (App.app c') = false).
  { vm_compute. eexists. repeat split; reflexivity. }
  destruct Hc as (c' & Harrive & Hfin & Hpending & _).
  specialize (H (App.fetchAllData Sample.browser Sample.signed_in true) c'
                _ _ eq_refl Harrive Hfin).
  rewrite Hpending in H. discriminate H.
Qed.

(** C6 (amended): [fetchAllData] sends the four requests (overview,
    themes, ratings, interviews) one after the other before it waits for
    any answer, and clears the error. While the batch is unsettled, an
    answer that is not a failure and leaves a request pending sets
    nothing. The batch completes only when the four have been answered,
    and when they have been answered with data the four results and the
    time of update are set together. The batch fails as soon as one
    answer is a failure, without waiting for the requests still pending:
    the one error message is set, no data is touched, and an
    authenticated user sees it on the error page or as the banner of the
    dashboard. The retry button starts the whole batch of four again.
    An answer of status 401 is no failure of the batch: the gateway
    returns [undefined] for it. When the four have been answered and the
    answer for themes, ratings or interviews is [undefined], the results
    that come before it, in the order overview, themes, ratings,
    interviews, are set, the others and the time of update are left as
    they were, and the error message is set: a partial result is
    rendered. *)
Theorem C6_dashboard_batch (w : world) (st : App.state) (show : bool)
    (c : App.config) (clock : jsstring) (a : App.arrival) (c' : App.config) :
  App.finished (App.flight c) = false ->
  App.arrive c clock a = Some c' ->
  (map request_line (sent_since w (App.env (App.fetchAllData w st show)))
   = [GET (js "overview"); GET (js "themes");
      GET (js "ratings"); GET (js "interviews")]
   /\ App.pending_count (App.flight (App.fetchAllData w st show)) = 4%nat
   /\ App.finished (App.flight (App.fetchAllData w st show)) = false
   /\ App.error (App.app (App.fetchAllData w st show)) = None
   /\ App.handleRetry w st = App.fetchAllData w st true)
  /\ (arrival_rejects a = false ->
      (0 < App.pending_count (App.flight c'))%nat ->
      App.app c' = App.app c /\ App.finished (App.flight c') = false)
  /\ (forall o t r i,
        App.overviewData (App.flight c') = App.Settled (Returned (Some o)) ->
        App.themesData (App.flight c') = App.Settled (Returned (Some t)) ->
        App.ratingsData (App.flight c') = App.Settled (Returned (Some r)) ->
        App.interviewsData (App.flight c')
        = App.Settled (Returned (Some i)) ->
        App.finished (App.flight c') = true
        /\ App.pending_count (App.flight c') = 0%nat
        /\ App.overview (App.app c') = Some o
        /\ App.themes (App.app c') = default [] (App.resp_themes t)
        /\ App.ratings (App.app c') = default ∅ (App.resp_ratings r)
        /\ App.interviews (App.app c') = default [] (App.resp_interviews i)
        /\ App.lastUpdated (App.app c') = Some clock
        /\ App.error (App.app c') = App.error (App.app c))
  /\ (arrival_rejects a = true ->
      App.finished (App.flight c') = true
      /\ App.error (App.app c') = Some App.load_error
      /\ App.overview (App.app c') = App.overview (App.app c)
      /\ App.themes (App.app c') = App.themes (App.app c)
      /\ App.ratings (App.app c') = App.ratings (App.app c)
      /\ App.interviews (App.app c') = App.interviews (App.app c)
      /\ (App.isAuthenticated (App.app c) = true ->
          App.render (App.app c') = App.ErrorPage App.load_error
          \/ App.render (App.app c')
             = App.DashboardPage (Some App.load_error)))
  /\ (forall o t r i,
        App.overviewData (App.flight c') = App.Settled (Returned o) ->
        App.themesData (App.flight c') = App.Settled (Returned t) ->
        App.ratingsData (App.flight c') = App.Settled (Returned r) ->
        App.interviewsData (App.flight c') = App.Settled (Returned i) ->
        App.finished (App.flight c') = true
        /\ App.pending_count (App.flight c') = 0%nat
        /\ App.overview (App.app c') = o
        /\ App.themes (App.app c')
           = match t with
             | Some t => default [] (App.resp_themes t)
             | None => App.themes (App.app c)
             end
        /\ App.ratings (App.app c')
           = match t, r with
             | Some _, Some r => default ∅ (App.resp_ratings r)
             | _, _ => App.ratings (App.app c)
             end
        /\ App.interviews (App.app c')
           = match t, r, i with
             | Some _, Some _, Some i =>
                 default [] (App.resp_interviews i)
             | _, _, _ => App.interviews (App.app c)
             end
        /\ App.lastUpdated (App.app c')
           = match t, r, i with
             | Some _, Some _, Some _ => Some clock
             | _, _, _ => App.lastUpdated (App.app c)
             end
        /\ App.error (App.app c')
           = match t, r, i with
             | Some _, Some _, Some _ => App.error (App.app c)
             | _, _, _ => Some App.load_error
             end).
Proof.
  intros Hfin Harrive.
  unfold App.arrive in Harrive.
  destruct (App.fetchAllData_arrive (App.env c) (App.flight c) clock a)
    as [[[w1 acts] b1]|] eqn:Hstep; [|discriminate].
  injection Harrive as <-. cbn [App.app App.flight App.env].
  destruct (arrive_spec _ _ _ _ _ _ _ Hfin Hstep) as (Hfail & Hwait & Hdone).
  split; [|split; [|split; [|split]]].
  - split; [apply fetchAllData_network|].
    destruct show; repeat split; reflexivity.
  - intros Hok Hpos. destruct (Hwait Hok Hpos) as (-> & Hf).
    split; [reflexivity | exact Hf].
  - intros o t r i Ho Ht Hr Hi.
    destruct (Hdone o t r i Ho Ht Hr Hi) as (-> & Hf).
    unfold App.pending_count. rewrite Ho, Ht, Hr, Hi.
    destruct (App.showLoading (App.flight c)) eqn:Hshow;
      unfold App.finally; rewrite Hshow; repeat split; assumption.
  - intros Hrej. destruct (Hfail Hrej) as (-> & Hf & _).
    assert (Her : App.error
                    (App.dispatch (App.app c)
                       (App.setError (Some App.load_error)
                        :: App.finally (App.flight c)))
                  = Some App.load_error).
    { unfold App.finally. destruct (App.showLoading (App.flight c));
        reflexivity. }
    split; [exact Hf|]. split; [exact Her|].
    repeat split;
      try (unfold App.finally; destruct (App.showLoading (App.flight c));
           reflexivity).
    intros Hau. apply error_banner; [|exact Her].
    rewrite <- Hau. unfold App.finally.
    destruct (App.showLoading (App.flight c)); reflexivity.
  - intros o t r i Ho Ht Hr Hi.
    destruct (arrive_fulfilled _ _ _ _ _ _ _ o t r i Hfin Hstep Ho Ht Hr Hi)
      as (Hf & w2 & ->).
    split; [exact Hf|].
    split; [unfold App.pending_count; rewrite Ho, Ht, Hr, Hi; reflexivity|].
    unfold App.fetchAllData_resume, App.catch, App.finally.
    destruct t as [t|]; [destruct r as [r|]; [destruct i as [i|]|]|];
      cbn [snd]; destruct (App.showLoading (App.flight c));
      repeat split; reflexivity.
Qed.

Lemma C6_dashboard_batch_witness :
  exists c',
    App.arrive (App.fetchAllData Sample.browser Sample.signed_in true)
      (js "10.00.00") (App.themes_arrives Sample.server_error) = Some c'
    /\ App.error (App.app c') = Some App.load_error.
Proof.
  eexists. split; [vm_compute; reflexivity|].
  match goal with
  | |- App.error (App.app ?c') = _ =>
      destruct (C6_dashboard_batch Sample.browser Sample.signed_in true
                  (App.fetchAllData Sample.browser Sample.signed_in true)
                  (js "10.00.00") (App.themes_arrives Sample.server_error)
                  c')
        as (_ & _ & _ & Hfails & _)
  end.
  - reflexivity.
  - vm_compute. reflexivity.
  - destruct (Hfails eq_refl) as (_ & Hbanner & _). exact Hbanner.
Defined.

(** The partial result, on a run: overview, ratings and interviews are
    answered with data and themes, last, with status 401. The new
    overview is set, the themes are those of before, and the error
    message is set. *)
Lemma unauthorized_themes_answer_renders_partial :
  option_map
    (fun c' => (App.total_interviews <$> App.overview (App.app c'),
                App.themes (App.app c'),
                App.error (App.app c'),
                App.finished (App.flight c')))
    (App.arrivals (App.fetchAllData Sample.browser Sample.signed_in true)
       (js "10.00.00")
       [App.overview_arrives
          (Sample.ok {| App.total_interviews := 12;
                        App.active_interviews := 2;
                        App.avg_duration := 185;
                        App.trend_percentage := -3;
                        App.assistant_name := js "Supermarket int. dansk";
                        App.user_access_level := Some (js "Premium") |});
        App.ratings_arrives (Sample.ok {| App.resp_ratings := None |});
        App.interviews_arrives (Sample.ok {| App.resp_interviews := None |});
        App.themes_arrives Sample.unauthorized])
  = Some (Some 12, App.themes Sample.signed_in, Some App.load_error, true).
Proof. vm_compute. reflexivity. Qed.

(** * Further properties of the code *)

(** ** Substrings and the test of the access level *)

Lemma starts_with_spec (pat s : jsstring) :
  starts_with pat s = true <-> exists rest, s = pat ++ rest.
Proof.
  revert s. induction pat as [|p pat IH]; intros s; simpl.
  - split; [intros _; exists s; reflexivity | reflexivity].
  - destruct s as [|c s].
    + split; [discriminate | intros (rest & H); discriminate H].
    + rewrite andb_true_iff, N.eqb_eq, IH. split.
      * intros (-> & rest & ->). exists rest. reflexivity.
      * intros (rest & H). injection H as -> ->. eauto.
Qed.

Lemma includes_spec (s pat : jsstring) :
  includes s pat = true <-> exists before after, s = before ++ pat ++ after.
Proof.
  induction s as [|c s IH].
  - simpl. rewrite orb_false_r, starts_with_spec. split.
    + intros (rest & H). exists [], rest. exact H.
    + intros (before & after & H).
      destruct before; [exists after; exact H | discriminate H].
  - cbn [includes]. rewrite orb_true_iff, starts_with_spec, IH. split.
    + intros [(rest & H) | (before & after & H)].
      * exists [], rest. exact H.
      * exists (c :: before), after. rewrite H. reflexivity.
    + intros (before & after & H). destruct before as [|b before].
      * left. exists after. exact H.
      * right. injection H as -> H. eauto.
Qed.

Lemma includes_trans (s mid pat : jsstring) :
  includes s mid = true -> includes mid pat = true -> includes s pat = true.
Proof.
  rewrite !includes_spec.
  intros (b1 & a1 & ->) (b2 & a2 & ->).
  exists (b1 ++ b2), (a2 ++ a1). rewrite <- !app_assoc. reflexivity.
Qed.

Lemma includes_empty (s : jsstring) : includes s [] = true.
Proof. apply includes_spec. exists [], s. reflexivity. Qed.

(** X1: the widget lets a user edit exactly when the user has an access
    level and the text of that level contains ["Premium"] or ["Admin"]
    somewhere in it, whatever stands before and after; a missing user or
    a missing level never may. *)
Theorem isEditable_iff_level_contains (u : option user_record) :
  Reader.isEditable u = true
  <-> exists (usr : user_record) (level before after : jsstring),
        u = Some usr /\ accessLevel usr = Some level
        /\ (level = before ++ js "Premium" ++ after
            \/ level = before ++ js "Admin" ++ after).
Proof.
  unfold Reader.isEditable, Reader.level_includes.
  rewrite orb_true_iff. split.
  - destruct u as [usr|]; [|intros [H|H]; discriminate H].
    destruct (accessLevel usr) as [level|] eqn:Hl;
      [|intros [H|H]; discriminate H].
    rewrite !includes_spec.
    intros [(b & a & H) | (b & a & H)]; exists usr, level, b, a; auto.
  - intros (usr & level & b & a & -> & Hl & H). rewrite Hl.
    rewrite !includes_spec. destruct H as [H|H]; [left | right]; eauto.
Qed.

(** ** What the gateway sends and what it leaves alone *)

Lemma request_headers_lookup (token : option jsstring) (o : options)
    (k : string) :
  request_headers token o !! k
  = match opt_headers o !! k with
    | Some v => Some v
    | None =>
        if truthy token && bool_decide (k = "Authorization"%string)
        then Some (js "Bearer " ++ template token)
        else if bool_decide (k = "Content-Type"%string)
             then Some (js "application/json")
             else None
    end.
Proof.
  unfold request_headers.
  destruct (opt_headers o !! k) as [v|] eqn:Ho.
  - apply lookup_union_Some_l, lookup_union_Some_l. exact Ho.
  - rewrite <- (assoc_L (∪)). rewrite (lookup_union_r _ _ _ Ho).
    destruct (truthy token); cbn [andb].
    + destruct (decide (k = "Authorization"%string)) as [->|Hk].
      * rewrite bool_decide_eq_true_2 by reflexivity.
        apply lookup_union_Some_l, lookup_singleton_eq.
      * rewrite (bool_decide_eq_false_2 _ Hk).
        rewrite lookup_union_r by (apply lookup_singleton_ne; congruence).
        destruct (decide (k = "Content-Type"%string)) as [->|Hc].
        -- rewrite bool_decide_eq_true_2 by reflexivity.
           apply lookup_singleton_eq.
        -- rewrite (bool_decide_eq_false_2 _ Hc).
           apply lookup_singleton_ne. congruence.
    + rewrite (left_id_L ∅ (∪)).
      destruct (decide (k = "Content-Type"%string)) as [->|Hc].
      * rewrite bool_decide_eq_true_2 by reflexivity.
        apply lookup_singleton_eq.
      * rewrite (bool_decide_eq_false_2 _ Hc).
        apply lookup_singleton_ne. congruence.
Qed.

(** X2: every call of the gateway sends exactly one request, to the
    endpoint and with the method and body of the caller. A header the
    caller gives is sent as given, also when it is named
    [Authorization] or [Content-Type]; otherwise [Authorization] is
    [Bearer] followed by the stored token, and is absent when no token
    or an empty one is stored, [Content-Type] is [application/json], and
    there is no other header. *)
Theorem apiCall_request {A : Type} (w : world) (endpoint : jsstring)
    (o : options) (r : fetch_result A) :
  exists rq,
    sent_since w (fst (apiCall w endpoint o r)) = [rq]
    /\ rq_endpoint rq = endpoint
    /\ rq_method rq = opt_method o
    /\ rq_body rq = opt_body o
    /\ forall k,
         rq_headers rq !! k
         = match opt_headers o !! k with
           | Some v => Some v
           | None =>
               if truthy (getStoredToken w)
                  && bool_decide (k = "Authorization"%string)
               then Some (js "Bearer " ++ template (getStoredToken w))
               else if bool_decide (k = "Content-Type"%string)
                    then Some (js "application/json")
                    else None
           end.
Proof.
  exists (request_of w endpoint o).
  split; [apply sent_since_app, apiCall_network|].
  repeat split. intros k. apply request_headers_lookup.
Qed.

(** X3: an answer whose status is not 401, and a network failure,
    leave the durable storage as it is and do not reload the page. A
    network failure makes the call throw; a status outside 2xx makes it
    throw an error that carries the status, its text and the body; a
    2xx status gives the parsed body, and throws when the body is no
    JSON. *)
Theorem apiCall_keeps_session {A : Type} (w : world) (endpoint : jsstring)
    (o : options) (r : fetch_result A) :
  is_unauthorized r = false ->
  localStorage (fst (apiCall w endpoint o r)) = localStorage w
  /\ reloads (fst (apiCall w endpoint o r)) = reloads w
  /\ snd (apiCall w endpoint o r)
     = match r with
       | NetworkFailure => Threw FetchError
       | HttpResponse status statusText body_text parsed =>
           if response_ok status then
             match parsed with
             | Some data => Returned (Some data)
             | None => Threw SyntaxError
             end
           else Threw (ApiError status statusText body_text)
       end.
Proof.
  intros H401. unfold apiCall.
  destruct r as [|status st bt p]; simpl in *.
  - auto.
  - rewrite H401. destruct (response_ok status); simpl.
    + destruct p; simpl; auto.
    + auto.
Qed.

Lemma apiCall_keeps_session_witness :
  snd (apiCall Sample.browser (js "overview") no_options
         (Sample.server_error (A := App.overview_data)))
  = Threw (ApiError 500 (js "Internal Server Error") (js "boom"))
  /\ getStoredToken
       (fst (apiCall Sample.browser (js "overview") no_options
               (Sample.server_error (A := App.overview_data))))
     = Some (js "tok").
Proof.
  destruct (apiCall_keeps_session Sample.browser (js "overview") no_options
              (Sample.server_error (A := App.overview_data)) eq_refl)
    as (Hstorage & _ & Hthrown).
  split; [exact Hthrown|].
  unfold getStoredToken. rewrite Hstorage. reflexivity.
Defined.

(** ** Sessions: restoring, ending *)

(** X4: when the application starts, it takes the user for signed in
    exactly when the storage holds a token and an email that are not
    empty; nothing is asked of the server and the access level is not
    looked at. Signed in, the dashboard is shown with no error and the
    user is the stored email and level; otherwise the login view is
    shown and no user is set. In neither case is the start-up spinner
    left on. *)
Theorem session_restored_iff_token_and_email (w : world) :
  let st := App.dispatch App.initial (App.check_authentication w) in
  let present :=
    truthy (getStoredToken w)
    && truthy (localStorage w !! "user_email"%string) in
  App.isAuthenticated st = present
  /\ App.isLoading st = false
  /\ App.user st = (if present then Some (getStoredUser w) else None)
  /\ App.page_after_reload w
     = (if present then App.DashboardPage None else App.LandingPage).
Proof.
  intros st present. subst st present.
  unfold App.page_after_reload, App.check_authentication.
  change (email (getStoredUser w)) with (localStorage w !! "user_email"%string).
  destruct (truthy (getStoredToken w)
            && truthy (localStorage w !! "user_email"%string));
    repeat split; reflexivity.
Qed.

(** X5: logging out removes the three session keys and no other key,
    sends nothing and does not reload; the user and the four data sets
    are cleared, while the error message and the loading flag stay as
    they were. The login view is then shown, unless a load was in
    progress, in which case the spinner is; and a later start of the
    application shows the login view. *)
Theorem handleLogout_ends_session (w : world) (st : App.state) :
  let w' := fst (App.handleLogout w) in
  let st' := App.dispatch st (snd (App.handleLogout w)) in
  (localStorage w' !! "access_token"%string = None
   /\ localStorage w' !! "user_email"%string = None
   /\ localStorage w' !! "access_level"%string = None
   /\ forall k, k <> "access_token"%string -> k <> "user_email"%string ->
        k <> "access_level"%string ->
        localStorage w' !! k = localStorage w !! k)
  /\ network w' = network w /\ reloads w' = reloads w
  /\ (App.isAuthenticated st' = false /\ App.user st' = None
      /\ App.overview st' = None /\ App.themes st' = []
      /\ App.ratings st' = ∅ /\ App.interviews st' = [])
  /\ App.error st' = App.error st /\ App.isLoading st' = App.isLoading st
  /\ App.render st'
     = (if App.isLoading st then App.LoadingPage else App.LandingPage)
  /\ App.page_after_reload w' = App.LandingPage.
Proof.
  intros w' st'. subst w' st'. cbn [App.handleLogout fst snd].
  destruct (clearStoredAuth_keys w) as (K1 & K2 & K3).
  split; [|split; [|split; [|split; [|split; [|split; [|split]]]]]].
  - repeat split; try assumption.
    intros k H1 H2 H3. apply clearStoredAuth_other; assumption.
  - reflexivity.
  - reflexivity.
  - repeat split; reflexivity.
  - reflexivity.
  - reflexivity.
  - unfold App.render. cbn. destruct (App.isLoading st); reflexivity.
  - apply no_token_landing. exact K1.
Qed.

(** ** Durations *)

Lemma uint_units_digits (d : Decimal.uint) :
  forallb is_digit (Display.uint_units d) = true.
Proof. induction d; simpl; auto. Qed.

Lemma decimal_value_acc (d : Decimal.uint) (acc : positive) :
  fold_left (fun acc c => (10 * acc + (c - 48))%N) (Display.uint_units d)
    (Npos acc)
  = Npos (Pos.of_uint_acc d acc).
Proof.
  revert acc.
  induction d; intros acc;
    cbn [Display.uint_units fold_left Pos.of_uint_acc];
    try reflexivity; rewrite <- IHd; f_equal; lia.
Qed.

Lemma decimal_value_uint (d : Decimal.uint) :
  decimal_value (Display.uint_units d) = Pos.of_uint d.
Proof.
  unfold decimal_value.
  induction d; cbn [Display.uint_units fold_left Pos.of_uint];
    try reflexivity; try exact IHd.
  all: match goal with
       | |- fold_left _ _ ?a = _ =>
           let v := eval vm_compute in a in change a with v
       end; apply decimal_value_acc.
Qed.

Lemma toString_digits (n : Z) :
  0 <= n ->
  forallb is_digit (Display.toString n) = true
  /\ decimal_value (Display.toString n) = Z.to_N n
  /\ Display.toString n <> [].
Proof.
  intros Hn. destruct n as [|p|p]; try lia.
  - repeat split. discriminate.
  - cbn [Display.toString]. split; [apply uint_units_digits|]. split.
    + rewrite decimal_value_uint. apply Stdlib.Numbers.DecimalPos.Unsigned.of_to.
    + intros H. pose proof (decimal_value_uint (Pos.to_uint p)) as Hv.
      rewrite H, Stdlib.Numbers.DecimalPos.Unsigned.of_to in Hv. discriminate Hv.
Qed.

Lemma two_digits (r : Z) :
  0 <= r < 60 ->
  Display.padStart 2 48%N (Display.toString r)
  = [(48 + Z.to_N (r / 10))%N; (48 + Z.to_N (r mod 10))%N].
Proof.
  intros Hr.
  assert (H : exists n : nat, (n < 60)%nat /\ r = Z.of_nat n).
  { exists (Z.to_nat r). lia. }
  destruct H as (n & Hn & ->).
  do 60 (destruct n as [|n]; [vm_compute; reflexivity|]).
  lia.
Qed.

(** X6: for a duration of zero or more whole seconds, within the
    integers the language counts exactly, [formatDuration] writes
    the minutes in decimal digits, a colon, and exactly two decimal
    digits for the seconds, which are less than 60; read back, sixty
    times the minutes plus the seconds is the duration. A missing
    duration is written ["0:00"]. *)
Theorem formatDuration_reads_back (seconds : Z) :
  0 <= seconds <= 9007199254740991 ->
  exists m s : jsstring,
    Display.formatDuration (Some seconds) = m ++ js ":" ++ s
    /\ m <> [] /\ forallb is_digit m = true
    /\ length s = 2%nat /\ forallb is_digit s = true
    /\ (decimal_value s < 60)%N
    /\ (60 * decimal_value m + decimal_value s)%N = Z.to_N seconds
    /\ Display.formatDuration None = js "0:00".
Proof.
  intros [Hs _].
  assert (Hq : 0 <= seconds / 60) by (apply Z.div_pos; lia).
  assert (Hr : 0 <= Z.rem seconds 60 < 60).
  { rewrite Z.rem_mod_nonneg by lia. apply Z.mod_pos_bound. lia. }
  destruct (toString_digits _ Hq) as (Hd & Hv & Hne).
  exists (Display.toString (seconds / 60)),
         (Display.padStart 2 48%N (Display.toString (Z.rem seconds 60))).
  split.
  { destruct seconds as [|p|p]; try lia; reflexivity. }
  split; [exact Hne|]. split; [exact Hd|].
  rewrite (two_digits _ Hr), Hv.
  assert (Hd1 : 0 <= Z.rem seconds 60 / 10 < 6).
  { split; [apply Z.div_pos; lia | apply Z.div_lt_upper_bound; lia]. }
  assert (Hd2 : 0 <= Z.rem seconds 60 mod 10 < 10)
    by (apply Z.mod_pos_bound; lia).
  assert (Hval : decimal_value
                   [(48 + Z.to_N (Z.rem seconds 60 / 10))%N;
                    (48 + Z.to_N (Z.rem seconds 60 mod 10))%N]
                 = Z.to_N (Z.rem seconds 60)).
  { unfold decimal_value. cbn [fold_left].
    pose proof (Z.div_mod (Z.rem seconds 60) 10 ltac:(lia)). lia. }
  rewrite Hval.
  repeat split.
  - unfold is_digit. cbn [forallb].
    rewrite !andb_true_iff, !N.leb_le. lia.
  - lia.
  - rewrite Z.rem_mod_nonneg in * by lia.
    pose proof (Z.div_mod seconds 60 ltac:(lia)). lia.
Qed.

Lemma formatDuration_reads_back_witness :
  exists m s : jsstring,
    Display.formatDuration (Some 185) = m ++ js ":" ++ s
    /\ (60 * decimal_value m + decimal_value s)%N = 185%N.
Proof.
  destruct (formatDuration_reads_back 185 ltac:(lia))
    as (m & s & Hf & _ & _ & _ & _ & _ & Hv & _).
  exists m, s. split; [exact Hf | exact Hv].
Defined.

(** X7: the response log and the interview reader write every duration
    alike, missing, zero and negative ones included, although the log
    tests the duration once for each half of the text. *)
Theorem log_duration_is_formatDuration (duration : option Z) :
  Display.log_duration duration = Display.formatDuration duration.
Proof.
  destruct duration as [[|p|p]|]; reflexivity.
Qed.

(** ** The cards of the interview list *)

(** X8: on a card of the interview list a transcript that is present
    and not empty is shown up to its first 100 code units in the
    reader, 150 in the response log, and is always followed by three
    dots, also when it is shorter than the cut and nothing was left out;
    the preview is thus never longer than 103, respectively 153. A
    missing or empty transcript shows the fallback text of the widget
    instead. *)
Theorem preview_bounded (transcript : option jsstring) :
  (truthy transcript = false ->
     Display.reader_preview transcript = js "Ingen transskription"
     /\ Display.log_preview transcript
        = js "Ingen transskription tilg" ++ [230%N] ++ js "ngelig")
  /\ (forall t, transcript = Some t -> t <> [] ->
        Display.reader_preview transcript = firstn 100 t ++ js "..."
        /\ Display.log_preview transcript = firstn 150 t ++ js "..."
        /\ (length (Display.reader_preview transcript) <= 103)%nat
        /\ (length (Display.log_preview transcript) <= 153)%nat
        /\ ((length t <= 100)%nat ->
            Display.reader_preview transcript = t ++ js "..."
            /\ Display.log_preview transcript = t ++ js "...")).
Proof.
  unfold Display.reader_preview, Display.log_preview, Display.preview.
  split.
  - intros H. rewrite H. split; reflexivity.
  - intros t -> Ht.
    destruct t as [|c t]; [congruence|]. cbn [truthy default].
    split; [reflexivity|]. split; [reflexivity|].
    rewrite !length_app, !length_firstn.
    change (length (js "...")) with 3%nat.
    unfold id. split; [lia|]. split; [lia|].
    intros Hlen. rewrite !firstn_all2 by lia. split; reflexivity.
Qed.

Lemma preview_bounded_witness :
  Display.reader_preview (Some (js "Fint")) = js "Fint" ++ js "..."
  /\ Display.reader_preview (Some []) = js "Ingen transskription".
Proof.
  destruct (preview_bounded (Some (js "Fint"))) as (_ & Hshort).
  destruct (preview_bounded (Some [])) as (Hempty & _).
  split.
  - destruct (Hshort (js "Fint") eq_refl) as (_ & _ & _ & _ & Hall).
    + discriminate.
    + apply Hall. vm_compute. lia.
  - apply Hempty. reflexivity.
Defined.

(** ** The search box *)

Section SearchFacts.

Variable toLowerCase : jsstring -> jsstring.

Lemma matches_narrower (q1 q2 : jsstring) (i : interview) :
  includes (toLowerCase q2) (toLowerCase q1) = true ->
  Display.matches toLowerCase q2 i = true ->
  Display.matches toLowerCase q1 i = true.
Proof.
  unfold Display.matches. intros Hq. rewrite !orb_true_iff.
  intros [H|H]; [left | right]; exact (includes_trans _ _ _ H Hq).
Qed.

Lemma filter_filter_narrower (q1 q2 : jsstring) (l : list interview) :
  includes (toLowerCase q2) (toLowerCase q1) = true ->
  Display.filteredInterviews toLowerCase q2
    (Display.filteredInterviews toLowerCase q1 l)
  = Display.filteredInterviews toLowerCase q2 l.
Proof.
  intros Hq. unfold Display.filteredInterviews.
  induction l as [|i l IH]; [reflexivity|]. cbn [List.filter].
  destruct (Display.matches toLowerCase q1 i) eqn:H1.
  - cbn [List.filter]. rewrite IH. reflexivity.
  - rewrite IH.
    destruct (Display.matches toLowerCase q2 i) eqn:H2; [|reflexivity].
    rewrite (matches_narrower q1 q2 i Hq H2) in H1. discriminate H1.
Qed.

End SearchFacts.

(** X9: in the interview list, an empty search text keeps every
    interview, in order; typing on, so that the lower-cased new text
    contains the lower-cased old one, can only narrow the list: searching
    the earlier result gives what searching the whole list gives, and
    what is found was found before. An interview with neither
    supermarket nor transcript is found only by a text whose lower case
    is empty. *)
Theorem search_narrows (toLowerCase : jsstring -> jsstring)
    (q1 q2 : jsstring) (l : list interview) (i : interview) :
  toLowerCase [] = [] ->
  includes (toLowerCase q2) (toLowerCase q1) = true ->
  Display.filteredInterviews toLowerCase [] l = l
  /\ Display.filteredInterviews toLowerCase q2
       (Display.filteredInterviews toLowerCase q1 l)
     = Display.filteredInterviews toLowerCase q2 l
  /\ (In i (Display.filteredInterviews toLowerCase q2 l) ->
      In i (Display.filteredInterviews toLowerCase q1 l))
  /\ (int_supermarket i = None -> int_transcript i = None ->
      (Display.matches toLowerCase q1 i = true <-> toLowerCase q1 = [])).
Proof.
  intros Hempty Hq. split; [|split; [|split]].
  - unfold Display.filteredInterviews.
    induction l as [|x l IH]; [reflexivity|]. cbn [List.filter].
    unfold Display.matches at 1. rewrite Hempty, includes_empty.
    cbn [orb]. rewrite IH. reflexivity.
  - apply filter_filter_narrower. exact Hq.
  - unfold Display.filteredInterviews. rewrite !filter_In.
    intros (Hin & Hm). split; [exact Hin|].
    exact (matches_narrower toLowerCase q1 q2 i Hq Hm).
  - intros Hs Ht. unfold Display.matches. rewrite Hs, Ht.
    cbn [or_else]. rewrite Hempty, orb_diag, includes_spec. split.
    + intros (before & after & H). symmetry in H.
      apply app_eq_nil in H. destruct H as (_ & H).
      apply app_eq_nil in H. tauto.
    + intros ->. exists [], []. reflexivity.
Qed.

Lemma search_narrows_witness :
  Display.filteredInterviews ascii_lower (js "NET")
    [ {| int_id := js "int-7"; int_supermarket := Some (js "Netto");
         int_transcript := None; int_status := None; int_duration := 185 |};
      {| int_id := js "int-8"; int_supermarket := Some (js "Rema");
         int_transcript := Some (js "Internet"); int_status := None;
         int_duration := 0 |};
      {| int_id := js "int-9"; int_supermarket := None;
         int_transcript := None; int_status := None; int_duration := 0 |} ]
  = Display.filteredInterviews ascii_lower (js "NET")
      (Display.filteredInterviews ascii_lower (js "ne")
         [ {| int_id := js "int-7"; int_supermarket := Some (js "Netto");
              int_transcript := None; int_status := None;
              int_duration := 185 |};
           {| int_id := js "int-8"; int_supermarket := Some (js "Rema");
              int_transcript := Some (js "Internet"); int_status := None;
              int_duration := 0 |};
           {| int_id := js "int-9"; int_supermarket := None;
              int_transcript := None; int_status := None;
              int_duration := 0 |} ]).
Proof.
  symmetry.
  apply (search_narrows ascii_lower (js "ne") (js "NET") _
           {| int_id := js "int-9"; int_supermarket := None;
              int_transcript := None; int_status := None;
              int_duration := 0 |}).
  - reflexivity.
  - vm_compute. reflexivity.
Defined.

(** ** Signing in *)

Lemma trim_start_head (s : jsstring) (c : N) (u : jsstring) :
  trim_start s = c :: u -> is_white_space c = false.
Proof.
  induction s as [|d s IH]; simpl; [discriminate|].
  destruct (is_white_space d) eqn:Hd; [exact IH|].
  intros H. injection H as <- _. exact Hd.
Qed.

Lemma forallb_rev {A : Type} (f : A -> bool) (l : list A) :
  forallb f (rev l) = forallb f l.
Proof.
  induction l as [|x l IH]; [reflexivity|].
  simpl. rewrite forallb_app, IH. simpl. rewrite andb_true_r.
  apply andb_comm.
Qed.

Lemma trim_end_prefix (t : jsstring) :
  exists q, t = trim_end t ++ q /\ forallb is_white_space q = true.
Proof.
  destruct (trim_start_suffix (rev t)) as (p & Hp & Hw).
  exists (rev p). split.
  - unfold trim_end. rewrite <- rev_app_distr, <- Hp, rev_involutive.
    reflexivity.
  - rewrite forallb_rev. exact Hw.
Qed.

Lemma trim_end_last (t u : jsstring) (c : N) :
  trim_end t = u ++ [c] -> is_white_space c = false.
Proof.
  unfold trim_end. intros H.
  apply (f_equal (@rev N)) in H.
  rewrite rev_involutive, rev_app_distr in H. simpl in H.
  exact (trim_start_head _ _ _ H).
Qed.

(** What [trim] gives: the text without the white space around it. *)
Lemma trim_spec (s : jsstring) :
  (exists p q, s = p ++ trim s ++ q
     /\ forallb is_white_space p = true /\ forallb is_white_space q = true)
  /\ (forall c u, trim s = c :: u -> is_white_space c = false)
  /\ (forall u c, trim s = u ++ [c] -> is_white_space c = false).
Proof.
  unfold trim.
  destruct (trim_start_suffix s) as (p & Hp & Hwp).
  destruct (trim_end_prefix (trim_start s)) as (q & Hq & Hwq).
  split; [|split].
  - exists p, q. rewrite <- Hq. auto.
  - intros c u H. rewrite H in Hq. simpl in Hq.
    exact (trim_start_head _ _ _ Hq).
  - intros u c. apply trim_end_last.
Qed.

Lemma handleSubmit_sent (w : world) (st : Landing.state)
    (r : fetch_result Landing.login_data) :
  Landing.sent (Landing.handleSubmit w st r)
  = {| Landing.cred_email := trim (Landing.email st);
       Landing.cred_access_code := trim (Landing.accessCode st) |}.
Proof.
  unfold Landing.handleSubmit.
  destruct r as [|status sT bT [data|]]; try reflexivity.
  destruct (response_ok status); reflexivity.
Qed.

(** X10: whatever the server answers, the login form posts the email
    and the access code typed, each without the white space around it
    and otherwise unchanged: what is posted neither starts nor ends with
    white space. The submit button only asks for fields that are not
    empty, so an access code made of white space alone leaves the
    button enabled and is posted as the empty text. *)
Theorem login_posts_trimmed_credentials (w : world) (st : Landing.state)
    (r : fetch_result Landing.login_data) :
  let posted := Landing.sent (Landing.handleSubmit w st r) in
  (exists p q,
      Landing.email st = p ++ Landing.cred_email posted ++ q
      /\ forallb is_white_space p = true /\ forallb is_white_space q = true)
  /\ (exists p q,
        Landing.accessCode st = p ++ Landing.cred_access_code posted ++ q
        /\ forallb is_white_space p = true
        /\ forallb is_white_space q = true)
  /\ (forall c u, Landing.cred_email posted = c :: u
                  \/ Landing.cred_access_code posted = c :: u ->
        is_white_space c = false)
  /\ (forall u c, Landing.cred_email posted = u ++ [c]
                  \/ Landing.cred_access_code posted = u ++ [c] ->
        is_white_space c = false)
  /\ (Landing.isLoading st = false -> Landing.email st <> [] ->
      Landing.accessCode st <> [] ->
      forallb is_white_space (Landing.accessCode st) = true ->
      Landing.submit_disabled st = false
      /\ Landing.cred_access_code posted = []).
Proof.
  intros posted. subst posted. rewrite handleSubmit_sent.
  cbn [Landing.cred_email Landing.cred_access_code].
  destruct (trim_spec (Landing.email st)) as (He & Heh & Hel).
  destruct (trim_spec (Landing.accessCode st)) as (Hc & Hch & Hcl).
  split; [exact He|]. split; [exact Hc|].
  split; [intros c u [H|H]; eauto|].
  split; [intros u c [H|H]; eauto|].
  intros Hl Hem Hco Hws. split.
  - unfold Landing.submit_disabled. rewrite Hl.
    destruct (Landing.email st); [congruence|].
    destruct (Landing.accessCode st); [congruence|]. reflexivity.
  - apply trim_blank. exact Hws.
Qed.

Lemma login_posts_trimmed_credentials_witness :
  Landing.submit_disabled
    {| Landing.email := js "a@b.dk"; Landing.accessCode := js "  ";
       Landing.isLoading := false; Landing.error := [] |} = false
  /\ Landing.cred_access_code
       (Landing.sent
          (Landing.handleSubmit Sample.browser
             {| Landing.email := js "a@b.dk"; Landing.accessCode := js "  ";
                Landing.isLoading := false; Landing.error := [] |}
             Sample.unauthorized)) = [].
Proof.
  destruct (login_posts_trimmed_credentials Sample.browser
              {| Landing.email := js "a@b.dk"; Landing.accessCode := js "  ";
                 Landing.isLoading := false; Landing.error := [] |}
              Sample.unauthorized) as (_ & _ & _ & _ & Hblank).
  apply Hblank.
  - reflexivity.
  - discriminate.
  - discriminate.
  - reflexivity.
Defined.

Lemma setItem_session (w : world) (a b c : Landing.field) :
  let w' :=
    Landing.setItem
      (Landing.setItem (Landing.setItem w "access_token" a) "user_email" b)
      "access_level" c in
  getStoredToken w' = Some (Landing.String_of a)
  /\ getStoredUser w'
     = user_of (Some (Landing.String_of b)) (Some (Landing.String_of c))
  /\ (forall k, k <> "access_token"%string -> k <> "user_email"%string ->
        k <> "access_level"%string ->
        localStorage w' !! k = localStorage w !! k)
  /\ reloads w' = reloads w /\ network w' = network w.
Proof.
  intros w'. subst w'. unfold getStoredToken, getStoredUser, user_of.
  cbn [Landing.setItem set_localStorage localStorage reloads network].
  split; [|split; [|split]].
  - rewrite !lookup_insert_ne by discriminate. apply lookup_insert_eq.
  - f_equal.
    + rewrite lookup_insert_ne by discriminate. apply lookup_insert_eq.
    + apply lookup_insert_eq.
  - intros k H1 H2 H3. rewrite !lookup_insert_ne by congruence. reflexivity.
  - split; reflexivity.
Qed.

(** X11: a login answered with a 2xx status and a JSON body whose token
    and email are texts that are not empty stores the token, the email
    and the access level under the three session keys, touching no
    other key, and signs the user in with that email and level. The
    session lasts: the application started again over that storage
    takes the user for signed in, with the same email, and with the
    same level when the answer gave one as a text; and the next call of
    the gateway carries the token as its bearer. The form shows no
    error and is no longer loading. *)
Theorem login_opens_session (w : world) (st : Landing.state)
    (app0 : App.state) (status : Z) (statusText body_text : jsstring)
    (data : Landing.login_data) (token mail : jsstring)
    (endpoint : jsstring) :
  response_ok status = true ->
  Landing.access_token data = Landing.text token -> token <> [] ->
  Landing.data_email data = Landing.text mail -> mail <> [] ->
  let s :=
    Landing.handleSubmit w st
      (HttpResponse status statusText body_text (Some data)) in
  let app := App.dispatch app0 (Landing.app_actions s) in
  let restarted :=
    App.dispatch App.initial (App.check_authentication (Landing.env s)) in
  (getStoredToken (Landing.env s) = Some token
   /\ getStoredUser (Landing.env s)
      = user_of (Some mail)
          (Some (Landing.String_of (Landing.access_level data)))
   /\ (forall k, k <> "access_token"%string -> k <> "user_email"%string ->
         k <> "access_level"%string ->
         localStorage (Landing.env s) !! k = localStorage w !! k)
   /\ reloads (Landing.env s) = reloads w)
  /\ (App.isAuthenticated app = true
      /\ App.user app
         = Some (user_of (Some mail)
                   (Landing.value_of (Landing.access_level data))))
  /\ (App.isAuthenticated restarted = true
      /\ App.page_after_reload (Landing.env s) = App.DashboardPage None
      /\ (forall level, Landing.access_level data = Landing.text level ->
            App.user restarted = App.user app))
  /\ rq_headers (request_of (Landing.env s) endpoint no_options)
       !! "Authorization"%string
     = Some (js "Bearer " ++ token)
  /\ (Landing.error (Landing.dispatch st (Landing.view_actions s)) = []
      /\ Landing.isLoading (Landing.dispatch st (Landing.view_actions s))
         = false).
Proof.
  intros Hok Ht Htne Hm Hmne s app restarted. subst s app restarted.
  unfold Landing.handleSubmit. rewrite Hok.
  cbn [Landing.env Landing.app_actions Landing.view_actions].
  destruct (setItem_session w (Landing.access_token data)
              (Landing.data_email data) (Landing.access_level data))
    as (Htok & Husr & Hother & Hrl & _).
  rewrite Ht, Hm in *. cbn [Landing.String_of] in *.
  assert (Htt : truthy (Some token) = true)
    by (destruct token; [congruence | reflexivity]).
  assert (Hmt : truthy (Some mail) = true)
    by (destruct mail; [congruence | reflexivity]).
  assert (Hauth :
    App.check_authentication
      (Landing.setItem
         (Landing.setItem
            (Landing.setItem w "access_token" (Landing.text token))
            "user_email" (Landing.text mail))
         "access_level" (Landing.access_level data))
    = [App.setIsAuthenticated true;
       App.setUser
         (Some (user_of (Some mail)
                  (Some (Landing.String_of (Landing.access_level data)))));
       App.setIsLoading false]).
  { unfold App.check_authentication. rewrite Htok, Husr.
    cbn [email user_of]. rewrite Htt, Hmt. reflexivity. }
  split; [|split; [|split; [|split]]].
  - auto.
  - unfold Landing.handleLogin. rewrite Hm. split; reflexivity.
  - unfold App.page_after_reload. rewrite Hauth.
    split; [reflexivity|]. split; [reflexivity|].
    intros level Hl. unfold Landing.handleLogin. rewrite Hm, Hl.
    reflexivity.
  - unfold request_of. cbn [rq_headers].
    rewrite request_headers_lookup. cbn [opt_headers no_options].
    rewrite lookup_empty, Htok, Htt. reflexivity.
  - split; reflexivity.
Qed.

Lemma login_opens_session_witness :
  App.page_after_reload
    (Landing.env
       (Landing.handleSubmit
          {| localStorage := ∅; reloads := 0%nat; console := [];
             network := [] |}
          {| Landing.email := js "a@b.dk"; Landing.accessCode := js "X1";
             Landing.isLoading := false; Landing.error := [] |}
          (Sample.ok
             {| Landing.access_token := Landing.text (js "tok");
                Landing.data_email := Landing.text (js "a@b.dk");
                Landing.access_level := Landing.text (js "Premium");
                Landing.detail := Landing.undefined |})))
  = App.DashboardPage None.
Proof.
  destruct (login_opens_session
              {| localStorage := ∅; reloads := 0%nat; console := [];
                 network := [] |}
              {| Landing.email := js "a@b.dk"; Landing.accessCode := js "X1";
                 Landing.isLoading := false; Landing.error := [] |}
              App.initial 200 (js "OK") []
              {| Landing.access_token := Landing.text (js "tok");
                 Landing.data_email := Landing.text (js "a@b.dk");
                 Landing.access_level := Landing.text (js "Premium");
                 Landing.detail := Landing.undefined |}
              (js "tok") (js "a@b.dk") (js "overview")
              eq_refl eq_refl ltac:(discriminate) eq_refl
              ltac:(discriminate))
    as (_ & _ & (_ & Hpage & _) & _).
  exact Hpage.
Defined.

(** X12: a login that does not succeed stores nothing, signs nobody in
    and does not reload the page, also when the status is 401; the form
    stops loading and shows a message that is not empty: the [detail]
    of the answer when the body is JSON with a [detail] that is a text
    and not empty, the fixed login message when it has none, and the
    network message when the request failed or the body is no JSON,
    whatever the status, 2xx included. *)
Theorem login_failure_stores_nothing (w : world) (st : Landing.state)
    (r : fetch_result Landing.login_data) :
  payload r = None ->
  let s := Landing.handleSubmit w st r in
  let st' := Landing.dispatch st (Landing.view_actions s) in
  localStorage (Landing.env s) = localStorage w
  /\ reloads (Landing.env s) = reloads w
  /\ Landing.app_actions s = []
  /\ Landing.isLoading st' = false
  /\ truthy (Some (Landing.error st')) = true
  /\ Landing.error st'
     = match r with
       | HttpResponse _ _ _ (Some data) =>
           or_else (Landing.value_of (Landing.detail data))
             Landing.login_failed
       | _ => Landing.network_error
       end.
Proof.
  intros Hp s st'. subst s st'. unfold Landing.handleSubmit.
  destruct r as [|status sT bT [data|]]; simpl in Hp.
  - repeat split; reflexivity.
  - destruct (response_ok status); [discriminate|].
    cbn [Landing.env Landing.app_actions Landing.view_actions].
    repeat split.
    cbn. destruct (Landing.detail data) as [| |[|c d]]; reflexivity.
  - repeat split; reflexivity.
Qed.

Lemma login_failure_stores_nothing_witness :
  Landing.error
    (Landing.dispatch Landing.initial
       (Landing.view_actions
          (Landing.handleSubmit Sample.browser Landing.initial
             Sample.unauthorized)))
  = Landing.network_error
  /\ reloads
       (Landing.env
          (Landing.handleSubmit Sample.browser Landing.initial
             Sample.unauthorized)) = 0%nat.
Proof.
  destruct (login_failure_stores_nothing Sample.browser Landing.initial
              Sample.unauthorized eq_refl)
    as (_ & Hreload & _ & _ & _ & Herror).
  split; [exact Herror | exact Hreload].
Defined.

(** ** A conversation *)

Lemma questions_app (l1 l2 : list Chat.message) :
  ChatSession.questions (l1 ++ l2)
  = ChatSession.questions l1 ++ ChatSession.questions l2.
Proof.
  induction l1 as [|m l1 IH]; [reflexivity|].
  cbn [app ChatSession.questions]. rewrite IH.
  destruct (Chat.type m); reflexivity.
Qed.

Lemma replies_app (l1 l2 : list Chat.message) :
  ChatSession.replies (l1 ++ l2)
  = (ChatSession.replies l1 + ChatSession.replies l2)%nat.
Proof.
  induction l1 as [|m l1 IH]; [reflexivity|].
  cbn [app ChatSession.replies]. rewrite IH.
  destruct (Chat.type m); reflexivity.
Qed.

Lemma run_snoc (s : ChatSession.session) (es : list ChatSession.event)
    (e : ChatSession.event) :
  ChatSession.run s (es ++ [e])
  = match ChatSession.run s es with
    | Some s' => ChatSession.step s' e
    | None => None
    end.
Proof. unfold ChatSession.run. rewrite fold_left_app. reflexivity. Qed.

(** A send keeps the widget on screen and the conversation in step with
    the requests. *)
Lemma send_consistent (w : world) (s : ChatSession.session)
    (st : Chat.state) :
  ChatSession.widget s = Some st ->
  ChatSession.consistent w s ->
  ChatSession.consistent w (ChatSession.send s st)
  /\ ChatSession.widget (ChatSession.send s st) <> None.
Proof.
  intros Hw (reqs & Hnet & Hinv).
  destruct (Hinv st Hw) as ((rest & Hgreet) & Hreqs & Hcount & Hidle).
  unfold ChatSession.send.
  destruct (Chat.blank (Chat.input st)).
  - split; [|rewrite Hw; discriminate].
    exists reqs. split; [exact Hnet | exact Hinv].
  - unfold Chat.handleSendMessage_start.
    cbn [ChatSession.widget ChatSession.env ChatSession.pending
         Chat.dispatch fold_left Chat.apply_action].
    split; [|discriminate].
    exists (reqs ++ [request_of (ChatSession.env s) (js "chat")
                       (post (ChatBody (Chat.input st)))]).
    split.
    + unfold apiCall_send, fetch_send. cbn [network console_write].
      rewrite Hnet, <- app_assoc. reflexivity.
    + intros st1 Hst1. injection Hst1 as <-.
      cbn [Chat.messages Chat.isLoading Chat.input ChatSession.pending].
      rewrite questions_app, replies_app, Hgreet.
      cbn [ChatSession.questions ChatSession.replies Chat.type Chat.content
           app].
      rewrite Hgreet in Hreqs, Hcount.
      cbn [ChatSession.questions ChatSession.replies Chat.type]
        in Hreqs, Hcount.
      split; [eexists; reflexivity|].
      split; [|split].
      * rewrite !map_app, Hreqs. reflexivity.
      * rewrite length_app. cbn [length]. lia.
      * discriminate.
Qed.

(** One event keeps the conversation in step with the requests; only an
    answer of status 401 takes the widget down, and it leaves no token
    behind. *)
Lemma chat_step (w : world) (s s' : ChatSession.session)
    (e : ChatSession.event) :
  ChatSession.step s e = Some s' ->
  ChatSession.consistent w s ->
  ChatSession.consistent w s'
  /\ (ChatSession.widget s' = None ->
      ChatSession.unauthorized_answer e = true
      /\ getStoredToken (ChatSession.env s') = None).
Proof.
  intros Hstep Hc. unfold ChatSession.step in Hstep.
  destruct (ChatSession.widget s) as [st|] eqn:Hw; [|discriminate].
  destruct e as [v| | |r].
  - injection Hstep as <-.
    destruct Hc as (reqs & Hnet & Hinv).
    destruct (Hinv st Hw) as (Hgreet & Hreqs & Hcount & Hidle).
    split; [|discriminate].
    exists reqs. split; [exact Hnet|].
    intros st1 Hst1. cbn in Hst1. injection Hst1 as <-.
    cbn [Chat.messages Chat.isLoading ChatSession.pending].
    repeat split; assumption.
  - destruct (Chat.isLoading st); [discriminate|].
    injection Hstep as <-.
    destruct (send_consistent w s st Hw Hc) as (Hc' & Hup).
    split; [exact Hc' | intros Hdown; contradiction].
  - injection Hstep as <-.
    destruct (send_consistent w s st Hw Hc) as (Hc' & Hup).
    split; [exact Hc' | intros Hdown; contradiction].
  - destruct (ChatSession.pending s) as [|n] eqn:Hp; [discriminate|].
    destruct (chat_answer (ChatSession.env s) st r) as (Hnet' & Hok & H401).
    destruct (Chat.handleSendMessage_resume (ChatSession.env s) r)
      as [w1 acts] eqn:Hres.
    cbn [fst snd] in *. injection Hstep as <-.
    cbn [ChatSession.widget ChatSession.env ChatSession.pending
         ChatSession.unauthorized_answer].
    destruct Hc as (reqs & Hnet & Hinv).
    destruct (Hinv st Hw) as ((rest & Hgreet) & Hreqs & Hcount & Hidle).
    destruct (is_unauthorized r) eqn:Hu.
    + destruct (H401 eq_refl) as (Hd & Hls & _).
      split.
      * exists reqs. split; [cbn [ChatSession.env]; rewrite Hnet'; exact Hnet|].
        intros st1 Hst1. rewrite Hd in Hst1. discriminate Hst1.
      * intros _. split; [reflexivity|].
        unfold getStoredToken. rewrite Hls.
        destruct (clearStoredAuth_keys (ChatSession.env s)) as (K & _).
        exact K.
    + destruct (Hok eq_refl) as (Hd & _).
      split; [|rewrite Hd; discriminate].
      exists reqs. split; [cbn [ChatSession.env]; rewrite Hnet'; exact Hnet|].
      intros st1 Hst1. rewrite Hd in Hst1. injection Hst1 as <-.
      cbn [Chat.messages Chat.isLoading Chat.input ChatSession.pending].
      rewrite questions_app, replies_app, Hgreet.
      cbn [ChatSession.questions ChatSession.replies Chat.type Chat.content
           app].
      rewrite Hgreet in Hreqs, Hcount.
      cbn [ChatSession.questions ChatSession.replies Chat.type]
        in Hreqs, Hcount.
      rewrite app_nil_r.
      split; [eexists; reflexivity|].
      split; [exact Hreqs|]. split; [lia | reflexivity].
Qed.

(** X13: in any session with the chat widget (typing, sending with the
    button or with Enter, also while a request is pending, and answers
    coming in), as long as the widget is on screen the conversation
    opens with the greeting, the questions shown are the questions
    posted to [chat], one request each and in the same order, every
    answered request has added exactly one bot message, and the loading
    flag is off when no request is pending. The widget is taken down
    only by an answer of status 401, which leaves no token stored. *)
Theorem chat_conversation_grows (w : world) (es : list ChatSession.event)
    (s : ChatSession.session) :
  ChatSession.run (ChatSession.start w) es = Some s ->
  (forall st, ChatSession.widget s = Some st ->
     (exists rest,
         Chat.messages st
         = {| Chat.type := Chat.bot; Chat.content := Chat.greeting |}
           :: rest)
     /\ map request_line (sent_since w (ChatSession.env s))
        = map (fun q => POST (js "chat") (ChatBody q))
            (ChatSession.questions (Chat.messages st))
     /\ (ChatSession.replies (Chat.messages st) + ChatSession.pending s
         = S (length (ChatSession.questions (Chat.messages st))))%nat
     /\ (ChatSession.pending s = 0%nat -> Chat.isLoading st = false))
  /\ (ChatSession.widget s = None ->
      existsb ChatSession.unauthorized_answer es = true
      /\ getStoredToken (ChatSession.env s) = None).
Proof.
  intros Hrun.
  assert (H : ChatSession.consistent w s
              /\ (ChatSession.widget s = None ->
                  existsb ChatSession.unauthorized_answer es = true
                  /\ getStoredToken (ChatSession.env s) = None)).
  { revert s Hrun. induction es as [|e es IH] using rev_ind; intros s Hrun.
    - injection Hrun as <-. split; [|discriminate].
      exists []. split; [cbn; rewrite app_nil_r; reflexivity|].
      intros st Hst. injection Hst as <-.
      split; [exists []; reflexivity|]. repeat split; reflexivity.
    - rewrite run_snoc in Hrun.
      destruct (ChatSession.run (ChatSession.start w) es) as [s0|] eqn:Hes;
        [|discriminate].
      destruct (IH s0 eq_refl) as (Hc0 & _).
      destruct (chat_step w s0 s e Hrun Hc0) as (Hc & Hdown).
      split; [exact Hc|].
      intros Hnone. destruct (Hdown Hnone) as (He & Htok).
      split; [|exact Htok].
      rewrite existsb_app. cbn [existsb]. rewrite He.
      rewrite orb_true_r. reflexivity. }
  destruct H as ((reqs & Hnet & Hinv) & Hdown).
  split; [|exact Hdown].
  intros st Hst. rewrite (sent_since_app w _ reqs Hnet).
  exact (Hinv st Hst).
Qed.

Lemma chat_conversation_grows_witness :
  exists s,
    ChatSession.run (ChatSession.start Sample.browser)
      ChatSession.overlapping = Some s
    /\ option_map (fun st => map Chat.type (Chat.messages st))
         (ChatSession.widget s)
       = Some [Chat.bot; Chat.user; Chat.user; Chat.bot; Chat.bot]
    /\ forall st, ChatSession.widget s = Some st ->
                  Chat.isLoading st = false.
Proof.
  eexists. split; [vm_compute; reflexivity|].
  split; [vm_compute; reflexivity|].
  intros st Hst.
  match type of Hst with
  | ChatSession.widget ?s = _ =>
      destruct (chat_conversation_grows Sample.browser
                  ChatSession.overlapping s) as (Hup & _);
        [vm_compute; reflexivity|]
  end.
  destruct (Hup st Hst) as (_ & _ & _ & Hidle).
  apply Hidle. reflexivity.
Defined.

(** ** The loading flag of the dashboard and the answers that come late *)

Lemma dispatch_app (st : App.state) (l1 l2 : list App.action) :
  App.dispatch st (l1 ++ l2) = App.dispatch (App.dispatch st l1) l2.
Proof. apply fold_left_app. Qed.

Lemma keeps_loading_dispatch (acts : list App.action) (st : App.state) :
  forallb keeps_loading acts = true ->
  App.isLoading (App.dispatch st acts) = App.isLoading st.
Proof.
  revert st. induction acts as [|a acts IH]; intros st H; [reflexivity|].
  simpl in H. apply andb_prop in H. destruct H as [Ha H].
  change (App.dispatch st (a :: acts))
    with (App.dispatch (App.apply_action st a) acts).
  rewrite (IH _ H). destruct a; try discriminate Ha; reflexivity.
Qed.

Lemma resume_shape (w : world) (b : App.batch) (clock : jsstring)
    (o : option App.overview_data) (t : option App.themes_response)
    (r : option App.ratings_response) (i : option App.interviews_response) :
  exists pre,
    snd (App.fetchAllData_resume w b clock o t r i) = pre ++ App.finally b
    /\ forallb keeps_loading pre = true.
Proof.
  unfold App.fetchAllData_resume, App.catch.
  destruct t as [t|]; [destruct r as [r|]; [destruct i as [i|]|]|];
    cbn [snd].
  - exists [App.setOverview o;
            App.setThemes (default [] (App.resp_themes t));
            App.setRatings (default ∅ (App.resp_ratings r));
            App.setInterviews (default [] (App.resp_interviews i));
            App.setLastUpdated (Some clock)].
    split; reflexivity.
  - exists [App.setOverview o;
            App.setThemes (default [] (App.resp_themes t));
            App.setRatings (default ∅ (App.resp_ratings r));
            App.setError (Some App.load_error)].
    split; reflexivity.
  - exists [App.setOverview o;
            App.setThemes (default [] (App.resp_themes t));
            App.setError (Some App.load_error)].
    split; reflexivity.
  - exists [App.setOverview o; App.setError (Some App.load_error)].
    split; reflexivity.
Qed.
(** One answer, as far as the state and the batch go. *)
Lemma arrive_cases (w : world) (b : App.batch) (clock : jsstring)
    (a : App.arrival) (w' : world) (acts : list App.action)
    (b' : App.batch) :
  App.fetchAllData_arrive w b clock a = Some (w', acts, b') ->
  App.showLoading b' = App.showLoading b
  /\ (App.finished b = true -> acts = [] /\ App.finished b' = true)
  /\ (App.finished b = false ->
      (acts = [] /\ App.finished b' = false)
      \/ (App.finished b' = true
          /\ exists pre, acts = pre ++ App.finally b
               /\ forallb keeps_loading pre = true)).
Proof.
  intros H.
  destruct (App.finished b) eqn:Hfin.
  - destruct a as [ra|ra|ra|ra]; cbn [App.fetchAllData_arrive] in H;
      match type of H with
      | (if ?p then _ else _) = _ => destruct p; [|discriminate H]
      end;
      match type of H with
      | context [apiCall_receive ?w ?ep ?r] =>
          destruct (apiCall_receive w ep r) as [? ?]
      end;
      unfold App.promise_all in H;
      cbn [App.finished] in H; rewrite Hfin in H;
      injection H as <- <- <-; cbn [App.finished App.showLoading];
      (split; [reflexivity | split; [auto | discriminate]]).
  - destruct a as [ra|ra|ra|ra]; settle_arrival Hfin H;
      destruct (outcome_of ra) as [v|e]; cbn [App.is_rejection] in H.
    all: try (injection H as <- <- <-; cbn [App.finished App.showLoading];
              split; [reflexivity | split; [discriminate|]];
              intros _; right; split; [reflexivity|];
              exists [App.setError (Some App.load_error)];
              split; reflexivity).
    all: destruct (App.overviewData b) as [|[vo|eo]];
         destruct (App.themesData b) as [|[vt|et]];
         destruct (App.ratingsData b) as [|[vr|er]];
         destruct (App.interviewsData b) as [|[vi|ei]].
    all: try (injection H as <- <- <-; cbn [App.finished App.showLoading];
              split; [reflexivity | split; [discriminate|]];
              intros _; left; split; reflexivity).
    all: match type of H with
         | context [App.fetchAllData_resume ?w ?b ?c ?o ?t ?r ?i] =>
             destruct (resume_shape w b c o t r i) as (pre & Hpre & Hkeep);
             destruct (App.fetchAllData_resume w b c o t r i) as [w2 acts2]
         end;
         cbn [snd] in Hpre; subst acts2;
         injection H as <- <- <-; cbn [App.finished App.showLoading];
         (split; [reflexivity | split; [discriminate|]]);
         intros _; right; split; [reflexivity|];
         exists pre; split; [reflexivity | exact Hkeep].
Qed.

Lemma finally_loading (b : App.batch) (pre : list App.action)
    (st : App.state) :
  forallb keeps_loading pre = true ->
  App.isLoading (App.dispatch st (pre ++ App.finally b))
  = (if App.showLoading b then false else App.isLoading st).
Proof.
  intros Hk. rewrite dispatch_app. unfold App.finally.
  destruct (App.showLoading b).
  - reflexivity.
  - cbn. apply keeps_loading_dispatch. exact Hk.
Qed.

(** X14: a batch started with the loading indicator keeps the loading
    flag set for as long as [Promise.all] has not settled and clears it
    when it settles, by success or by failure and whatever the answers,
    401 included; a silent batch, as the periodic refresh starts it,
    never touches the flag. In both cases the start of the batch clears
    the error message. *)
Theorem loading_flag_brackets_batch (w : world) (st : App.state)
    (show : bool) (clock : jsstring) (l : list App.arrival)
    (c' : App.config) :
  App.arrivals (App.fetchAllData w st show) clock l = Some c' ->
  App.isLoading (App.app c')
  = (if show then negb (App.finished (App.flight c')) else App.isLoading st)
  /\ App.showLoading (App.flight c') = show
  /\ App.error (App.app (App.fetchAllData w st show)) = None.
Proof.
  intros Hrun.
  assert (H : forall l c,
    App.showLoading (App.flight c) = show ->
    App.isLoading (App.app c)
    = (if show then negb (App.finished (App.flight c))
       else App.isLoading st) ->
    App.arrivals c clock l = Some c' ->
    App.isLoading (App.app c')
    = (if show then negb (App.finished (App.flight c'))
       else App.isLoading st)
    /\ App.showLoading (App.flight c') = show).
  { clear. induction l as [|a l IH]; intros c Hshow Hinv Hrun.
    - injection Hrun as <-. auto.
    - cbn [App.arrivals] in Hrun. unfold App.arrive in Hrun.
      destruct (App.fetchAllData_arrive (App.env c) (App.flight c) clock a)
        as [[[w1 acts] b1]|] eqn:Hstep; [|discriminate].
      destruct (arrive_cases _ _ _ _ _ _ _ Hstep) as (Hs & Hdone & Hopen).
      apply (IH {| App.env := w1; App.app := App.dispatch (App.app c) acts;
                   App.flight := b1 |} (eq_trans Hs Hshow)); [|exact Hrun].
      cbn [App.app App.flight].
      destruct (App.finished (App.flight c)) eqn:Hfin.
      + destruct (Hdone eq_refl) as (-> & ->). exact Hinv.
      + destruct (Hopen eq_refl) as [(-> & ->) | (-> & pre & -> & Hk)].
        * exact Hinv.
        * rewrite (finally_loading _ _ _ Hk), Hshow.
          destruct show; [reflexivity | exact Hinv]. }
  destruct (H l (App.fetchAllData w st show)) as (Hl & Hs);
    try exact Hrun; try (destruct show; reflexivity).
  split; [exact Hl|]. split; [exact Hs|]. destruct show; reflexivity.
Qed.

Lemma loading_flag_brackets_batch_witness :
  exists c',
    App.arrivals (App.fetchAllData Sample.browser Sample.signed_in true)
      (js "10.00.00")
      [App.themes_arrives Sample.server_error;
       App.overview_arrives Sample.unauthorized] = Some c'
    /\ App.isLoading (App.app c') = false.
Proof.
  eexists. split; [vm_compute; reflexivity|].
  match goal with
  | |- App.isLoading (App.app ?c') = _ =>
      destruct (loading_flag_brackets_batch Sample.browser Sample.signed_in
                  true (js "10.00.00")
                  [App.themes_arrives Sample.server_error;
                   App.overview_arrives Sample.unauthorized] c')
        as (Hflag & _)
  end.
  - vm_compute. reflexivity.
  - rewrite Hflag. reflexivity.
Defined.

(** X15: once [Promise.all] has settled, and so after the first
    failure, the answers that come in later change nothing on the
    dashboard: neither data, nor error message, nor loading flag; the
    batch stays settled. *)
Theorem late_answers_set_nothing (c : App.config) (clock : jsstring)
    (a : App.arrival) (c' : App.config) :
  App.finished (App.flight c) = true ->
  App.arrive c clock a = Some c' ->
  App.app c' = App.app c /\ App.finished (App.flight c') = true.
Proof.
  intros Hfin Harrive. unfold App.arrive in Harrive.
  destruct (App.fetchAllData_arrive (App.env c) (App.flight c) clock a)
    as [[[w1 acts] b1]|] eqn:Hstep; [|discriminate].
  injection Harrive as <-.
  destruct (arrive_cases _ _ _ _ _ _ _ Hstep) as (_ & Hdone & _).
  destruct (Hdone Hfin) as (-> & Hf). split; [reflexivity | exact Hf].
Qed.

Lemma late_answers_set_nothing_witness :
  exists c1 c2,
    App.arrive (App.fetchAllData Sample.browser Sample.signed_in true)
      (js "10.00.00") (App.themes_arrives Sample.server_error) = Some c1
    /\ App.arrive c1 (js "10.00.05")
         (App.interviews_arrives
            (Sample.ok {| App.resp_interviews := None |})) = Some c2
    /\ App.app c2 = App.app c1.
Proof.
  eexists. eexists. split; [vm_compute; reflexivity|].
  split; [vm_compute; reflexivity|].
  match goal with
  | |- App.app ?c2 = App.app ?c1 =>
      destruct (late_answers_set_nothing c1 (js "10.00.05")
                  (App.interviews_arrives
                     (Sample.ok {| App.resp_interviews := None |})) c2)
        as (Hsame & _)
  end.
  - reflexivity.
  - vm_compute. reflexivity.
  - exact Hsame.
Defined.

(** ** The four answers in any order *)

Lemma payload_outcome {A : Type} (r : fetch_result A) (d : A) :
  payload r = Some d -> outcome_of r = Returned (Some d).
Proof. apply outcome_of_payload. Qed.

Ltac receive_data Hp :=
  match goal with
  | |- context [apiCall_receive ?w ?ep ?r] =>
      let Ho := fresh "Ho" in
      pose proof (apiCall_receive_outcome w ep r) as Ho;
      rewrite (payload_outcome r _ Hp) in Ho;
      destruct (apiCall_receive w ep r) as [? ?];
      cbn [snd] in Ho; subst
  end.

Ltac next_answer :=
  cbn [App.arrivals]; unfold App.arrive at 1;
  cbn [App.flight App.env App.app App.fetchAllData_arrive App.is_pending
       App.overviewData App.themesData App.ratingsData App.interviewsData
       App.showLoading App.finished];
  match goal with
  | Hp : payload ?r = Some _ |- context [apiCall_receive _ _ ?r] =>
      receive_data Hp
  end;
  unfold App.promise_all at 1;
  cbn [App.finished App.showLoading App.overviewData App.themesData
       App.ratingsData App.interviewsData App.is_rejection].

(** X16: when the four requests of a batch are all answered with data,
    the dashboard ends in the same state whatever the order in which
    the four answers come in: overview, themes, ratings, interviews and
    the time of update are those of the answers, the batch is settled
    and nothing is pending. *)
Theorem batch_order_is_irrelevant (w : world) (st : App.state) (show : bool)
    (clock : jsstring) (l : list App.arrival)
    (ro : fetch_result App.overview_data)
    (rt : fetch_result App.themes_response)
    (rr : fetch_result App.ratings_response)
    (ri : fetch_result App.interviews_response)
    (o : App.overview_data) (t : App.themes_response)
    (r : App.ratings_response) (i : App.interviews_response) :
  payload ro = Some o -> payload rt = Some t ->
  payload rr = Some r -> payload ri = Some i ->
  Permutation l [App.overview_arrives ro; App.themes_arrives rt;
                 App.ratings_arrives rr; App.interviews_arrives ri] ->
  exists c',
    App.arrivals (App.fetchAllData w st show) clock l = Some c'
    /\ App.app c'
       = App.dispatch (App.app (App.fetchAllData w st show))
           (batch_result show clock o t r i)
    /\ App.finished (App.flight c') = true
    /\ App.pending_count (App.flight c') = 0%nat.
Proof.
  intros Ho Ht Hr Hi Hperm.
  symmetry in Hperm. apply permutations_Permutation in Hperm.
  cbn in Hperm.
  unfold App.fetchAllData, App.fetchAllData_start.
  repeat (apply elem_of_cons in Hperm as [->|Hperm]);
    [ .. | apply elem_of_nil in Hperm; destruct Hperm ].
  all: do 4 next_answer.
  all: unfold App.fetchAllData_resume, batch_result, App.finally;
       cbn [App.showLoading];
       eexists; split; [reflexivity|];
       cbn [App.app App.flight App.finished App.pending_count
            App.is_pending App.overviewData App.themesData
            App.ratingsData App.interviewsData];
       split; [|split; reflexivity];
       rewrite <- dispatch_app; reflexivity.
Qed.

Lemma batch_order_is_irrelevant_witness :
  exists c',
    App.arrivals (App.fetchAllData Sample.browser Sample.signed_in true)
      (js "10.00.00")
      [App.themes_arrives (Sample.ok {| App.resp_themes := None |});
       App.overview_arrives
         (Sample.ok {| App.total_interviews := 12;
                       App.active_interviews := 2;
                       App.avg_duration := 185;
                       App.trend_percentage := -3;
                       App.assistant_name := js "Supermarket int. dansk";
                       App.user_access_level := Some (js "Premium") |});
       App.ratings_arrives (Sample.ok {| App.resp_ratings := None |});
       App.interviews_arrives (Sample.ok {| App.resp_interviews := None |})]
    = Some c'
    /\ App.lastUpdated (App.app c') = Some (js "10.00.00")
    /\ App.isLoading (App.app c') = false.
Proof.
  set (o0 := {| App.total_interviews := 12;
                App.active_interviews := 2;
                App.avg_duration := 185;
                App.trend_percentage := -3;
                App.assistant_name := js "Supermarket int. dansk";
                App.user_access_level := Some (js "Premium") |}).
  destruct (batch_order_is_irrelevant Sample.browser Sample.signed_in true
              (js "10.00.00")
              [App.themes_arrives (Sample.ok {| App.resp_themes := None |});
               App.overview_arrives (Sample.ok o0);
               App.ratings_arrives (Sample.ok {| App.resp_ratings := None |});
               App.interviews_arrives
                 (Sample.ok {| App.resp_interviews := None |})]
              (Sample.ok o0)
              (Sample.ok {| App.resp_themes := None |})
              (Sample.ok {| App.resp_ratings := None |})
              (Sample.ok {| App.resp_interviews := None |})
              o0 {| App.resp_themes := None |}
              {| App.resp_ratings := None |}
              {| App.resp_interviews := None |}
              eq_refl eq_refl eq_refl eq_refl (perm_swap _ _ _))
    as (c' & Hrun & Happ & _).
  exists c'. split; [exact Hrun|]. rewrite Happ. split; reflexivity.
Defined.

(** ** Editing and tagging, click by click *)

Lemma on_segment_available (st : Reader.state) (i : nat)
    (available : segment -> bool)
    (handler : segment -> world * list Reader.action) (s : segment) :
  Reader.shown_segments st !! i = Some s -> available s = true ->
  Reader.on_segment st i available handler = Some (handler s).
Proof.
  intros Hi Ha. unfold Reader.on_segment. rewrite Hi, Ha. reflexivity.
Qed.

Lemma has_buttons_save_and_cancel (u : option user_record)
    (st : Reader.state) (s : segment) :
  Reader.has_buttons u st s Reader.SaveAndCancel
  = Reader.isEditable u && seg_editable s && Reader.is_editing st s.
Proof.
  unfold Reader.has_buttons, Reader.SegmentDisplay. simpl.
  destruct (Reader.isEditable u), (seg_editable s), (Reader.is_editing st s);
    reflexivity.
Qed.

Lemma has_textarea_spec (u : option user_record) (st : Reader.state)
    (s : segment) :
  Reader.has_textarea u st s = Reader.is_editing st s.
Proof.
  unfold Reader.has_textarea, Reader.SegmentDisplay. simpl.
  destruct (Reader.is_editing st s); reflexivity.
Qed.

Lemma edit_and_tag_offered (u : option user_record) (st : Reader.state)
    (s : segment) :
  Reader.has_buttons u st s Reader.EditAndTag = true ->
  Reader.isEditable u = true /\ seg_editable s = true
  /\ Reader.is_editing st s = false.
Proof.
  rewrite has_buttons_edit_and_tag, !andb_true_iff, negb_true_iff. tauto.
Qed.

Lemma run_edit_and_type (u : option user_record) (w : world)
    (st : Reader.state) (i : nat) (s : segment) (v : jsstring)
    (rest : list Reader.event) :
  Reader.shown_segments st !! i = Some s ->
  Reader.has_buttons u st s Reader.EditAndTag = true ->
  Reader.run u (w, st)
    (Reader.ClickEdit i :: Reader.ChangeEditText i v :: rest)
  = Reader.run u (w, typing st s v) rest
  /\ Reader.shown_segments (typing st s v) !! i = Some s
  /\ Reader.has_buttons u (typing st s v) s Reader.SaveAndCancel = true.
Proof.
  intros Hi Hb.
  destruct (edit_and_tag_offered u st s Hb) as (Hu & He & _).
  assert (Hed : forall x,
            Reader.is_editing
              {| Reader.selectedInterview := Reader.selectedInterview st;
                 Reader.fullTranscript := Reader.fullTranscript st;
                 Reader.loadingTranscript := Reader.loadingTranscript st;
                 Reader.filter_text := Reader.filter_text st;
                 Reader.editingSegment := Some (seg_id s);
                 Reader.editText := x;
                 Reader.availableThemes := Reader.availableThemes st;
                 Reader.locals := Reader.locals st |} s = true).
  { intros x. apply is_editing_true. reflexivity. }
  split; [|split].
  - cbn [Reader.run]. unfold Reader.step at 1.
    cbn [fst snd Reader.handle].
    rewrite (on_segment_available st i _ _ s Hi Hb).
    cbn [Reader.startEdit Reader.dispatch fold_left Reader.apply_action].
    unfold Reader.step at 1. cbn [fst snd Reader.handle].
    erewrite on_segment_available;
      [ | exact Hi | rewrite has_textarea_spec; apply Hed ].
    reflexivity.
  - exact Hi.
  - rewrite has_buttons_save_and_cancel, Hu, He. apply Hed.
Qed.

Lemma reader_dispatch_app (st : Reader.state) (l1 l2 : list Reader.action) :
  Reader.dispatch st (l1 ++ l2)
  = Reader.dispatch (Reader.dispatch st l1) l2.
Proof. apply fold_left_app. Qed.

(** X17: on a segment that offers the edit button, clicking it, typing
    a text and saving is possible and, when the save returns, posts
    that text for that segment of the selected interview and then asks
    once for the interview again. Edit mode is left afterwards whatever
    the second answer is: when it brings a detail that detail is shown;
    when it fails the transcript on screen stays the one from before the
    edit, although the save went through. *)
Theorem edit_flow (u : option user_record) (w : world) (st : Reader.state)
    (i : nat) (s : segment) (v : jsstring)
    (r_save : fetch_result unit) (r_detail : fetch_result interview_detail)
    (ack : unit) :
  Reader.shown_segments st !! i = Some s ->
  Reader.has_buttons u st s Reader.EditAndTag = true ->
  payload r_save = Some ack ->
  exists c,
    Reader.run u (w, st)
      [Reader.ClickEdit i; Reader.ChangeEditText i v;
       Reader.ClickSaveEdit i r_save r_detail] = Some c
    /\ map request_line (sent_since w (fst c))
       = [POST (js "interview/edit")
            (EditBody (Reader.selectedInterview st) (seg_id s) v);
          GET (js "interview/" ++ template (Reader.selectedInterview st))]
    /\ Reader.editingSegment (snd c) = None
    /\ (forall d, payload r_detail = Some d ->
          Reader.fullTranscript (snd c) = Some d
          /\ Reader.shown_segments (snd c) = det_segments d)
    /\ (payload r_detail = None -> is_unauthorized r_detail = false ->
          Reader.fullTranscript (snd c) = Reader.fullTranscript st
          /\ Reader.shown_segments (snd c) = Reader.shown_segments st).
Proof.
  intros Hi Hb Hsave.
  destruct (edit_and_tag_offered u st s Hb) as (Hu & _ & _).
  destruct (run_edit_and_type u w st i s v
              [Reader.ClickSaveEdit i r_save r_detail] Hi Hb)
    as (Hrun & Hi' & Hb').
  rewrite Hrun. cbn [Reader.run]. unfold Reader.step.
  cbn [fst snd Reader.handle].
  rewrite (on_segment_available _ i _ _ s Hi' Hb').
  unfold Reader.saveEdit.
  rewrite (handleEditSegment_saved u w _ (seg_id s) _ r_save r_detail ack
             Hu Hsave).
  cbn zeta. eexists. split; [reflexivity|].
  cbn [fst snd].
  change (Reader.selectedInterview (typing st s v))
    with (Reader.selectedInterview st).
  change (Reader.editText (typing st s v)) with v.
  split; [|split; [|split]].
  - rewrite (two_requests w _ _ _ _
               (apiCall_network w _ _ r_save)
               (fetchFullTranscript_network _ (Reader.selectedInterview st)
                  r_detail)).
    reflexivity.
  - rewrite reader_dispatch_app. reflexivity.
  - intros d Hd. rewrite (fetchFullTranscript_returns _ _ _ _ Hd).
    split; reflexivity.
  - intros Hd H401. rewrite (fetchFullTranscript_throws _ _ _ Hd H401).
    split; [reflexivity|].
    unfold Reader.shown_segments. cbn.
    destruct (Reader.loadingTranscript st) eqn:Hl; [|reflexivity].
    unfold Reader.shown_segments in Hi. rewrite Hl in Hi. discriminate Hi.
Qed.

Lemma edit_flow_witness :
  exists c,
    Reader.run Sample.premium (Sample.browser, Sample.reading)
      [Reader.ClickEdit 1; Reader.ChangeEditText 1 (js "Det var rigtig fint");
       Reader.ClickSaveEdit 1 (Sample.ok tt) (Sample.ok Sample.int_7_edited)]
    = Some c
    /\ Reader.fullTranscript (snd c) = Some Sample.int_7_edited.
Proof.
  destruct (edit_flow Sample.premium Sample.browser Sample.reading 1
              Sample.seg_2 (js "Det var rigtig fint") (Sample.ok tt)
              (Sample.ok Sample.int_7_edited) tt eq_refl eq_refl eq_refl)
    as (c & Hrun & _ & _ & Hshown & _).
  exists c. split; [exact Hrun|].
  apply (Hshown Sample.int_7_edited eq_refl).
Defined.

Lemma SegmentDisplay_idle (u : option user_record) (st st' : Reader.state)
    (s : segment) :
  Reader.editingSegment st = None -> Reader.editingSegment st' = None ->
  Reader.locals st' = Reader.locals st ->
  Reader.SegmentDisplay u st' s = Reader.SegmentDisplay u st s.
Proof.
  intros He He' Hl.
  unfold Reader.SegmentDisplay, Reader.is_editing, Reader.local_of.
  rewrite He, He', Hl. reflexivity.
Qed.

(** X18: starting an edit, typing and then cancelling sends nothing,
    writes nothing to the console or the storage, and, when no other
    segment was being edited, leaves every segment on screen drawn as it
    was before; the edit buffer is emptied and what was typed is
    gone. *)
Theorem cancel_restores_view (u : option user_record) (w : world)
    (st : Reader.state) (i : nat) (s : segment) (v : jsstring) :
  Reader.shown_segments st !! i = Some s ->
  Reader.has_buttons u st s Reader.EditAndTag = true ->
  Reader.editingSegment st = None ->
  exists c,
    Reader.run u (w, st)
      [Reader.ClickEdit i; Reader.ChangeEditText i v;
       Reader.ClickCancelEdit i] = Some c
    /\ fst c = w
    /\ Reader.transcript_view u (snd c) = Reader.transcript_view u st
    /\ Reader.editText (snd c) = []
    /\ Reader.fullTranscript (snd c) = Reader.fullTranscript st.
Proof.
  intros Hi Hb He.
  destruct (run_edit_and_type u w st i s v [Reader.ClickCancelEdit i] Hi Hb)
    as (Hrun & Hi' & Hb').
  rewrite Hrun. cbn [Reader.run]. unfold Reader.step.
  cbn [fst snd Reader.handle].
  rewrite (on_segment_available _ i _ _ s Hi' Hb').
  eexists. split; [reflexivity|]. cbn [fst snd].
  split; [reflexivity|]. split; [|split; reflexivity].
  unfold Reader.transcript_view.
  change (Reader.shown_segments
            (Reader.dispatch (typing st s v) Reader.cancelEdit))
    with (Reader.shown_segments st).
  apply map_ext. intros x.
  apply SegmentDisplay_idle; [exact He | reflexivity | reflexivity].
Qed.

Lemma cancel_restores_view_witness :
  exists c,
    Reader.run Sample.premium (Sample.browser, Sample.reading)
      [Reader.ClickEdit 1; Reader.ChangeEditText 1 (js "x");
       Reader.ClickCancelEdit 1] = Some c
    /\ Reader.transcript_view Sample.premium (snd c)
       = Reader.transcript_view Sample.premium Sample.reading.
Proof.
  destruct (cancel_restores_view Sample.premium Sample.browser Sample.reading
              1 Sample.seg_2 (js "x") eq_refl eq_refl eq_refl)
    as (c & Hrun & _ & Hview & _).
  exists c. split; [exact Hrun | exact Hview].
Defined.

(** X19: opening an interview, whatever the answer, leaves the edit
    slot and the edit buffer as they are. So when a segment is being
    edited and the interview that comes back has a segment with the same
    id, that segment is on screen as a text area holding the buffer
    typed before. *)
Theorem opening_keeps_edit_slot (u : option user_record) (w : world)
    (st : Reader.state) (interviewId : option jsstring)
    (r : fetch_result interview_detail) :
  let st' :=
    Reader.dispatch st (snd (Reader.fetchFullTranscript w interviewId r)) in
  Reader.editingSegment st' = Reader.editingSegment st
  /\ Reader.editText st' = Reader.editText st
  /\ (forall d s, payload r = Some d -> In s (det_segments d) ->
        Reader.editingSegment st = Some (seg_id s) ->
        In s (Reader.shown_segments st')
        /\ Reader.view_text (Reader.SegmentDisplay u st' s)
           = Reader.Textarea (Reader.editText st)).
Proof.
  intros st'. subst st'.
  destruct (is_unauthorized r) eqn:H401.
  - rewrite (fetchFullTranscript_unauthorized _ _ _ H401).
    split; [reflexivity|]. split; [reflexivity|].
    intros d s Hd. exfalso.
    destruct r as [|status sT bT p]; [discriminate|].
    simpl in H401, Hd. rewrite (unauthorized_not_ok _ H401) in Hd.
    discriminate Hd.
  - destruct (payload r) as [d|] eqn:Hp.
    + rewrite (fetchFullTranscript_returns _ _ _ _ Hp).
      split; [reflexivity|]. split; [reflexivity|].
      intros d' s Hd Hin Hed. injection Hd as <-.
      split; [exact Hin|].
      unfold Reader.SegmentDisplay, Reader.is_editing. cbn.
      rewrite Hed, bool_decide_eq_true_2 by reflexivity. reflexivity.
    + rewrite (fetchFullTranscript_throws _ _ _ Hp H401).
      split; [reflexivity|]. split; [reflexivity|].
      intros d s Hd. discriminate Hd.
Qed.

Lemma opening_keeps_edit_slot_witness :
  Reader.view_text
    (Reader.SegmentDisplay Sample.premium
       (Reader.dispatch Sample.editing
          (snd (Reader.fetchFullTranscript Sample.browser
                  (Some (js "int-8")) (Sample.ok Sample.int_7))))
       Sample.seg_2)
  = Reader.Textarea (js "Det var fint").
Proof.
  destruct (opening_keeps_edit_slot Sample.premium Sample.browser
              Sample.editing (Some (js "int-8"))
              (Sample.ok Sample.int_7)) as (_ & _ & Hsame).
  destruct (Hsame Sample.int_7 Sample.seg_2 eq_refl) as (_ & Hview).
  - right. left. reflexivity.
  - reflexivity.
  - exact Hview.
Defined.

Lemma has_buttons_with_local (u : option user_record) (st : Reader.state)
    (a s : segment) (l : Reader.local) (b : Reader.buttons) :
  Reader.has_buttons u (Reader.with_local st a l) s b
  = Reader.has_buttons u st s b.
Proof. reflexivity. Qed.

Lemma has_panel_with_local (u : option user_record) (st : Reader.state)
    (s : segment) (l : Reader.local) :
  Reader.isEditable u = true -> seg_editable s = true ->
  Reader.has_panel u (Reader.with_local st s l) s = Reader.showTagging l.
Proof.
  intros Hu He. rewrite has_panel_spec, local_of_insert_same, Hu, He.
  apply andb_true_r.
Qed.

(** X20: cancelling the tagging panel closes it and sends nothing, and
    the tags of the segment are not changed; but what was chosen in the
    form is kept: opening the panel again shows the sentiment chosen
    before the cancel, not the one the segment is tagged with. *)
Theorem tag_cancel_keeps_form (u : option user_record) (w : world)
    (st : Reader.state) (i : nat) (s : segment) (v : jsstring) :
  Reader.shown_segments st !! i = Some s ->
  Reader.has_buttons u st s Reader.EditAndTag = true ->
  Reader.showTagging (Reader.local_of st s) = false ->
  (exists c,
      Reader.run u (w, st)
        [Reader.ClickTag i; Reader.ChangeSentiment i v;
         Reader.ClickCancelTags i] = Some c
      /\ fst c = w
      /\ Reader.has_panel u (snd c) s = false
      /\ Reader.fullTranscript (snd c) = Reader.fullTranscript st)
  /\ (exists c,
        Reader.run u (w, st)
          [Reader.ClickTag i; Reader.ChangeSentiment i v;
           Reader.ClickCancelTags i; Reader.ClickTag i] = Some c
        /\ fst c = w
        /\ Reader.view_tagging_panel (Reader.SegmentDisplay u (snd c) s)
           = Some {| Reader.showTagging := true;
                     Reader.selectedSentiment := v;
                     Reader.selectedTheme :=
                       Reader.selectedTheme (Reader.local_of st s);
                     Reader.notes := Reader.notes (Reader.local_of st s) |}).
Proof.
  intros Hi Hb Hclosed.
  destruct (edit_and_tag_offered u st s Hb) as (Hu & He & _).
  assert (Hsteps :
    Reader.run u (w, st)
      [Reader.ClickTag i; Reader.ChangeSentiment i v;
       Reader.ClickCancelTags i]
    = Some (w,
            Reader.with_local st s
              {| Reader.showTagging := false;
                 Reader.selectedSentiment := v;
                 Reader.selectedTheme :=
                   Reader.selectedTheme (Reader.local_of st s);
                 Reader.notes := Reader.notes (Reader.local_of st s) |})).
  { cbn [Reader.run]. unfold Reader.step at 1. cbn [fst snd Reader.handle].
    rewrite (on_segment_available st i _ _ s Hi Hb).
    cbn [Reader.dispatch fold_left Reader.apply_action]. rewrite Hclosed.
    unfold Reader.step at 1. cbn [fst snd Reader.handle negb].
    erewrite on_segment_available;
      [ | exact Hi | apply has_panel_with_local; assumption ].
    cbn [Reader.dispatch fold_left Reader.apply_action].
    rewrite local_of_insert_same.
    cbn [Reader.showTagging Reader.selectedTheme Reader.notes].
    unfold Reader.step at 1. cbn [fst snd Reader.handle].
    erewrite on_segment_available;
      [ | exact Hi | apply has_panel_with_local; assumption ].
    cbn [Reader.dispatch fold_left Reader.apply_action].
    rewrite local_of_insert_same.
    cbn [Reader.showTagging Reader.selectedSentiment Reader.selectedTheme
         Reader.notes].
    f_equal. f_equal.
    unfold Reader.with_local. cbn. rewrite !insert_insert_eq. reflexivity. }
  split.
  - eexists. split; [exact Hsteps|]. cbn [fst snd].
    split; [reflexivity|]. split; [|reflexivity].
    apply has_panel_with_local; assumption.
  - change [Reader.ClickTag i; Reader.ChangeSentiment i v;
            Reader.ClickCancelTags i; Reader.ClickTag i]
      with ([Reader.ClickTag i; Reader.ChangeSentiment i v;
             Reader.ClickCancelTags i] ++ [Reader.ClickTag i]).
    assert (Happ : forall es1 es2 c c1,
              Reader.run u c es1 = Some c1 ->
              Reader.run u c (es1 ++ es2) = Reader.run u c1 es2).
    { induction es1 as [|e es1 IH]; intros es2 c c1 H.
      - injection H as <-. reflexivity.
      - cbn [app Reader.run] in *.
        destruct (Reader.step u c e); [|discriminate]. apply IH, H. }
    rewrite (Happ _ _ _ _ Hsteps).
    cbn [Reader.run]. unfold Reader.step. cbn [fst snd Reader.handle].
    erewrite on_segment_available;
      [ | exact Hi | rewrite has_buttons_with_local; exact Hb ].
    eexists. split; [reflexivity|]. cbn [fst snd].
    split; [reflexivity|].
    cbn [Reader.dispatch fold_left Reader.apply_action].
    rewrite local_of_insert_same.
    unfold Reader.SegmentDisplay. cbn [Reader.view_tagging_panel].
    rewrite local_of_insert_same, Hu, He. reflexivity.
Qed.

Lemma tag_cancel_keeps_form_witness :
  exists c,
    Reader.run Sample.premium (Sample.browser, Sample.reading)
      [Reader.ClickTag 2; Reader.ChangeSentiment 2 (js "negative");
       Reader.ClickCancelTags 2; Reader.ClickTag 2] = Some c
    /\ Reader.view_tagging_panel
         (Reader.SegmentDisplay Sample.premium (snd c) Sample.seg_3)
       = Some {| Reader.showTagging := true;
                 Reader.selectedSentiment := js "negative";
                 Reader.selectedTheme := js "Service";
                 Reader.notes := [] |}.
Proof.
  destruct (tag_cancel_keeps_form Sample.premium Sample.browser
              Sample.reading 2 Sample.seg_3 (js "negative")
              eq_refl eq_refl eq_refl)
    as (_ & c & Hrun & _ & Hpanel).
  exists c. split; [exact Hrun | exact Hpanel].
Defined.

(** X21: opening the tagging panel of a segment whose own cells are
    still those of its mount and saving at once posts, as the first
    request, the tags the segment already has: its sentiment, theme and
    notes, each as the empty text when the segment has none. Whatever
    the answers, the panel is closed afterwards. *)
Theorem save_untouched_tags_posts_existing (u : option user_record)
    (w : world) (st : Reader.state) (i : nat) (s : segment)
    (r_tag : fetch_result unit) (r_detail : fetch_result interview_detail) :
  Reader.shown_segments st !! i = Some s ->
  Reader.has_buttons u st s Reader.EditAndTag = true ->
  Reader.locals st !! seg_id s = None ->
  exists c rest,
    Reader.run u (w, st)
      [Reader.ClickTag i; Reader.ClickSaveTags i r_tag r_detail] = Some c
    /\ map request_line (sent_since w (fst c))
       = POST (js "interview/tag")
           (TagBody (Reader.selectedInterview st) (seg_id s)
              (or_else (Reader.tag_field s tag_sentiment) [])
              (or_else (Reader.tag_field s tag_theme) [])
              (or_else (Reader.tag_field s tag_notes) []))
         :: rest
    /\ (length rest <= 1)%nat
    /\ Reader.has_panel u (snd c) s = false.
Proof.
  intros Hi Hb Hfresh.
  destruct (edit_and_tag_offered u st s Hb) as (Hu & He & _).
  assert (Hlocal : Reader.local_of st s = Reader.initial_local s).
  { unfold Reader.local_of. rewrite Hfresh. reflexivity. }
  cbn [Reader.run]. unfold Reader.step at 1. cbn [fst snd Reader.handle].
  rewrite (on_segment_available st i _ _ s Hi Hb).
  cbn [Reader.dispatch fold_left Reader.apply_action].
  rewrite Hlocal. cbn [Reader.initial_local Reader.showTagging negb
                       Reader.selectedSentiment Reader.selectedTheme
                       Reader.notes].
  unfold Reader.step at 1. cbn [fst snd Reader.handle].
  erewrite on_segment_available;
    [ | exact Hi | apply has_panel_with_local; assumption ].
  unfold Reader.saveTags, Reader.handleTagSegment.
  rewrite Hu, local_of_insert_same. cbn [negb Reader.selectedSentiment
    Reader.selectedTheme Reader.notes Reader.with_local
    Reader.selectedInterview].
  pose proof (apiCall_network w (js "interview/tag")
                (post (TagBody (Reader.selectedInterview st) (seg_id s)
                         (or_else (Reader.tag_field s tag_sentiment) [])
                         (or_else (Reader.tag_field s tag_theme) [])
                         (or_else (Reader.tag_field s tag_notes) [])))
                r_tag) as Hnet.
  destruct (apiCall w (js "interview/tag") _ r_tag) as [w1 [v1|e1]];
    cbn [fst] in Hnet.
  - pose proof (fetchFullTranscript_network w1
                  (Reader.selectedInterview st) r_detail) as Hnet2.
    assert (Hacts :
      snd (Reader.fetchFullTranscript w1 (Reader.selectedInterview st)
             r_detail)
      = [Reader.setLoadingTranscript true; Reader.setLoadingTranscript false]
      \/ exists data,
           snd (Reader.fetchFullTranscript w1 (Reader.selectedInterview st)
                  r_detail)
           = [Reader.setLoadingTranscript true;
              Reader.setFullTranscript data;
              Reader.setSelectedInterview (Reader.selectedInterview st);
              Reader.setLoadingTranscript false]).
    { unfold Reader.fetchFullTranscript.
      destruct (apiCall w1 _ no_options r_detail) as [w2 [v2|e2]];
        [right; exists v2; reflexivity | left; reflexivity]. }
    destruct (Reader.fetchFullTranscript w1 (Reader.selectedInterview st)
                r_detail) as [w2 acts2].
    cbn [fst snd] in *.
    eexists. eexists. split; [reflexivity|]. cbn [fst snd].
    split; [|split].
    + rewrite (two_requests w w1 w2 _ _ Hnet Hnet2). reflexivity.
    + cbn. lia.
    + rewrite has_panel_spec.
      destruct Hacts as [-> | (data & ->)]; cbn; reflexivity.
  - eexists. exists []. split; [reflexivity|]. cbn [fst snd].
    split; [|split].
    + rewrite (sent_since_app w (console_write w1 _) _ Hnet). reflexivity.
    + cbn. lia.
    + cbn [Reader.dispatch fold_left Reader.apply_action].
      rewrite has_panel_spec, local_of_insert_same. reflexivity.
Qed.

Lemma save_untouched_tags_posts_existing_witness :
  exists c rest,
    Reader.run Sample.premium (Sample.browser, Sample.reading)
      [Reader.ClickTag 2;
       Reader.ClickSaveTags 2 (Sample.ok tt) (Sample.ok Sample.int_7)]
    = Some c
    /\ map request_line (sent_since Sample.browser (fst c))
       = POST (js "interview/tag")
           (TagBody (Some (js "int-7")) (js "seg-3") (js "positive")
              (js "Service") [])
         :: rest.
Proof.
  destruct (save_untouched_tags_posts_existing Sample.premium Sample.browser
              Sample.reading 2 Sample.seg_3 (Sample.ok tt)
              (Sample.ok Sample.int_7) eq_refl eq_refl eq_refl)
    as (c & rest & Hrun & Hsent & _).
  exists c, rest. split; [exact Hrun | exact Hsent].
Defined.

(** ** After the session has ended *)

Lemma promise_all_session (w : world) (b : App.batch) (clock : jsstring)
    (rejected : bool) :
  localStorage (fst (fst (App.promise_all w b clock rejected)))
  = localStorage w
  /\ reloads (fst (fst (App.promise_all w b clock rejected))) = reloads w.
Proof.
  unfold App.promise_all.
  destruct (App.finished b); [split; reflexivity|].
  destruct rejected; [split; reflexivity|].
  destruct (App.overviewData b) as [|[vo|eo]];
    destruct (App.themesData b) as [|[vt|et]];
    destruct (App.ratingsData b) as [|[vr|er]];
    destruct (App.interviewsData b) as [|[vi|ei]];
    try (split; reflexivity).
  unfold App.fetchAllData_resume, App.catch.
  destruct vt; [destruct vr; [destruct vi|]|]; split; reflexivity.
Qed.

Lemma receive_unauthorized {A : Type} (w : world) (ep : jsstring)
    (r : fetch_result A) :
  is_unauthorized r = true ->
  localStorage (fst (apiCall_receive w ep r))
  = localStorage (clearStoredAuth w)
  /\ reloads (fst (apiCall_receive w ep r)) = S (reloads w).
Proof.
  destruct r as [|status sT bT p]; simpl; [discriminate|].
  intros H. rewrite H. split; reflexivity.
Qed.

(** X22: an answer with status 401 to any of the four requests of a
    batch ends the session whenever it comes in, also after the batch
    has settled: the token is gone from the storage, the page is
    reloaded once, and the application started again shows the login
    view. *)
Theorem unauthorized_answer_ends_session (c : App.config) (clock : jsstring)
    (a : App.arrival) (c' : App.config) :
  arrival_unauthorized a = true ->
  App.arrive c clock a = Some c' ->
  getStoredToken (App.env c') = None
  /\ reloads (App.env c') = S (reloads (App.env c))
  /\ App.page_after_reload (App.env c') = App.LandingPage.
Proof.
  intros H401 Harrive. unfold App.arrive in Harrive.
  destruct (App.fetchAllData_arrive (App.env c) (App.flight c) clock a)
    as [[[w1 acts] b1]|] eqn:Hstep; [|discriminate].
  injection Harrive as <-. cbn [App.env].
  assert (Hw : localStorage w1 = localStorage (clearStoredAuth (App.env c))
               /\ reloads w1 = S (reloads (App.env c))).
  { destruct a as [r|r|r|r]; cbn [App.fetchAllData_arrive] in Hstep;
      cbn [arrival_unauthorized] in H401;
      match type of Hstep with
      | (if ?p then _ else _) = _ => destruct p; [|discriminate Hstep]
      end;
      match type of Hstep with
      | context [apiCall_receive ?w ?ep ?r] =>
          destruct (receive_unauthorized w ep r H401) as (Hs & Hr);
          destruct (apiCall_receive w ep r) as [w2 o2]
      end;
      cbn [fst] in Hs, Hr;
      match type of Hstep with
      | Some (App.promise_all ?w ?b ?cl ?rej) = _ =>
          destruct (promise_all_session w b cl rej) as (Hs' & Hr');
          destruct (App.promise_all w b cl rej) as [[w3 acts3] b3]
      end;
      cbn [fst] in Hs', Hr'; injection Hstep as <- <- <-;
      split; congruence. }
  destruct Hw as (Hs & Hr).
  assert (Htok : getStoredToken w1 = None).
  { unfold getStoredToken. rewrite Hs.
    apply (clearStoredAuth_keys (App.env c)). }
  split; [exact Htok|]. split; [exact Hr|].
  apply no_token_landing. exact Htok.
Qed.

Lemma unauthorized_answer_ends_session_witness :
  exists c',
    App.arrive (App.fetchAllData Sample.browser Sample.signed_in false)
      (js "10.00.00") (App.ratings_arrives Sample.unauthorized) = Some c'
    /\ getStoredToken (App.env c') = None.
Proof.
  eexists. split; [vm_compute; reflexivity|].
  match goal with
  | |- getStoredToken (App.env ?c') = None =>
      destruct (unauthorized_answer_ends_session
                  (App.fetchAllData Sample.browser Sample.signed_in false)
                  (js "10.00.00") (App.ratings_arrives Sample.unauthorized)
                  c') as (Htoken & _)
  end.
  - reflexivity.
  - vm_compute. reflexivity.
  - exact Htoken.
Defined.

Lemma no_token_no_bearer (w : world) (endpoint : jsstring) :
  getStoredToken w = None ->
  rq_headers (request_of w endpoint no_options) !! "Authorization"%string
  = None.
Proof.
  intros H. unfold request_of. cbn [rq_headers].
  rewrite request_headers_lookup. cbn [opt_headers no_options].
  rewrite lookup_empty, H. reflexivity.
Qed.

(** X23: once the session has ended, by logout or by an answer with
    status 401, the next request of the gateway carries no
    [Authorization] header. In particular a save answered with 401 is
    nevertheless followed by the request for the interview, and that
    request goes out without a bearer. *)
Theorem ended_session_sends_no_bearer {A : Type} (u : option user_record)
    (w : world) (st : Reader.state) (endpoint next : jsstring) (o : options)
    (r : fetch_result A) (segmentId newText : jsstring)
    (r_save : fetch_result unit) (r_detail : fetch_result interview_detail) :
  is_unauthorized r = true -> is_unauthorized r_save = true ->
  Reader.isEditable u = true ->
  rq_headers (request_of (fst (App.handleLogout w)) next no_options)
    !! "Authorization"%string = None
  /\ rq_headers (request_of (fst (apiCall w endpoint o r)) next no_options)
       !! "Authorization"%string = None
  /\ exists save refetch,
       sent_since w
         (fst (Reader.handleEditSegment u w st segmentId newText
                 r_save r_detail)) = [save; refetch]
       /\ request_line refetch
          = GET (js "interview/" ++ template (Reader.selectedInterview st))
       /\ rq_headers refetch !! "Authorization"%string = None.
Proof.
  intros H401 Hsave Hu.
  destruct (clearStoredAuth_keys w) as (K1 & _).
  split; [|split].
  - apply no_token_no_bearer. exact K1.
  - apply no_token_no_bearer. unfold getStoredToken.
    destruct (apiCall_unauthorized w endpoint o r H401) as (_ & Hs & _).
    rewrite Hs. exact K1.
  - unfold Reader.handleEditSegment. rewrite Hu. cbn [negb].
    pose proof (apiCall_network w (js "interview/edit")
                  (post (EditBody (Reader.selectedInterview st) segmentId
                           newText)) r_save) as Hnet.
    destruct (apiCall_unauthorized w (js "interview/edit")
                (post (EditBody (Reader.selectedInterview st) segmentId
                         newText)) r_save Hsave) as (Hret & Hs & _).
    destruct (apiCall w (js "interview/edit") _ r_save) as [w1 res].
    cbn [fst snd] in *. subst res.
    pose proof (fetchFullTranscript_network w1
                  (Reader.selectedInterview st) r_detail) as Hnet2.
    destruct (Reader.fetchFullTranscript w1 (Reader.selectedInterview st)
                r_detail) as [w2 acts]. cbn [fst] in *.
    eexists. eexists. split; [exact (two_requests w w1 w2 _ _ Hnet Hnet2)|].
    split; [reflexivity|].
    apply no_token_no_bearer. unfold getStoredToken. rewrite Hs. exact K1.
Qed.

Lemma ended_session_sends_no_bearer_witness :
  rq_headers
    (request_of
       (fst (apiCall Sample.browser (js "overview") no_options
               (Sample.unauthorized (A := App.overview_data))))
       (js "themes") no_options) !! "Authorization"%string = None
  /\ rq_headers (request_of Sample.browser (js "themes") no_options)
       !! "Authorization"%string = Some (js "Bearer tok").
Proof.
  destruct (ended_session_sends_no_bearer Sample.premium Sample.browser
              Sample.editing (js "overview") (js "themes") no_options
              (Sample.unauthorized (A := App.overview_data))
              (js "seg-2") (js "x") Sample.unauthorized Sample.server_error
              eq_refl eq_refl eq_refl) as (_ & Hnone & _).
  split; [exact Hnone|].
  unfold request_of. cbn [rq_headers].
  rewrite request_headers_lookup. reflexivity.
Defined.
